(** * taskforceai-sdk-go: the task-lifecycle client

    A shallow embedding of [client.go] (request primitive, [SubmitTask],
    [GetTaskStatus], the [WaitForCompletion] poll loop) and of [stream.go]
    (the server-sent-event decoder [Next]), with the properties of the
    specification proved about them; then of the constructor, of the
    opening and closing of a stream, and of the file and thread accessors
    built on the request primitive.

    Go values are modelled as follows.
    - [string] is a byte string: Rocq's [string], one [ascii] per byte.
    - [int] and [time.Duration] are [Z]; the code does no arithmetic on them
      apart from the loop counter, which stays below [maxAttempts].
    - a pointer to a string ([*string]) is [option string]; a slice that may
      be nil is an [option (list _)].
    - a pair of results [(T, error)] is [T * option error] where the code
      returns both, and [result T] where the value is nil on error.
    - the network, the clock and the cancellation signal are an environment
      of oracles; what the client does to the outside world is recorded as a
      trace of events. *)

From Stdlib Require Import String Ascii List ZArith Lia Bool Arith.
From Stdlib Require Import DecimalString DecimalZ DecimalPos.
From Equations Require Import Equations.
From Equations.Prop Require Import Logic.
Import ListNotations.

Local Open Scope list_scope.
Local Open Scope string_scope.

(** ** Errors *)

(** [context.Context.Err()] of a context whose [Done] channel is closed. *)
Inductive ctxCause : Type :=
| Canceled
| DeadlineExceeded.

(** Go error values.  [Errorf msg] is the value built by [fmt.Errorf] in this
    package; the others come from the standard library. *)
Inductive error : Type :=
| Errorf (msg : string)
| context_Err (why : ctxCause)
| io_EOF
| lib_error (pkg msg : string).

Definition error_Error (e : error) : string :=
  match e with
  | Errorf msg => msg
  | context_Err Canceled => "context canceled"
  | context_Err DeadlineExceeded => "context deadline exceeded"
  | io_EOF => "EOF"
  | lib_error pkg msg => pkg ++ ": " ++ msg
  end.

(** A Go result whose value is nil when the error is not. *)
Inductive result (A : Type) : Type :=
| Ok (a : A)
| Err (e : error).
Arguments Ok {A} a.
Arguments Err {A} e.

(** ** Data model (types.go) *)

(** A decoded JSON value, as [encoding/json] stores it in an [interface{}].
    Numbers keep their literal. *)
#[warnings="-register-all"]
Inductive Json : Type :=
| JNull
| JBool (b : bool)
| JNumber (literal : string)
| JString (s : string)
| JArray (items : list Json)
| JObject (members : list (string * Json)).

(** [map[string]interface{}]; [None] is the nil map.  The client never looks
    inside. *)
Definition JsonMap : Type := option (list (string * Json)).

Record TaskSubmissionOptions : Type := {
  ModelID : string;
  Silent : bool;
  Mock : bool;
  VercelAIKey : string;
  OptMetadata : JsonMap
}.

Record TaskStatus : Type := {
  TaskID : string;
  Status : string;
  Result : option string;
  Error : option string;
  Warnings : option (list string);
  Metadata : JsonMap
}.

(** The Go zero value [TaskStatus{}]. *)
Definition zeroTaskStatus : TaskStatus :=
  {| TaskID := ""; Status := ""; Result := None; Error := None;
     Warnings := None; Metadata := None |}.

(** The body [SubmitTask] posts: [{"prompt": ..., "options": ...}], the
    second key present only for a non-nil options pointer. *)
Record SubmitBody : Type := {
  bodyPrompt : string;
  bodyOptions : option TaskSubmissionOptions
}.

(** ** Constants (client.go) *)

Definition DefaultBaseURL : string := "https://taskforceai.chat/api/developer".
Definition time_Second : Z := 1000000000.
Definition DefaultTimeout : Z := 30 * time_Second.
Definition DefaultPollInterval : Z := 1 * time_Second.
Definition DefaultMaxPoll : Z := 60.

Definition http_StatusOK : Z := 200.
Definition http_StatusAccepted : Z := 202.

(** ** HTTP messages and the client *)

Record Request : Type := {
  Method : string;
  URL : string;
  Header : list (string * string);
  ReqBody : option string
}.

Record Response : Type := {
  StatusCode : Z;
  RespHeader : list (string * list string);
  Body : string
}.

(** [responseHook] is a function value in Go; the model keeps whether it is
    set and records its calls in the trace. *)
Record Client : Type := {
  apiKey : string;
  baseURL : string;
  timeout : Z;
  responseHook : bool;
  mockMode : bool
}.

(** ** The standard library, as far as the client calls it

    These are functions of Go's standard library, not of this repository:
    they are parameters of the development.  [refRuntime] below is one
    instance, used to run the model on concrete inputs. *)
Class GoRuntime : Type := {
  (** [json.Marshal] of a submission body. *)
  json_Marshal : SubmitBody -> result string;
  (** [http.NewRequestWithContext]: the error for this method and URL. *)
  http_NewRequest : string -> string -> option error;
  (** [json.NewDecoder(body).Decode] into [struct{ TaskID string }]. *)
  json_Decode_TaskID : string -> result string;
  (** [json.NewDecoder(body).Decode] into a [TaskStatus]. *)
  json_Decode_TaskStatus : string -> result TaskStatus;
  (** [json.Unmarshal] into a [TaskStatus]. *)
  json_Unmarshal_TaskStatus : string -> result TaskStatus
}.

(** ** The outside world *)

(** What the [select] of the poll loop receives. *)
Inductive SelectOutcome : Type :=
| TimerFired
| CtxDone (why : ctxCause).

(** [http_Do k req] is the answer of [httpClient.Do] to [req] when [k]
    requests have been sent before it; it covers the server, the network and
    the request's context.  [select_wait k d] is the case taken by the
    [k]-th inter-poll [select], waiting [d] nanoseconds. *)
Record Env : Type := {
  http_Do : nat -> Request -> result Response;
  select_wait : nat -> Z -> SelectOutcome
}.

Inductive Event : Type :=
| EvSend (req : Request)
| EvHook (statusCode : Z) (header : list (string * list string))
| EvCallback (status : TaskStatus)
| EvSelect (interval : Z) (outcome : SelectOutcome).

(** The world is the trace so far, oldest event first. *)
Definition World : Type := list Event.

Definition isSend (e : Event) : bool :=
  match e with EvSend _ => true | _ => false end.
Definition isSelect (e : Event) : bool :=
  match e with EvSelect _ _ => true | _ => false end.

(** Number of network requests issued, and of inter-poll waits entered. *)
Definition sent (w : World) : nat := length (filter isSend w).
Definition waited (w : World) : nat := length (filter isSelect w).

(** The statuses the update callback was called with, in call order. *)
Fixpoint callbacks (w : World) : list TaskStatus :=
  match w with
  | [] => []
  | EvCallback s :: w' => s :: callbacks w'
  | _ :: w' => callbacks w'
  end.

(** The trace without the response-hook calls. *)
Definition isHook (e : Event) : bool :=
  match e with EvHook _ _ => true | _ => false end.
Definition pollView (w : World) : list Event :=
  filter (fun e => negb (isHook e)) w.

(** ** A state monad over the world *)

Definition M (A : Type) : Type := World -> A * World.

Definition ret {A : Type} (a : A) : M A := fun w => (a, w).

Definition bind {A B : Type} (m : M A) (k : A -> M B) : M B :=
  fun w => let (a, w') := m w in k a w'.

Notation "x <- m ;; k" := (bind m (fun x => k))
  (at level 61, m at next level, right associativity).
Notation "m ;;; k" := (bind m (fun _ => k))
  (at level 61, right associativity).

Definition emit (e : Event) : M unit := fun w => (tt, (w ++ [e])%list).

(** [strconv]-style decimal rendering, for the [%d] verb. *)
Definition itoa (z : Z) : string := NilZero.string_of_int (Z.to_int z).

Section ClientCode.

Context {rt : GoRuntime}.
Variable env : Env.

Definition httpClient_Do (req : Request) : M (result Response) :=
  fun w => (http_Do env (sent w) req, (w ++ [EvSend req])%list).

Definition select_ctx_or_timer (pollInterval : Z) : M SelectOutcome :=
  fun w => let o := select_wait env (waited w) pollInterval in
           (o, (w ++ [EvSelect pollInterval o])%list).

(** *** client.go: doRequest *)

Definition requestHeader (c : Client) : list (string * string) :=
  let authorization :=
    if String.eqb (apiKey c) "" then []
    else [("Authorization", "Bearer " ++ apiKey c)] in
  ([("Content-Type", "application/json")] ++ authorization
   ++ [("X-SDK-Language", "go")])%list.

Definition doRequest (c : Client) (method path : string)
    (body : option SubmitBody) : M (result Response) :=
  let url := baseURL c ++ path in
  match (match body with
         | Some b => match json_Marshal b with
                     | Err e => Err e
                     | Ok jsonBody => Ok (Some jsonBody)
                     end
         | None => Ok None
         end) with
  | Err e => ret (Err e)
  | Ok bodyReader =>
    match http_NewRequest method url with
    | Some e => ret (Err e)
    | None =>
      let req := {| Method := method; URL := url;
                    Header := requestHeader c; ReqBody := bodyReader |} in
      r <- httpClient_Do req ;;
      match r with
      | Err e => ret (Err e)
      | Ok resp =>
        (if responseHook c
         then emit (EvHook (StatusCode resp) (RespHeader resp))
         else ret tt) ;;;
        ret (Ok resp)
      end
    end
  end.

(** *** client.go: SubmitTask *)

Definition SubmitTask (c : Client) (prompt : string)
    (opts : option TaskSubmissionOptions) : M (string * option error) :=
  if String.eqb prompt "" then ret ("", Some (Errorf "prompt is required"))
  else
    let body := {| bodyPrompt := prompt; bodyOptions := opts |} in
    r <- doRequest c "POST" "/run" (Some body) ;;
    match r with
    | Err e => ret ("", Some e)
    | Ok resp =>
      if negb (Z.eqb (StatusCode resp) http_StatusOK)
         && negb (Z.eqb (StatusCode resp) http_StatusAccepted)
      then ret ("", Some (Errorf ("failed to submit task: status "
                                  ++ itoa (StatusCode resp))))
      else
        match json_Decode_TaskID (Body resp) with
        | Err e => ret ("", Some e)
        | Ok taskID => ret (taskID, None)
        end
    end.

(** *** client.go: GetTaskStatus *)

Definition GetTaskStatus (c : Client) (taskID : string)
    : M (TaskStatus * option error) :=
  r <- doRequest c "GET" ("/status/" ++ taskID) None ;;
  match r with
  | Err e => ret (zeroTaskStatus, Some e)
  | Ok resp =>
    if negb (Z.eqb (StatusCode resp) http_StatusOK)
    then ret (zeroTaskStatus,
              Some (Errorf ("failed to get task status: status "
                            ++ itoa (StatusCode resp))))
    else
      match json_Decode_TaskStatus (Body resp) with
      | Err e => ret (zeroTaskStatus, Some e)
      | Ok status => ret (status, None)
      end
  end.

(** *** client.go: WaitForCompletion

    [pollLoop] is the [for i := 0; i < maxAttempts; i++] loop; its last
    argument is the number of iterations left, [maxAttempts - i].  The body
    does not read [i]. *)
Fixpoint pollLoop (c : Client) (taskID : string) (pollInterval : Z)
    (callback : bool) (left : nat) : M (TaskStatus * option error) :=
  match left with
  | O => ret (zeroTaskStatus, Some (Errorf "task timed out"))
  | S left' =>
    r <- GetTaskStatus c taskID ;;
    let (status, err) := (r : TaskStatus * option error) in
    match err with
    | Some e => ret (zeroTaskStatus, Some e)
    | None =>
      (if callback then emit (EvCallback status) else ret tt) ;;;
      if String.eqb (Status status) "completed" then ret (status, None)
      else if String.eqb (Status status) "failed" then
        let errMsg := match Error status with
                      | Some m => m
                      | None => "task failed"
                      end in
        ret (status, Some (Errorf ("task failed: " ++ errMsg)))
      else
        o <- select_ctx_or_timer pollInterval ;;
        match o with
        | CtxDone why => ret (status, Some (context_Err why))
        | TimerFired => pollLoop c taskID pollInterval callback left'
        end
    end
  end.

Definition effectiveInterval (pollInterval : Z) : Z :=
  if Z.eqb pollInterval 0 then DefaultPollInterval else pollInterval.

Definition effectiveAttempts (maxAttempts : Z) : Z :=
  if Z.eqb maxAttempts 0 then DefaultMaxPoll else maxAttempts.

Definition WaitForCompletion (c : Client) (taskID : string)
    (pollInterval maxAttempts : Z) (callback : bool)
    : M (TaskStatus * option error) :=
  let pollInterval := effectiveInterval pollInterval in
  let maxAttempts := effectiveAttempts maxAttempts in
  pollLoop c taskID pollInterval callback (Z.to_nat maxAttempts).

(** *** client.go: RunTask *)

Definition RunTask (c : Client) (prompt : string)
    (opts : option TaskSubmissionOptions) (pollInterval maxAttempts : Z)
    (callback : bool) : M (TaskStatus * option error) :=
  r <- SubmitTask c prompt opts ;;
  let (taskID, err) := (r : string * option error) in
  match err with
  | Some e => ret (zeroTaskStatus, Some e)
  | None => WaitForCompletion c taskID pollInterval maxAttempts callback
  end.

End ClientCode.

(** ** The [strings] and [bufio] functions of stream.go

    Modelled from Go's standard library: these functions are not in this
    repository.  Strings are byte strings; [TrimSpace] removes the leading
    and trailing white space that [unicode.IsSpace] defines, seen through
    the UTF-8 encoding. *)

Definition byte_of (a : ascii) : N := N_of_ascii a.

(** The six ASCII white-space bytes: tab, line feed, vertical tab, form
    feed, carriage return and space. *)
Definition asciiSpace (a : ascii) : bool :=
  let n := byte_of a in
  (N.leb 9 n && N.leb n 13) || N.eqb n 32.

(** Two-byte encodings of white space: U+0085 and U+00A0. *)
Definition space2 (a b : ascii) : bool :=
  N.eqb (byte_of a) 194 && (N.eqb (byte_of b) 133 || N.eqb (byte_of b) 160).

(** Three-byte encodings of white space: U+1680, U+2000 to U+200A, U+2028,
    U+2029, U+202F, U+205F and U+3000. *)
Definition space3 (a b c : ascii) : bool :=
  let x := byte_of a in
  let y := byte_of b in
  let z := byte_of c in
  (N.eqb x 225 && N.eqb y 154 && N.eqb z 128)
  || (N.eqb x 226 && N.eqb y 128
      && ((N.leb 128 z && N.leb z 138)
          || N.eqb z 168 || N.eqb z 169 || N.eqb z 175))
  || (N.eqb x 226 && N.eqb y 129 && N.eqb z 159)
  || (N.eqb x 227 && N.eqb y 128 && N.eqb z 128).

(** [strings.TrimLeftFunc(s, unicode.IsSpace)] on the bytes of [s]. *)
Fixpoint trimLeft (s : list ascii) : list ascii :=
  match s with
  | a :: r1 =>
    if asciiSpace a then trimLeft r1
    else
      match r1 with
      | b :: r2 =>
        if space2 a b then trimLeft r2
        else
          match r2 with
          | c :: r3 => if space3 a b c then trimLeft r3 else s
          | [] => s
          end
      | [] => s
      end
  | [] => s
  end.

(** [strings.TrimRightFunc(s, unicode.IsSpace)], on the reversed bytes: the
    last byte of [s] comes first. *)
Fixpoint trimRightRev (s : list ascii) : list ascii :=
  match s with
  | c :: r1 =>
    if asciiSpace c then trimRightRev r1
    else
      match r1 with
      | b :: r2 =>
        if space2 b c then trimRightRev r2
        else
          match r2 with
          | a :: r3 => if space3 a b c then trimRightRev r3 else s
          | [] => s
          end
      | [] => s
      end
  | [] => s
  end.

Definition strings_TrimSpace (s : string) : string :=
  string_of_list_ascii
    (rev (trimRightRev (rev (trimLeft (list_ascii_of_string s))))).

Definition strings_HasPrefix (s p : string) : bool := String.prefix p s.

(** The slice expression [s[n:]], for [n <= len(s)]. *)
Definition slice_from (n : nat) (s : string) : string :=
  String.substring n (String.length s - n) s.

Definition newline : ascii := "010"%char.

(** A [bufio.Reader] over the response body: the bytes not yet consumed,
    and the error the body reports once they are used up ([io.EOF] when the
    server closed the connection). *)
Record Reader : Type := {
  unread : string;
  exhausted : error
}.

(** Splits at the first line feed: the line with its line feed, and the
    rest. *)
Fixpoint cutLine (s : string) : option (string * string) :=
  match s with
  | EmptyString => None
  | String a r =>
    if Ascii.eqb a newline then Some (String a EmptyString, r)
    else match cutLine r with
         | Some (l, r') => Some (String a l, r')
         | None => None
         end
  end.

(** [ReadString] of [bufio.Reader], called with the line feed as
    delimiter: the bytes up to and including the
    first line feed; when the input ends first, the bytes read so far and
    the error. *)
Definition bufio_ReadString (rd : Reader)
    : (string * option error) * Reader :=
  match cutLine (unread rd) with
  | Some (line, rest) =>
    ((line, None), {| unread := rest; exhausted := exhausted rd |})
  | None =>
    ((unread rd, Some (exhausted rd)),
     {| unread := EmptyString; exhausted := exhausted rd |})
  end.

(** ** stream.go *)

(** [ctx] is the state of the stream's context: [None] while it is live,
    [Some why] once its [Done] channel is closed.  The connection is the
    [reader]. *)
Record sseStream : Type := {
  taskID : string;
  ctx : option ctxCause;
  reader : Reader
}.

Definition with_reader (s : sseStream) (rd : Reader) : sseStream :=
  {| taskID := taskID s; ctx := ctx s; reader := rd |}.

Definition stream_TaskID (s : sseStream) : string := taskID s.

Section StreamCode.

Context {rt : GoRuntime}.

(** *** stream.go: Next

    The [for] loop ends because every iteration that continues has consumed
    a line. *)
Equations? Next (s : sseStream) : (TaskStatus * option error) * sseStream
  by wf (String.length (unread (reader s))) lt :=
Next s with ctx s := {
  | Some why := ((zeroTaskStatus, Some (context_Err why)), s);
  | None with inspect (bufio_ReadString (reader s)) := {
    | exist _ ((_, Some err), rd) _ :=
        ((zeroTaskStatus, Some err), with_reader s rd);
    | exist _ ((line, None), rd) Hread :=
        let line := strings_TrimSpace line in
        if String.eqb line "" || strings_HasPrefix line ":"
        then Next (with_reader s rd)
        else if strings_HasPrefix line "data:"
        then
          let data := strings_TrimSpace (slice_from 5 line) in
          match json_Unmarshal_TaskStatus data with
          | Err err => ((zeroTaskStatus, Some err), with_reader s rd)
          | Ok status => ((status, None), with_reader s rd)
          end
        else Next (with_reader s rd) } }.
Proof.
  all: assert (Hcut : forall x l r : string,
                 cutLine x = Some (l, r) -> String.length r < String.length x).
  all: try (induction x as [|a x IH]; intros l r; simpl;
            [ discriminate
            | destruct (Ascii.eqb a newline);
              [ intros H; injection H as _ <-; lia
              | destruct (cutLine x) as [[l' r']|] eqn:E; [|discriminate];
                intros H; injection H as _ <-;
                specialize (IH l' r' eq_refl); lia ] ]).
  all: unfold bufio_ReadString in Hread;
       destruct (cutLine (unread (reader s))) as [[l r]|] eqn:E;
       [|discriminate];
       injection Hread as _ <-; simpl; eapply Hcut; eassumption.
Qed.

End StreamCode.

(** ** A reference runtime

    A small JSON reader and writer, enough to run the client on concrete
    bytes.  Modelled from the documentation of Go's [encoding/json] and
    [net/http]; it is one instance of [GoRuntime], and the theorems below
    hold for every instance.  Limits of this instance: [\u] escapes are
    rejected, bytes are not checked to be UTF-8, object keys match a field
    name exactly or up to ASCII case, and [http_NewRequest] checks only the
    method token and control bytes in the URL. *)
Module RefRuntime.

Definition dquote : ascii := "034"%char.
Definition backslash : ascii := "092"%char.

Definition jsonSpace (a : ascii) : bool :=
  let n := byte_of a in
  N.eqb n 32 || N.eqb n 9 || N.eqb n 10 || N.eqb n 13.

Fixpoint skipSpace (s : list ascii) : list ascii :=
  match s with
  | a :: r => if jsonSpace a then skipSpace r else s
  | [] => []
  end.

Definition isDigit (a : ascii) : bool :=
  N.leb 48 (byte_of a) && N.leb (byte_of a) 57.

(** The body of a string literal, after its opening quote. *)
Fixpoint readString (s : list ascii) : option (list ascii * list ascii) :=
  match s with
  | [] => None
  | a :: r =>
    if Ascii.eqb a dquote then Some ([], r)
    else if Ascii.eqb a backslash then
      match r with
      | e :: r' =>
        let plain (x : ascii) :=
          match readString r' with
          | Some (t, rest) => Some (x :: t, rest)
          | None => None
          end in
        if Ascii.eqb e dquote then plain dquote
        else if Ascii.eqb e backslash then plain backslash
        else if Ascii.eqb e "/"%char then plain "/"%char
        else if Ascii.eqb e "b"%char then plain "008"%char
        else if Ascii.eqb e "f"%char then plain "012"%char
        else if Ascii.eqb e "n"%char then plain "010"%char
        else if Ascii.eqb e "r"%char then plain "013"%char
        else if Ascii.eqb e "t"%char then plain "009"%char
        else None
      | [] => None
      end
    else if N.ltb (byte_of a) 32 then None
    else
      match readString r with
      | Some (t, rest) => Some (a :: t, rest)
      | None => None
      end
  end.

Fixpoint readDigits (s : list ascii) : list ascii * list ascii :=
  match s with
  | a :: r =>
    if isDigit a then let (d, rest) := readDigits r in (a :: d, rest)
    else ([], s)
  | [] => ([], [])
  end.

(** A number literal: sign, integer part, fraction, exponent. *)
Definition readNumber (s : list ascii) : option (list ascii * list ascii) :=
  let (sign, s1) :=
    match s with
    | a :: r => if Ascii.eqb a "-"%char then ([a], r) else ([], s)
    | [] => ([], s)
    end in
  let (int, s2) := readDigits s1 in
  match int with
  | [] => None
  | d0 :: more =>
    if Ascii.eqb d0 "0"%char && negb (Nat.eqb (length more) 0) then None
    else
      let frac :=
        match s2 with
        | a :: r =>
          if Ascii.eqb a "."%char then
            let (f, r') := readDigits r in
            match f with
            | [] => None
            | _ => Some (a :: f, r')
            end
          else Some ([], s2)
        | [] => Some ([], s2)
        end in
      match frac with
      | None => None
      | Some (f, s3) =>
        let expo :=
          match s3 with
          | a :: r =>
            if Ascii.eqb a "e"%char || Ascii.eqb a "E"%char then
              let (sg, r1) :=
                match r with
                | b :: r' =>
                  if Ascii.eqb b "+"%char || Ascii.eqb b "-"%char
                  then ([b], r') else ([], r)
                | [] => ([], r)
                end in
              let (x, r2) := readDigits r1 in
              match x with
              | [] => None
              | _ => Some (a :: sg ++ x, r2)
              end
            else Some ([], s3)
          | [] => Some ([], s3)
          end in
        match expo with
        | None => None
        | Some (x, s4) => Some (sign ++ int ++ f ++ x, s4)
        end
      end
  end%list.

Fixpoint readWord (w s : list ascii) : option (list ascii) :=
  match w, s with
  | [], _ => Some s
  | a :: w', b :: s' => if Ascii.eqb a b then readWord w' s' else None
  | _ :: _, [] => None
  end.

Definition str (l : list ascii) : string := string_of_list_ascii l.
Definition bytes (s : string) : list ascii := list_ascii_of_string s.

(** One JSON value and the bytes after it.  [fuel] bounds the nesting and
    the number of members; the callers pass the length of the input plus
    one. *)
Fixpoint readValue (fuel : nat) (s : list ascii) {struct fuel}
    : option (Json * list ascii) :=
  match fuel with
  | O => None
  | S fuel' =>
    match skipSpace s with
    | [] => None
    | a :: r =>
      if Ascii.eqb a "{"%char then
        match skipSpace r with
        | b :: r' =>
          if Ascii.eqb b "}"%char then Some (JObject [], r')
          else
            match readMembers fuel' (b :: r') with
            | Some (ms, rest) => Some (JObject ms, rest)
            | None => None
            end
        | [] => None
        end
      else if Ascii.eqb a "["%char then
        match skipSpace r with
        | b :: r' =>
          if Ascii.eqb b "]"%char then Some (JArray [], r')
          else
            match readItems fuel' (b :: r') with
            | Some (items, rest) => Some (JArray items, rest)
            | None => None
            end
        | [] => None
        end
      else if Ascii.eqb a dquote then
        match readString r with
        | Some (t, rest) => Some (JString (str t), rest)
        | None => None
        end
      else if Ascii.eqb a "t"%char then
        option_map (fun rest => (JBool true, rest)) (readWord (bytes "rue") r)
      else if Ascii.eqb a "f"%char then
        option_map (fun rest => (JBool false, rest))
                   (readWord (bytes "alse") r)
      else if Ascii.eqb a "n"%char then
        option_map (fun rest => (JNull, rest)) (readWord (bytes "ull") r)
      else
        match readNumber (a :: r) with
        | Some (lit, rest) => Some (JNumber (str lit), rest)
        | None => None
        end
    end
  end
with readMembers (fuel : nat) (s : list ascii) {struct fuel}
    : option (list (string * Json) * list ascii) :=
  match fuel with
  | O => None
  | S fuel' =>
    match s with
    | q :: r =>
      if Ascii.eqb q dquote then
        match readString r with
        | Some (k, r1) =>
          match skipSpace r1 with
          | c :: r2 =>
            if Ascii.eqb c ":"%char then
              match readValue fuel' r2 with
              | Some (v, r3) =>
                match skipSpace r3 with
                | d :: r4 =>
                  if Ascii.eqb d "}"%char then Some ([(str k, v)], r4)
                  else if Ascii.eqb d ","%char then
                    match readMembers fuel' (skipSpace r4) with
                    | Some (ms, r5) => Some ((str k, v) :: ms, r5)
                    | None => None
                    end
                  else None
                | [] => None
                end
              | None => None
              end
            else None
          | [] => None
          end
        | None => None
        end
      else None
    | [] => None
    end
  end
with readItems (fuel : nat) (s : list ascii) {struct fuel}
    : option (list Json * list ascii) :=
  match fuel with
  | O => None
  | S fuel' =>
    match readValue fuel' s with
    | Some (v, r1) =>
      match skipSpace r1 with
      | d :: r2 =>
        if Ascii.eqb d "]"%char then Some ([v], r2)
        else if Ascii.eqb d ","%char then
          match readItems fuel' r2 with
          | Some (vs, r3) => Some (v :: vs, r3)
          | None => None
          end
        else None
      | [] => None
      end
    | None => None
    end
  end.

Definition syntaxError : error :=
  lib_error "json" "invalid character or unexpected end of JSON input".
Definition typeError (field : string) : error :=
  lib_error "json" ("cannot unmarshal value into Go struct field " ++ field).

(** [json.Unmarshal]: the whole input is one value. *)
Definition parseAll (s : string) : result Json :=
  match readValue (S (String.length s)) (bytes s) with
  | Some (v, rest) =>
    match skipSpace rest with
    | [] => Ok v
    | _ :: _ => Err syntaxError
    end
  | None => Err syntaxError
  end.

(** [Decoder.Decode]: the first value of the input; [io.EOF] when there is
    none. *)
Definition parseFirst (s : string) : result Json :=
  match skipSpace (bytes s) with
  | [] => Err io_EOF
  | _ :: _ =>
    match readValue (S (String.length s)) (bytes s) with
    | Some (v, _) => Ok v
    | None => Err syntaxError
    end
  end.

(** Field names are matched exactly or up to ASCII case. *)
Definition lowerByte (a : ascii) : ascii :=
  let n := byte_of a in
  if N.leb 65 n && N.leb n 90 then ascii_of_N (n + 32) else a.

Definition sameField (key field : string) : bool :=
  String.eqb (str (map lowerByte (bytes key)))
             (str (map lowerByte (bytes field))).

Definition asString (field : string) (old : string) (v : Json)
    : result string :=
  match v with
  | JString x => Ok x
  | JNull => Ok old
  | _ => Err (typeError field)
  end.

Definition asStringPtr (field : string) (v : Json) : result (option string) :=
  match v with
  | JString x => Ok (Some x)
  | JNull => Ok None
  | _ => Err (typeError field)
  end.

Fixpoint asStrings (field : string) (items : list Json)
    : result (list string) :=
  match items with
  | [] => Ok []
  | v :: r =>
    match asString field "" v, asStrings field r with
    | Ok x, Ok xs => Ok (x :: xs)
    | Err e, _ => Err e
    | _, Err e => Err e
    end
  end.

Definition asStringSlice (field : string) (v : Json)
    : result (option (list string)) :=
  match v with
  | JArray items =>
    match asStrings field items with
    | Ok xs => Ok (Some xs)
    | Err e => Err e
    end
  | JNull => Ok None
  | _ => Err (typeError field)
  end.

(** A JSON object decoded into a map adds its members to the map. *)
Definition asMap (field : string) (old : JsonMap) (v : Json)
    : result JsonMap :=
  match v with
  | JObject ms =>
    Ok (Some (match old with Some m => m ++ ms | None => ms end)%list)
  | JNull => Ok None
  | _ => Err (typeError field)
  end.

(** Members are stored in input order; unknown keys are ignored. *)
Fixpoint fillTaskStatus (ms : list (string * Json)) (st : TaskStatus)
    : result TaskStatus :=
  match ms with
  | [] => Ok st
  | (k, v) :: r =>
    let next :=
      if sameField k "taskId" then
        match asString "TaskStatus.taskId" (TaskID st) v with
        | Ok x => Ok {| TaskID := x; Status := Status st;
                        Result := Result st; Error := Error st;
                        Warnings := Warnings st; Metadata := Metadata st |}
        | Err e => Err e
        end
      else if sameField k "status" then
        match asString "TaskStatus.status" (Status st) v with
        | Ok x => Ok {| TaskID := TaskID st; Status := x;
                        Result := Result st; Error := Error st;
                        Warnings := Warnings st; Metadata := Metadata st |}
        | Err e => Err e
        end
      else if sameField k "result" then
        match asStringPtr "TaskStatus.result" v with
        | Ok x => Ok {| TaskID := TaskID st; Status := Status st;
                        Result := x; Error := Error st;
                        Warnings := Warnings st; Metadata := Metadata st |}
        | Err e => Err e
        end
      else if sameField k "error" then
        match asStringPtr "TaskStatus.error" v with
        | Ok x => Ok {| TaskID := TaskID st; Status := Status st;
                        Result := Result st; Error := x;
                        Warnings := Warnings st; Metadata := Metadata st |}
        | Err e => Err e
        end
      else if sameField k "warnings" then
        match asStringSlice "TaskStatus.warnings" v with
        | Ok x => Ok {| TaskID := TaskID st; Status := Status st;
                        Result := Result st; Error := Error st;
                        Warnings := x; Metadata := Metadata st |}
        | Err e => Err e
        end
      else if sameField k "metadata" then
        match asMap "TaskStatus.metadata" (Metadata st) v with
        | Ok x => Ok {| TaskID := TaskID st; Status := Status st;
                        Result := Result st; Error := Error st;
                        Warnings := Warnings st; Metadata := x |}
        | Err e => Err e
        end
      else Ok st in
    match next with
    | Ok st' => fillTaskStatus r st'
    | Err e => Err e
    end
  end.

Definition toTaskStatus (v : Json) : result TaskStatus :=
  match v with
  | JObject ms => fillTaskStatus ms zeroTaskStatus
  | JNull => Ok zeroTaskStatus
  | _ => Err (typeError "TaskStatus")
  end.

Fixpoint fillTaskID (ms : list (string * Json)) (id : string)
    : result string :=
  match ms with
  | [] => Ok id
  | (k, v) :: r =>
    if sameField k "taskId" then
      match asString "taskId" id v with
      | Ok x => fillTaskID r x
      | Err e => Err e
      end
    else fillTaskID r id
  end.

Definition toTaskID (v : Json) : result string :=
  match v with
  | JObject ms => fillTaskID ms ""
  | JNull => Ok ""
  | _ => Err (typeError "taskId")
  end.

Definition andThen {A B : Type} (r : result A) (f : A -> result B)
    : result B :=
  match r with
  | Ok a => f a
  | Err e => Err e
  end.

(** *** Writing JSON *)

Definition hexDigit (n : N) : ascii :=
  if N.ltb n 10 then ascii_of_N (48 + n) else ascii_of_N (87 + n).

Definition escapeByte (a : ascii) : list ascii :=
  let n := byte_of a in
  if Ascii.eqb a dquote then [backslash; dquote]
  else if Ascii.eqb a backslash then [backslash; backslash]
  else if N.eqb n 10 then [backslash; "n"%char]
  else if N.eqb n 13 then [backslash; "r"%char]
  else if N.eqb n 9 then [backslash; "t"%char]
  else if N.ltb n 32 || N.eqb n 60 || N.eqb n 62 || N.eqb n 38 then
    [backslash; "u"%char; "0"%char; "0"%char;
     hexDigit (N.div n 16); hexDigit (N.modulo n 16)]
  else [a].

Definition writeString (s : string) : list ascii :=
  (dquote :: flat_map escapeByte (bytes s) ++ [dquote])%list.

Fixpoint writeJson (v : Json) : list ascii :=
  match v with
  | JNull => bytes "null"
  | JBool true => bytes "true"
  | JBool false => bytes "false"
  | JNumber lit => bytes lit
  | JString x => writeString x
  | JArray items =>
    let fix go (l : list Json) : list ascii :=
      match l with
      | [] => []
      | [x] => writeJson x
      | x :: r => writeJson x ++ bytes "," ++ go r
      end in
    bytes "[" ++ go items ++ bytes "]"
  | JObject ms =>
    let fix go (l : list (string * Json)) : list ascii :=
      match l with
      | [] => []
      | [(k, x)] => writeString k ++ bytes ":" ++ writeJson x
      | (k, x) :: r =>
        writeString k ++ bytes ":" ++ writeJson x ++ bytes "," ++ go r
      end in
    bytes "{" ++ go ms ++ bytes "}"
  end%list.

Fixpoint joinFields (fields : list (list ascii)) : list ascii :=
  match fields with
  | [] => []
  | [f] => f
  | f :: r => (f ++ bytes "," ++ joinFields r)%list
  end.

Definition field (name : string) (value : list ascii) : list ascii :=
  (writeString name ++ bytes ":" ++ value)%list.

(** The struct tags of [TaskSubmissionOptions] all say [omitempty]. *)
Definition writeOptions (o : TaskSubmissionOptions) : list ascii :=
  let fields :=
    ((if String.eqb (ModelID o) "" then []
      else [field "modelId" (writeString (ModelID o))])
     ++ (if Silent o then [field "silent" (bytes "true")] else [])
     ++ (if Mock o then [field "mock" (bytes "true")] else [])
     ++ (if String.eqb (VercelAIKey o) "" then []
         else [field "vercelAiKey" (writeString (VercelAIKey o))])
     ++ (match OptMetadata o with
         | Some (m :: ms) => [field "metadata" (writeJson (JObject (m :: ms)))]
         | _ => []
         end))%list in
  (bytes "{" ++ joinFields fields ++ bytes "}")%list.

(** Map keys are written in sorted order: options before prompt. *)
Definition marshal (b : SubmitBody) : result string :=
  let fields :=
    ((match bodyOptions b with
      | Some o => [field "options" (writeOptions o)]
      | None => []
      end)
     ++ [field "prompt" (writeString (bodyPrompt b))])%list in
  Ok (str (bytes "{" ++ joinFields fields ++ bytes "}")%list).

(** *** Building a request *)

Definition isTokenByte (a : ascii) : bool :=
  let n := byte_of a in
  (N.leb 65 n && N.leb n 90) || (N.leb 97 n && N.leb n 122)
  || (N.leb 48 n && N.leb n 57)
  || existsb (Ascii.eqb a) (bytes "!#$%&'*+-.^_`|~").

Definition isControl (a : ascii) : bool :=
  N.ltb (byte_of a) 32 || N.eqb (byte_of a) 127.

Definition newRequest (method url : string) : option error :=
  if negb (String.eqb method "") && negb (forallb isTokenByte (bytes method))
  then Some (lib_error "net/http" ("invalid method " ++ method))
  else if existsb isControl (bytes url)
  then Some (lib_error "net/url" "invalid control character in URL")
  else None.

End RefRuntime.

Definition refRuntime : GoRuntime := {|
  json_Marshal := RefRuntime.marshal;
  http_NewRequest := RefRuntime.newRequest;
  json_Decode_TaskID := fun body =>
    RefRuntime.andThen (RefRuntime.parseFirst body) RefRuntime.toTaskID;
  json_Decode_TaskStatus := fun body =>
    RefRuntime.andThen (RefRuntime.parseFirst body) RefRuntime.toTaskStatus;
  json_Unmarshal_TaskStatus := fun data =>
    RefRuntime.andThen (RefRuntime.parseAll data) RefRuntime.toTaskStatus
|}.

(** ** Notions used to state the properties *)

Local Open Scope bool_scope.

(** A status on which the poll loop keeps going. *)
Definition nonTerminal (s : TaskStatus) : Prop :=
  Status s <> "completed" /\ Status s <> "failed".

(** The request [GetTaskStatus] sends. *)
Definition statusRequest (c : Client) (id : string) : Request :=
  {| Method := "GET"; URL := baseURL c ++ "/status/" ++ id;
     Header := requestHeader c; ReqBody := None |}.

(** The events of the update callback for one status: none for a nil
    callback. *)
Definition callbackEvents (callback : bool) (s : TaskStatus) : list Event :=
  if callback then [EvCallback s] else [].

(** The message [WaitForCompletion] gives for a failed task. *)
Definition failureMessage (s : TaskStatus) : string :=
  "task failed: " ++ match Error s with
                     | Some m => m
                     | None => "task failed"
                     end.

(** [sub] occurs in [s]. *)
Definition contains (s sub : string) : Prop :=
  exists before after : string, s = before ++ sub ++ after.

(** What one poll iteration on a non-terminal status leaves in the trace,
    the response hook apart: the fetch, the callback, the wait. *)
Definition quietIteration (c : Client) (id : string) (d : Z)
    (callback : bool) (s : TaskStatus) : list Event :=
  ([EvSend (statusRequest c id)] ++ callbackEvents callback s
   ++ [EvSelect d TimerFired])%list.

Section Fetching.

Context {rt : GoRuntime}.
Variable env : Env.
Variable c : Client.
Variable id : string.

(** [fetchAt k] is what [GetTaskStatus] returns when [k] requests have been
    sent before it: the outcome of the status fetch number [k]. *)
Definition fetchAt (k : nat) : TaskStatus * option error :=
  fst (GetTaskStatus env c id (repeat (EvSend (statusRequest c id)) k)).

(** The status of the last successful fetch among the [n] fetches numbered
    from [from]. *)
Fixpoint lastFetched (from n : nat) : option TaskStatus :=
  match n with
  | O => None
  | S m =>
    match fetchAt (from + m) with
    | (s, None) => Some s
    | (_, Some _) => lastFetched from m
    end
  end.

(** The fetches numbered from [k0] succeed and yield [sts] in turn. *)
Definition fetchesYield (k0 : nat) (sts : list TaskStatus) : Prop :=
  forall (i : nat) (s : TaskStatus),
    nth_error sts i = Some s -> fetchAt (k0 + i) = (s, None).

(** In the [n] inter-poll waits numbered from [j0], each waiting [d], the
    timer fires and the context is not done. *)
Definition timerWins (d : Z) (j0 n : nat) : Prop :=
  forall i : nat, i < n -> select_wait env (j0 + i) d = TimerFired.

End Fetching.

(** How a run of [WaitForCompletion] from [w] to [w'] that returned [s] and
    [err] ended: with success, with a failed task, with the context done
    during a wait, with the attempts used up, or with a failed fetch. *)
Definition runEnding {rt : GoRuntime} (env : Env) (c : Client) (id : string)
    (d : Z) (attempts : nat) (w w' : World) (s : TaskStatus)
    (err : option error) : Prop :=
  let last := lastFetched env c id (sent w) (sent w' - sent w) in
  (err = None /\ Status s = "completed" /\ last = Some s)
  \/ (err = Some (Errorf (failureMessage s)) /\ Status s = "failed"
      /\ last = Some s)
  \/ (exists why : ctxCause,
        err = Some (context_Err why) /\ nonTerminal s /\ last = Some s
        /\ waited w < waited w'
        /\ select_wait env (waited w' - 1) d = CtxDone why)
  \/ (err = Some (Errorf "task timed out") /\ s = zeroTaskStatus
      /\ waited w' = waited w + attempts)
  \/ (exists (e : error) (s0 : TaskStatus),
        err = Some e /\ s = zeroTaskStatus
        /\ fetchAt env c id (sent w + (waited w' - waited w))
           = (s0, Some e)).

(** The returned status as the specification's error-handling section
    states it: whenever a fetch of the run succeeded, the status returned
    is that of the last successful fetch. *)
Definition returns_last_fetched {rt : GoRuntime} (env : Env) (c : Client)
    (id : string) (pollInterval maxAttempts : Z) (cb : bool) (w : World)
    : Prop :=
  let (r, w') := WaitForCompletion env c id pollInterval maxAttempts cb w in
  forall s0 : TaskStatus,
    lastFetched env c id (sent w) (sent w' - sent w) = Some s0 ->
    fst r = s0.

(** The timeout as the specification states it: when every one of the
    attempted fetches takes place and succeeds with a non-terminal status,
    the run ends with the timeout error after that many fetches. *)
Definition times_out_as_stated {rt : GoRuntime} (env : Env) (c : Client)
    (id : string) (pollInterval maxAttempts : Z) (cb : bool) (w : World)
    (sts : list TaskStatus) : Prop :=
  length sts = Z.to_nat (effectiveAttempts maxAttempts) ->
  Forall nonTerminal sts ->
  fetchesYield env c id (sent w) sts ->
  timerWins env (effectiveInterval pollInterval) (waited w)
    (length sts - 1) ->
  exists (s : TaskStatus) (w' : World),
    WaitForCompletion env c id pollInterval maxAttempts cb w
    = ((s, Some (Errorf "task timed out")), w')
    /\ sent w' = sent w + length sts.

(** ** Notions used for the stream *)

Fixpoint hasNewline (s : string) : bool :=
  match s with
  | EmptyString => false
  | String a r => Ascii.eqb a newline || hasNewline r
  end.

(** A byte below 128 that is not white space; no encoding of white space
    contains one. *)
Definition plainByte (a : ascii) : bool :=
  N.ltb (byte_of a) 128 && negb (asciiSpace a).

(** What [Next] returns for the outcome of decoding a frame. *)
Definition frameResult (r : result TaskStatus) : TaskStatus * option error :=
  match r with
  | Ok status => (status, None)
  | Err e => (zeroTaskStatus, Some e)
  end.

(** The stream after a line has been read, [rest] being what follows it. *)
Definition after_line (s : sseStream) (rest : string) : sseStream :=
  with_reader s {| unread := rest; exhausted := exhausted (reader s) |}.

(** ** Stream inputs of the specification's example *)

Definition quoted (s : string) : string :=
  String RefRuntime.dquote (s ++ String RefRuntime.dquote EmptyString).

Definition lf : string := String newline EmptyString.

(** [{"taskId":"t","status":"processing"}] *)
Definition processingPayload : string :=
  "{" ++ quoted "taskId" ++ ":" ++ quoted "t" ++ ","
  ++ quoted "status" ++ ":" ++ quoted "processing" ++ "}".

(** [{"taskId":"t","status":"completed","result":"done"}] *)
Definition completedPayload : string :=
  "{" ++ quoted "taskId" ++ ":" ++ quoted "t" ++ ","
  ++ quoted "status" ++ ":" ++ quoted "completed" ++ ","
  ++ quoted "result" ++ ":" ++ quoted "done" ++ "}".

(** The two frames, each followed by a blank line. *)
Definition exampleBytes : string :=
  "data: " ++ processingPayload ++ lf ++ lf
  ++ "data: " ++ completedPayload ++ lf ++ lf.

Definition processingStatus : TaskStatus :=
  {| TaskID := "t"; Status := "processing"; Result := None; Error := None;
     Warnings := None; Metadata := None |}.

Definition completedStatus : TaskStatus :=
  {| TaskID := "t"; Status := "completed"; Result := Some "done";
     Error := None; Warnings := None; Metadata := None |}.

(** A live stream over the given bytes, closed by the server after them. *)
Definition streamOver (input : string) : sseStream :=
  {| taskID := "t"; ctx := None;
     reader := {| unread := input; exhausted := io_EOF |} |}.

(** ** Concrete environments *)

Definition okResponse (body : string) : result Response :=
  Ok {| StatusCode := 200; RespHeader := []; Body := body |}.

Definition failedPayload : string :=
  "{" ++ quoted "taskId" ++ ":" ++ quoted "t" ++ ","
  ++ quoted "status" ++ ":" ++ quoted "failed" ++ ","
  ++ quoted "error" ++ ":" ++ quoted "X" ++ "}".

Definition failedStatus : TaskStatus :=
  {| TaskID := "t"; Status := "failed"; Result := None; Error := Some "X";
     Warnings := None; Metadata := None |}.

(** [{"taskId":"t","status":"queued"}]: a status value the SDK does not
    name. *)
Definition queuedPayload : string :=
  "{" ++ quoted "taskId" ++ ":" ++ quoted "t" ++ ","
  ++ quoted "status" ++ ":" ++ quoted "queued" ++ "}".

Definition queuedStatus : TaskStatus :=
  {| TaskID := "t"; Status := "queued"; Result := None; Error := None;
     Warnings := None; Metadata := None |}.

(** A server that answers [bodies] in turn, then fails; the context is
    never done. *)
Definition scriptedEnv (bodies : list string) : Env :=
  {| http_Do := fun k _ =>
       match nth_error bodies k with
       | Some b => okResponse b
       | None => Err (lib_error "net/http" "connection refused")
       end;
     select_wait := fun _ _ => TimerFired |}.

(** The same server, with the context cancelled during the wait number
    [n]. *)
Definition cancelledAt (n : nat) (bodies : list string) : Env :=
  {| http_Do := http_Do (scriptedEnv bodies);
     select_wait := fun k _ =>
       if Nat.eqb k n then CtxDone Canceled else TimerFired |}.

Definition testClient : Client :=
  {| apiKey := "key"; baseURL := "http://api.test"; timeout := DefaultTimeout;
     responseHook := false; mockMode := false |}.

(** ** The rest of client.go and stream.go *)

(** *** types.go: TaskForceAIOptions *)

Record TaskForceAIOptions : Type := {
  APIKey : string;
  BaseURL : string;
  Timeout : Z;
  ResponseHook : bool;
  MockMode : bool
}.

Fixpoint dropWhile {A : Type} (p : A -> bool) (l : list A) : list A :=
  match l with
  | [] => []
  | a :: r => if p a then dropWhile p r else l
  end.

(** [strings.TrimRight(s, cutset)] for a cutset of one ASCII byte: the last
    byte is dropped as long as it is that byte.  Modelled from Go's standard
    library. *)
Definition strings_TrimRight (s : string) (c : ascii) : string :=
  string_of_list_ascii
    (rev (dropWhile (Ascii.eqb c) (rev (list_ascii_of_string s)))).

(** *** client.go: NewClient

    The [http.Client] the constructor builds, with its timeout, is the
    transport of the environment. *)
Definition NewClient (opts : TaskForceAIOptions) : Client :=
  let baseURL := BaseURL opts in
  let baseURL := if String.eqb baseURL "" then DefaultBaseURL else baseURL in
  let baseURL := strings_TrimRight baseURL "/"%char in
  let timeout := Timeout opts in
  let timeout := if Z.eqb timeout 0 then DefaultTimeout else timeout in
  {| apiKey := APIKey opts; baseURL := baseURL; timeout := timeout;
     responseHook := ResponseHook opts; mockMode := MockMode opts |}.

(** [n] slashes. *)
Fixpoint slashes (n : nat) : string :=
  match n with
  | O => EmptyString
  | S m => String "/"%char (slashes m)
  end.

(** The calls of the response hook, in call order. *)
Fixpoint hookCalls (w : World) : list (Z * list (string * list string)) :=
  match w with
  | [] => []
  | EvHook code header :: w' => (code, header) :: hookCalls w'
  | _ :: w' => hookCalls w'
  end.

(** The requests sent, in order. *)
Fixpoint requests (w : World) : list Request :=
  match w with
  | [] => []
  | EvSend req :: w' => req :: requests w'
  | _ :: w' => requests w'
  end.

(** The request [doRequest] builds. *)
Definition builtRequest (c : Client) (method path : string)
    (jsonBody : option string) : Request :=
  {| Method := method; URL := baseURL c ++ path; Header := requestHeader c;
     ReqBody := jsonBody |}.

(** The body of a request as [doRequest] marshals it: none for a nil
    body. *)
Definition marshalsTo {rt : GoRuntime} (body : option SubmitBody)
    (jsonBody : option string) : Prop :=
  match body, jsonBody with
  | None, None => True
  | Some b, Some j => json_Marshal b = Ok j
  | _, _ => False
  end.

(** The events a run of [WaitForCompletion] for task [id] may add: status
    requests for that task, hook calls, callback calls when a callback is
    given, and waits of [d]. *)
Definition pollEvent (c : Client) (id : string) (d : Z) (cb : bool)
    (e : Event) : Prop :=
  match e with
  | EvSend req => req = statusRequest c id
  | EvHook _ _ => True
  | EvCallback _ => cb = true
  | EvSelect d' _ => d' = d
  end.

(** The names of the header fields of a request. *)
Definition headerNames (req : Request) : list string := map fst (Header req).

Section StreamOpening.

Context {rt : GoRuntime}.
Variable env : Env.

(** The header of the stream request: [Accept], and [Authorization] when an
    API key is set. *)
Definition streamHeader (c : Client) : list (string * string) :=
  let authorization :=
    if String.eqb (apiKey c) "" then []
    else [("Authorization", "Bearer " ++ apiKey c)] in
  ([("Accept", "text/event-stream")] ++ authorization)%list.

Definition streamRequest (c : Client) (id : string) : Request :=
  {| Method := "GET"; URL := baseURL c ++ "/stream/" ++ id;
     Header := streamHeader c; ReqBody := None |}.

(** *** stream.go: StreamTaskStatus

    [parent] is the state of the caller's context when the call is made;
    the stream's context, derived from it by [context.WithCancel], starts in
    that state.  The body of the response is the bytes the server sends
    before it closes the connection; reading past them gives [io.EOF]. *)
Definition StreamTaskStatus (c : Client) (parent : option ctxCause)
    (taskID : string) : M (result sseStream) :=
  let streamCtx := parent in
  let url := baseURL c ++ "/stream/" ++ taskID in
  match http_NewRequest "GET" url with
  | Some e => ret (Err e)
  | None =>
    let req := {| Method := "GET"; URL := url; Header := streamHeader c;
                  ReqBody := None |} in
    r <- httpClient_Do env req ;;
    match r with
    | Err e => ret (Err e)
    | Ok resp =>
      if negb (Z.eqb (StatusCode resp) http_StatusOK)
      then ret (Err (Errorf ("stream error: status "
                             ++ itoa (StatusCode resp))))
      else ret (Ok {| taskID := taskID; ctx := streamCtx;
                      reader := {| unread := Body resp;
                                   exhausted := io_EOF |} |})
    end
  end.


End StreamOpening.

(** The [cancel] function of [context.WithCancel]: a live context becomes
    done with [context.Canceled]; a context already done keeps its error. *)
Definition cancel (state : option ctxCause) : option ctxCause :=
  match state with
  | None => Some Canceled
  | Some why => Some why
  end.

(** *** stream.go: Close

    [body] stands for the stream's response: [None] when the response or its
    body is nil, [Some r] when closing the body returns [r]. *)
Definition Close (s : sseStream) (body : option (option error))
    : option error * sseStream :=
  let s' := {| taskID := taskID s; ctx := cancel (ctx s);
               reader := reader s |} in
  match body with
  | Some r => (r, s')
  | None => (None, s')
  end.

(** The carriage return and line feed that end a line on some servers. *)
Definition crlf : string := String "013"%char (String newline EmptyString).

(** ** files.go and the thread accessors

    The structures decoded from the responses are not inspected by the
    client: their types and the decoding of each are parameters.
    [UploadFile], which feeds a pipe from a second goroutine, is not
    modelled, nor is [CreateThread]. *)
Section Resources.

Context {rt : GoRuntime}.
Variable env : Env.
Variables File FileListResponse Thread ThreadListResponse
          ThreadMessagesResponse : Type.

(** [decodeJSON(resp.Body, &v)] for each of the structures. *)
Variable decode_File : string -> result File.
Variable decode_FileListResponse : string -> result FileListResponse.
Variable decode_Thread : string -> result Thread.
Variable decode_ThreadListResponse : string -> result ThreadListResponse.
Variable decode_ThreadMessagesResponse :
  string -> result ThreadMessagesResponse.

(** [resp.StatusCode < 200 || resp.StatusCode >= 300] *)
Definition notSuccess (code : Z) : bool :=
  Z.ltb code 200 || Z.leb 300 code.

(** *** files.go *)

Definition ListFiles (c : Client) (limit offset : Z)
    : M (result FileListResponse) :=
  let path := "/files?limit=" ++ itoa limit ++ "&offset=" ++ itoa offset in
  r <- doRequest env c "GET" path None ;;
  match r with
  | Err e => ret (Err e)
  | Ok resp =>
    if negb (Z.eqb (StatusCode resp) 200)
    then ret (Err (Errorf ("failed to list files: status "
                           ++ itoa (StatusCode resp))))
    else
      match decode_FileListResponse (Body resp) with
      | Err e => ret (Err e)
      | Ok v => ret (Ok v)
      end
  end.

Definition GetFile (c : Client) (fileID : string) : M (result File) :=
  let path := "/files/" ++ fileID in
  r <- doRequest env c "GET" path None ;;
  match r with
  | Err e => ret (Err e)
  | Ok resp =>
    if negb (Z.eqb (StatusCode resp) 200)
    then ret (Err (Errorf ("failed to get file: status "
                           ++ itoa (StatusCode resp))))
    else
      match decode_File (Body resp) with
      | Err e => ret (Err e)
      | Ok v => ret (Ok v)
      end
  end.


(** The reader returned is the body of the response: its bytes. *)
Definition DownloadFile (c : Client) (fileID : string) : M (result string) :=
  let path := "/files/" ++ fileID ++ "/content" in
  r <- doRequest env c "GET" path None ;;
  match r with
  | Err e => ret (Err e)
  | Ok resp =>
    if negb (Z.eqb (StatusCode resp) 200)
    then ret (Err (Errorf ("failed to download file: status "
                           ++ itoa (StatusCode resp))))
    else ret (Ok (Body resp))
  end.

(** *** The thread accessors *)

Definition ListThreads (c : Client) (limit offset : Z)
    : M (result ThreadListResponse) :=
  let path := "/threads?limit=" ++ itoa limit ++ "&offset=" ++ itoa offset in
  r <- doRequest env c "GET" path None ;;
  match r with
  | Err e => ret (Err e)
  | Ok resp =>
    if negb (Z.eqb (StatusCode resp) 200)
    then ret (Err (Errorf ("failed to list threads: status "
                           ++ itoa (StatusCode resp))))
    else
      match decode_ThreadListResponse (Body resp) with
      | Err e => ret (Err e)
      | Ok v => ret (Ok v)
      end
  end.

Definition GetThread (c : Client) (threadID : Z) : M (result Thread) :=
  let path := "/threads/" ++ itoa threadID in
  r <- doRequest env c "GET" path None ;;
  match r with
  | Err e => ret (Err e)
  | Ok resp =>
    if negb (Z.eqb (StatusCode resp) 200)
    then ret (Err (Errorf ("failed to get thread: status "
                           ++ itoa (StatusCode resp))))
    else
      match decode_Thread (Body resp) with
      | Err e => ret (Err e)
      | Ok v => ret (Ok v)
      end
  end.


Definition GetThreadMessages (c : Client) (threadID limit offset : Z)
    : M (result ThreadMessagesResponse) :=
  let path := "/threads/" ++ itoa threadID ++ "/messages?limit="
              ++ itoa limit ++ "&offset=" ++ itoa offset in
  r <- doRequest env c "GET" path None ;;
  match r with
  | Err e => ret (Err e)
  | Ok resp =>
    if negb (Z.eqb (StatusCode resp) 200)
    then ret (Err (Errorf ("failed to get thread messages: status "
                           ++ itoa (StatusCode resp))))
    else
      match decode_ThreadMessagesResponse (Body resp) with
      | Err e => ret (Err e)
      | Ok v => ret (Ok v)
      end
  end.

End Resources.

(** ** RunInThread

    [doRequest] takes a body of any type; [doRequestOf] is the same function
    with the marshalling of the body as a parameter, for the callers whose
    body is not a task submission. *)
Definition doRequestOf {B : Type} (marshal : B -> result string)
    {rt : GoRuntime} (env : Env) (c : Client) (method path : string)
    (body : option B) : M (result Response) :=
  let url := baseURL c ++ path in
  match (match body with
         | Some b => match marshal b with
                     | Err e => Err e
                     | Ok jsonBody => Ok (Some jsonBody)
                     end
         | None => Ok None
         end) with
  | Err e => ret (Err e)
  | Ok bodyReader =>
    match http_NewRequest method url with
    | Some e => ret (Err e)
    | None =>
      let req := {| Method := method; URL := url;
                    Header := requestHeader c; ReqBody := bodyReader |} in
      r <- httpClient_Do env req ;;
      match r with
      | Err e => ret (Err e)
      | Ok resp =>
        (if responseHook c
         then emit (EvHook (StatusCode resp) (RespHeader resp))
         else ret tt) ;;;
        ret (Ok resp)
      end
    end
  end.

Module Threads.

(** [ThreadRunOptions] of the thread file. *)
Record ThreadRunOptions : Type := {
  Prompt : string;
  ModelID : string;
  Options : JsonMap
}.

(** The body [RunInThread] posts: the prompt, the model when it is not
    empty, the options when there is one at least. *)
Record RunBody : Type := {
  prompt : string;
  model_id : option string;
  options : option (list (string * Json))
}.

End Threads.

Section ThreadRuns.

Context {rt : GoRuntime}.
Variable env : Env.
Variable ThreadRunResponse : Type.
Variable decode_ThreadRunResponse : string -> result ThreadRunResponse.
Variable marshal_RunBody : Threads.RunBody -> result string.

Definition RunInThread (c : Client) (threadID : Z)
    (opts : Threads.ThreadRunOptions) : M (result ThreadRunResponse) :=
  if String.eqb (Threads.Prompt opts) ""
  then ret (Err (Errorf "prompt is required"))
  else
    let path := "/threads/" ++ itoa threadID ++ "/runs" in
    let body :=
      {| Threads.prompt := Threads.Prompt opts;
         Threads.model_id :=
           if String.eqb (Threads.ModelID opts) "" then None
           else Some (Threads.ModelID opts);
         Threads.options :=
           match Threads.Options opts with
           | Some (m :: ms) => Some (m :: ms)
           | _ => None
           end |} in
    r <- doRequestOf marshal_RunBody env c "POST" path (Some body) ;;
    match r with
    | Err e => ret (Err e)
    | Ok resp =>
      if notSuccess (StatusCode resp)
      then ret (Err (Errorf ("failed to run in thread: status "
                             ++ itoa (StatusCode resp))))
      else
        match decode_ThreadRunResponse (Body resp) with
        | Err e => ret (Err e)
        | Ok v => ret (Ok v)
        end
    end.

End ThreadRuns.

(** A server that answers every request with the given status and body. *)
Definition constantEnv (code : Z) (body : string) : Env :=
  {| http_Do := fun _ _ =>
       Ok {| StatusCode := code; RespHeader := []; Body := body |};
     select_wait := fun _ _ => TimerFired |}.

Definition hookedClient : Client :=
  {| apiKey := ""; baseURL := "http://api.test"; timeout := DefaultTimeout;
     responseHook := true; mockMode := false |}.

(** * Properties *)

Local Open Scope list_scope.

(** Closes the side goals of the lemmas that run one request. *)
Ltac run_facts :=
  repeat split;
  solve [ reflexivity | left; reflexivity | right; reflexivity
        | discriminate | intros; reflexivity ].

(** ** Traces *)

Lemma sent_app (w1 w2 : World) : sent (w1 ++ w2) = sent w1 + sent w2.
Proof. unfold sent. rewrite filter_app, length_app. reflexivity. Qed.

Lemma waited_app (w1 w2 : World) : waited (w1 ++ w2) = waited w1 + waited w2.
Proof. unfold waited. rewrite filter_app, length_app. reflexivity. Qed.

Lemma callbacks_app (w1 w2 : World) :
  callbacks (w1 ++ w2) = (callbacks w1 ++ callbacks w2)%list.
Proof.
  induction w1 as [|e w1 IH]; simpl; [reflexivity|].
  destruct e; simpl; rewrite IH; reflexivity.
Qed.

Lemma pollView_app (w1 w2 : World) :
  pollView (w1 ++ w2) = (pollView w1 ++ pollView w2)%list.
Proof. unfold pollView. apply filter_app. Qed.

Lemma sent_pollView (w : World) : sent (pollView w) = sent w.
Proof.
  unfold sent, pollView.
  induction w as [|e w IH]; simpl; [reflexivity|].
  destruct e; simpl; rewrite ?IH; reflexivity.
Qed.

Lemma waited_pollView (w : World) : waited (pollView w) = waited w.
Proof.
  unfold waited, pollView.
  induction w as [|e w IH]; simpl; [reflexivity|].
  destruct e; simpl; rewrite ?IH; reflexivity.
Qed.

Lemma callbacks_pollView (w : World) : callbacks (pollView w) = callbacks w.
Proof.
  unfold pollView.
  induction w as [|e w IH]; simpl; [reflexivity|].
  destruct e; simpl; rewrite ?IH; reflexivity.
Qed.

Lemma sent_repeat (r : Request) (k : nat) : sent (repeat (EvSend r) k) = k.
Proof.
  unfold sent. induction k as [|k IH]; simpl; [reflexivity|].
  f_equal. exact IH.
Qed.

Lemma callbacks_callbackEvents (cb : bool) (s : TaskStatus) :
  callbacks (callbackEvents cb s) = if cb then [s] else [].
Proof. destruct cb; reflexivity. Qed.

Section PollerFacts.

Context {rt : GoRuntime}.
Variable env : Env.
Variable c : Client.
Variable id : string.

(** [GetTaskStatus] reads the world only through the number of requests
    sent, and adds to it one request at most and the hook call. *)
Lemma GetTaskStatus_run (w : World) :
  exists evs : list Event,
    GetTaskStatus env c id w = (fetchAt env c id (sent w), (w ++ evs)%list)
    /\ (pollView evs = [] \/ pollView evs = [EvSend (statusRequest c id)])
    /\ (snd (fetchAt env c id (sent w)) = None ->
        pollView evs = [EvSend (statusRequest c id)]).
Proof.
  unfold fetchAt, GetTaskStatus, doRequest, bind, ret, httpClient_Do, emit.
  cbv beta. fold (statusRequest c id).
  destruct (http_NewRequest "GET" (baseURL c ++ "/status/" ++ id)%string)
    as [e|].
  - exists []. rewrite app_nil_r. simpl. run_facts.
  - rewrite sent_repeat.
    destruct (http_Do env (sent w) (statusRequest c id)) as [resp|e].
    + exists ([EvSend (statusRequest c id)]
              ++ if responseHook c
                 then [EvHook (StatusCode resp) (RespHeader resp)] else []).
      rewrite app_assoc.
      destruct (responseHook c); rewrite ?app_nil_r;
        (destruct (negb (StatusCode resp =? http_StatusOK)%Z);
         [|destruct (json_Decode_TaskStatus (Body resp))]); simpl; run_facts.
    + exists [EvSend (statusRequest c id)]. simpl. run_facts.
Qed.

Variable d : Z.
Variable cb : bool.

(** A failed fetch ends the loop with the zero status and that error. *)
Lemma pollLoop_fetch_error (left : nat) (w : World) (s0 : TaskStatus)
    (e : error) :
  fetchAt env c id (sent w) = (s0, Some e) ->
  exists evs : list Event,
    pollLoop env c id d cb (S left) w = ((zeroTaskStatus, Some e), w ++ evs)
    /\ (pollView evs = [] \/ pollView evs = [EvSend (statusRequest c id)]).
Proof.
  intros Hf.
  destruct (GetTaskStatus_run w) as (evs & Hrun & Hev & _).
  exists evs. split; [|exact Hev].
  simpl. unfold bind. rewrite Hrun, Hf. reflexivity.
Qed.

(** One iteration of the loop on a fetched status. *)
Lemma pollLoop_fetch_ok (left : nat) (w : World) (s : TaskStatus) :
  fetchAt env c id (sent w) = (s, None) ->
  exists w1 : World,
    pollView w1
    = pollView w ++ [EvSend (statusRequest c id)] ++ callbackEvents cb s
    /\ pollLoop env c id d cb (S left) w
       = if String.eqb (Status s) "completed" then ((s, None), w1)
         else if String.eqb (Status s) "failed"
         then ((s, Some (Errorf (failureMessage s))), w1)
         else
           match select_wait env (waited w) d with
           | TimerFired =>
             pollLoop env c id d cb left (w1 ++ [EvSelect d TimerFired])
           | CtxDone why =>
             ((s, Some (context_Err why)),
              w1 ++ [EvSelect d (CtxDone why)])
           end.
Proof.
  intros Hf.
  destruct (GetTaskStatus_run w) as (evs & Hrun & _ & Hev).
  rewrite Hf in Hev. specialize (Hev eq_refl).
  exists (w ++ evs ++ callbackEvents cb s).
  split.
  - rewrite !pollView_app, Hev.
    f_equal. f_equal. destruct cb; reflexivity.
  - assert (Hw : waited (w ++ evs ++ callbackEvents cb s) = waited w).
    { rewrite <- waited_pollView, !pollView_app, Hev.
      rewrite !waited_app, waited_pollView.
      destruct cb; simpl; unfold waited; simpl; lia. }
    simpl. unfold bind. rewrite Hrun, Hf.
    unfold select_ctx_or_timer, emit, ret.
    destruct cb; simpl callbackEvents in *; cbv beta iota;
      rewrite ?app_nil_r in *; rewrite ?app_assoc in *;
      destruct (String.eqb (Status s) "completed"); try reflexivity;
      destruct (String.eqb (Status s) "failed"); try reflexivity;
      rewrite Hw; destruct (select_wait env (waited w) d); reflexivity.
Qed.

Lemma nonTerminal_eqb (s : TaskStatus) :
  nonTerminal s ->
  String.eqb (Status s) "completed" = false
  /\ String.eqb (Status s) "failed" = false.
Proof.
  intros [H1 H2]. split; apply String.eqb_neq; assumption.
Qed.

Lemma quietIteration_counts (sts : list TaskStatus) :
  sent (flat_map (quietIteration c id d cb) sts) = length sts
  /\ waited (flat_map (quietIteration c id d cb) sts) = length sts
  /\ callbacks (flat_map (quietIteration c id d cb) sts)
     = if cb then sts else [].
Proof.
  induction sts as [|s sts (IH1 & IH2 & IH3)].
  - destruct cb; repeat split.
  - change (flat_map (quietIteration c id d cb) (s :: sts))
      with (quietIteration c id d cb s
            ++ flat_map (quietIteration c id d cb) sts).
    rewrite !sent_app, !waited_app, !callbacks_app, IH1, IH2, IH3.
    unfold quietIteration. destruct cb; repeat split.
Qed.

(** Iterations on non-terminal statuses during which the timer fires each
    time: the loop goes on with that many attempts fewer. *)
Lemma pollLoop_quiet_prefix (pre : list TaskStatus) :
  forall (left : nat) (w : World),
    Forall nonTerminal pre ->
    fetchesYield env c id (sent w) pre ->
    timerWins env d (waited w) (length pre) ->
    exists w' : World,
      pollView w' = pollView w ++ flat_map (quietIteration c id d cb) pre
      /\ pollLoop env c id d cb (length pre + left) w
         = pollLoop env c id d cb left w'.
Proof.
  induction pre as [|s pre IH]; intros left w Hnt Hfetch Htimer.
  - exists w. simpl. rewrite app_nil_r. split; reflexivity.
  - inversion Hnt as [|? ? Hs Hrest]; subst.
    destruct (nonTerminal_eqb s Hs) as [Hc Hf].
    assert (H0 : fetchAt env c id (sent w) = (s, None)).
    { rewrite <- (Nat.add_0_r (sent w)). apply Hfetch. reflexivity. }
    destruct (pollLoop_fetch_ok (length pre + left) w s H0) as (w1 & Hv & Hrun).
    rewrite Hc, Hf in Hrun.
    assert (Ht : select_wait env (waited w) d = TimerFired).
    { rewrite <- (Nat.add_0_r (waited w)). apply Htimer. simpl. lia. }
    rewrite Ht in Hrun.
    assert (Hview : pollView (w1 ++ [EvSelect d TimerFired])
                    = pollView w ++ quietIteration c id d cb s).
    { rewrite pollView_app, Hv. unfold quietIteration.
      rewrite <- !app_assoc. reflexivity. }
    destruct (IH left (w1 ++ [EvSelect d TimerFired]) Hrest)
      as (w' & Hv' & Hrun').
    + intros i s' Hi.
      rewrite <- sent_pollView, Hview, sent_app, sent_pollView.
      replace (sent (quietIteration c id d cb s)) with 1
        by (unfold quietIteration; destruct cb; reflexivity).
      replace (sent w + 1 + i) with (sent w + S i) by lia.
      apply Hfetch. exact Hi.
    + intros i Hi.
      rewrite <- waited_pollView, Hview, waited_app, waited_pollView.
      replace (waited (quietIteration c id d cb s)) with 1
        by (unfold quietIteration; destruct cb; reflexivity).
      replace (waited w + 1 + i) with (waited w + S i) by lia.
      apply Htimer. simpl. lia.
    + exists w'. split.
      * rewrite Hv', Hview. simpl flat_map. rewrite <- app_assoc.
        reflexivity.
      * simpl length. simpl Nat.add. rewrite Hrun. exact Hrun'.
Qed.

End PollerFacts.

Section PollerRuns.

Context {rt : GoRuntime}.
Variable env : Env.
Variable c : Client.
Variable id : string.
Variable cb : bool.

Lemma fetchesYield_app (k0 : nat) (pre : list TaskStatus) (s : TaskStatus) :
  fetchesYield env c id k0 (pre ++ [s]) ->
  fetchesYield env c id k0 pre
  /\ fetchAt env c id (k0 + length pre) = (s, None).
Proof.
  intros H. split.
  - intros i x Hi. apply H. rewrite nth_error_app1; [exact Hi|].
    apply nth_error_Some. congruence.
  - apply H. rewrite nth_error_app2, Nat.sub_diag; [reflexivity|lia].
Qed.

(** The run up to and including the fetch that follows a quiet prefix. *)
Lemma WaitForCompletion_after_prefix (pollInterval maxAttempts : Z)
    (w : World) (pre : list TaskStatus) (s : TaskStatus) :
  (Z.of_nat (length pre) < effectiveAttempts maxAttempts)%Z ->
  Forall nonTerminal pre ->
  fetchesYield env c id (sent w) (pre ++ [s]) ->
  timerWins env (effectiveInterval pollInterval) (waited w) (length pre) ->
  exists w1 : World,
    pollView w1
    = pollView w
      ++ flat_map (quietIteration c id (effectiveInterval pollInterval) cb)
                  pre
      ++ [EvSend (statusRequest c id)] ++ callbackEvents cb s
    /\ sent w1 = sent w + (length pre + 1)
    /\ waited w1 = waited w + length pre
    /\ callbacks w1 = callbacks w ++ (if cb then pre ++ [s] else [])
    /\ WaitForCompletion env c id pollInterval maxAttempts cb w
       = if String.eqb (Status s) "completed" then ((s, None), w1)
         else if String.eqb (Status s) "failed"
         then ((s, Some (Errorf (failureMessage s))), w1)
         else
           match select_wait env (waited w + length pre)
                             (effectiveInterval pollInterval) with
           | TimerFired =>
             pollLoop env c id (effectiveInterval pollInterval) cb
               (Z.to_nat (effectiveAttempts maxAttempts) - length pre - 1)
               (w1 ++ [EvSelect (effectiveInterval pollInterval) TimerFired])
           | CtxDone why =>
             ((s, Some (context_Err why)),
              w1 ++ [EvSelect (effectiveInterval pollInterval)
                              (CtxDone why)])
           end.
Proof.
  intros Hlt Hnt Hfetch Htimer.
  set (d := effectiveInterval pollInterval) in *.
  destruct (fetchesYield_app _ _ _ Hfetch) as [Hpre Hs].
  set (left := Z.to_nat (effectiveAttempts maxAttempts) - length pre - 1).
  assert (Hsplit : Z.to_nat (effectiveAttempts maxAttempts)
                   = length pre + S left) by (unfold left; lia).
  destruct (pollLoop_quiet_prefix env c id d cb pre (S left) w Hnt Hpre Htimer)
    as (w0 & Hv0 & Hrun0).
  destruct (quietIteration_counts c id d cb pre) as (Hc1 & Hc2 & Hc3).
  assert (Hsent0 : sent w0 = sent w + length pre).
  { rewrite <- sent_pollView, Hv0, sent_app, sent_pollView, Hc1.
    reflexivity. }
  assert (Hwait0 : waited w0 = waited w + length pre).
  { rewrite <- waited_pollView, Hv0, waited_app, waited_pollView, Hc2.
    reflexivity. }
  assert (Hcall0 : callbacks w0 = callbacks w ++ (if cb then pre else [])).
  { rewrite <- callbacks_pollView, Hv0, callbacks_app, callbacks_pollView,
      Hc3. reflexivity. }
  rewrite <- Hsent0 in Hs.
  destruct (pollLoop_fetch_ok env c id d cb left w0 s Hs) as (w1 & Hv1 & Hrun1).
  exists w1.
  split; [rewrite Hv1, Hv0, <- !app_assoc; reflexivity|].
  split.
  { rewrite <- sent_pollView, Hv1, !sent_app, sent_pollView, Hsent0.
    destruct cb; simpl; unfold sent; simpl; lia. }
  split.
  { rewrite <- waited_pollView, Hv1, !waited_app, waited_pollView, Hwait0.
    destruct cb; simpl; unfold waited; simpl; lia. }
  split.
  { rewrite <- callbacks_pollView, Hv1, !callbacks_app, callbacks_pollView,
      Hcall0.
    destruct cb; simpl; rewrite <- ?app_assoc, ?app_nil_r; reflexivity. }
  unfold WaitForCompletion. fold d.
  rewrite Hsplit, Hrun0, Hrun1, Hwait0. reflexivity.
Qed.

(** The timer firing between the fetches is what lets them take place: a
    run that sends a request after the fetches of [pre] went through the
    waits that follow them. *)
Lemma fetches_reached_timerWins (d : Z) (pre : list TaskStatus) :
  forall (left : nat) (w : World),
    Forall nonTerminal pre ->
    fetchesYield env c id (sent w) pre ->
    sent w + length pre + 1 <= sent (snd (pollLoop env c id d cb left w)) ->
    timerWins env d (waited w) (length pre).
Proof.
  induction pre as [|s pre IH]; intros left w Hnt Hfetch Hreach.
  - intros i Hi. simpl in Hi. lia.
  - inversion Hnt as [|? ? Hs Hrest]; subst.
    destruct (nonTerminal_eqb s Hs) as [Hc Hf].
    destruct left as [|left]; [simpl in Hreach; lia|].
    assert (H0 : fetchAt env c id (sent w) = (s, None)).
    { rewrite <- (Nat.add_0_r (sent w)). apply Hfetch. reflexivity. }
    destruct (pollLoop_fetch_ok env c id d cb left w s H0) as (w1 & Hv & Hrun).
    rewrite Hc, Hf in Hrun.
    assert (Hs1 : sent w1 = sent w + 1).
    { rewrite <- sent_pollView, Hv, !sent_app, sent_pollView.
      destruct cb; unfold sent; simpl; lia. }
    assert (Hw1 : waited w1 = waited w).
    { rewrite <- waited_pollView, Hv, !waited_app, waited_pollView.
      destruct cb; unfold waited; simpl; lia. }
    rewrite Hrun in Hreach.
    destruct (select_wait env (waited w) d) as [|why] eqn:Hsel.
    + assert (Hs2 : sent (w1 ++ [EvSelect d TimerFired]) = sent w + 1)
        by (rewrite sent_app, Hs1; unfold sent; simpl; lia).
      assert (Hw2 : waited (w1 ++ [EvSelect d TimerFired]) = waited w + 1)
        by (rewrite waited_app, Hw1; unfold waited; simpl; lia).
      assert (Hrec : timerWins env d (waited w + 1) (length pre)).
      { rewrite <- Hw2.
        apply (IH left (w1 ++ [EvSelect d TimerFired]) Hrest).
        - intros i s' Hi. rewrite Hs2.
          replace (sent w + 1 + i) with (sent w + S i) by lia.
          apply Hfetch. exact Hi.
        - rewrite Hs2. simpl length in Hreach. lia. }
      intros [|i] Hi.
      * rewrite Nat.add_0_r. exact Hsel.
      * replace (waited w + S i) with (waited w + 1 + i) by lia.
        apply Hrec. simpl in Hi. lia.
    + assert (Hs2 : sent (w1 ++ [EvSelect d (CtxDone why)]) = sent w + 1)
        by (rewrite sent_app, Hs1; unfold sent; simpl; lia).
      simpl snd in Hreach. rewrite Hs2 in Hreach.
      simpl length in Hreach. lia.
Qed.

End PollerRuns.

(** ** Byte strings *)

Lemma append_nil_r (s : string) : (s ++ "")%string = s.
Proof. induction s as [|a s IH]; simpl; [|rewrite IH]; reflexivity. Qed.

Lemma append_assoc (s1 s2 s3 : string) :
  ((s1 ++ s2) ++ s3)%string = (s1 ++ s2 ++ s3)%string.
Proof. induction s1 as [|a s1 IH]; simpl; [|rewrite IH]; reflexivity. Qed.

(** ** The poll loop: claims *)

(** C2.  When the fetches yield [N] non-terminal statuses and then a
    completed one, with [N] below the attempt bound, [WaitForCompletion]
    returns the completed status and no error, has sent exactly [N + 1]
    status requests, and has called the callback once per fetched status,
    in fetch order, the completed one included: in the trace each callback
    call follows its fetch and precedes that iteration's wait or return.
    The [N + 1] fetches take place, so the timer fired in the [N] waits
    between them ([fetches_reached_timerWins]). *)
Theorem WaitForCompletion_completes {rt : GoRuntime} (env : Env) (c : Client)
    (id : string) (pollInterval maxAttempts : Z) (cb : bool) (w : World)
    (pre : list TaskStatus) (fin : TaskStatus) :
  (Z.of_nat (length pre) < effectiveAttempts maxAttempts)%Z ->
  Forall nonTerminal pre ->
  Status fin = "completed" ->
  fetchesYield env c id (sent w) (pre ++ [fin]) ->
  timerWins env (effectiveInterval pollInterval) (waited w) (length pre) ->
  exists w' : World,
    WaitForCompletion env c id pollInterval maxAttempts cb w
    = ((fin, None), w')
    /\ sent w' = sent w + (length pre + 1)
    /\ callbacks w' = callbacks w ++ (if cb then pre ++ [fin] else [])
    /\ pollView w'
       = pollView w
         ++ flat_map (quietIteration c id (effectiveInterval pollInterval) cb)
                     pre
         ++ [EvSend (statusRequest c id)] ++ callbackEvents cb fin.
Proof.
  intros Hlt Hnt Hfin Hfetch Htimer.
  destruct (WaitForCompletion_after_prefix env c id cb pollInterval
              maxAttempts w pre fin Hlt Hnt Hfetch Htimer)
    as (w1 & Hview & Hsent & _ & Hcalls & Hrun).
  rewrite Hfin in Hrun. simpl in Hrun.
  exists w1. auto.
Qed.

Lemma WaitForCompletion_completes_witness :
  exists w' : World,
    WaitForCompletion (rt := refRuntime)
      (scriptedEnv [processingPayload; queuedPayload; completedPayload])
      testClient "t" 0 5 true []
    = ((completedStatus, None), w')
    /\ sent w' = 3
    /\ callbacks w' = [processingStatus; queuedStatus; completedStatus].
Proof.
  destruct (WaitForCompletion_completes (rt := refRuntime)
              (scriptedEnv [processingPayload; queuedPayload;
                            completedPayload])
              testClient "t" 0 5 true []
              [processingStatus; queuedStatus] completedStatus)
    as (w' & Hrun & Hsent & Hcalls & _).
  - reflexivity.
  - repeat constructor; discriminate.
  - reflexivity.
  - intros [|[|[|i]]] s Hs;
      [injection Hs as <-; reflexivity ..
      | destruct i; discriminate].
  - intros i _. reflexivity.
  - exists w'. auto.
Defined.

(** C3.  When a fetch yields a status whose status is failed,
    [WaitForCompletion] ends on that iteration, without entering the wait:
    it returns that status together with an error whose message is
    [task failed: ] followed by the status's error field, or by
    [task failed] when the field is absent; so the message contains the
    error field when there is one. *)
Theorem WaitForCompletion_task_failed {rt : GoRuntime} (env : Env)
    (c : Client) (id : string) (pollInterval maxAttempts : Z) (cb : bool)
    (w : World) (pre : list TaskStatus) (s : TaskStatus) :
  (Z.of_nat (length pre) < effectiveAttempts maxAttempts)%Z ->
  Forall nonTerminal pre ->
  Status s = "failed" ->
  fetchesYield env c id (sent w) (pre ++ [s]) ->
  timerWins env (effectiveInterval pollInterval) (waited w) (length pre) ->
  exists (w' : World) (err : error),
    WaitForCompletion env c id pollInterval maxAttempts cb w
    = ((s, Some err), w')
    /\ (forall x : string,
          Error s = Some x ->
          error_Error err = ("task failed: " ++ x)%string
          /\ contains (error_Error err) x)
    /\ (Error s = None -> error_Error err = "task failed: task failed")
    /\ sent w' = sent w + (length pre + 1)
    /\ waited w' = waited w + length pre.
Proof.
  intros Hlt Hnt Hs Hfetch Htimer.
  destruct (WaitForCompletion_after_prefix env c id cb pollInterval
              maxAttempts w pre s Hlt Hnt Hfetch Htimer)
    as (w1 & _ & Hsent & Hwait & _ & Hrun).
  rewrite Hs in Hrun. simpl in Hrun.
  exists w1, (Errorf (failureMessage s)).
  split; [exact Hrun|].
  unfold failureMessage. simpl error_Error.
  split; [|split; [|split; assumption]].
  - intros x Hx. rewrite Hx. split; [reflexivity|].
    exists "task failed: ", "". rewrite append_nil_r.
    reflexivity.
  - intros Hx. rewrite Hx. reflexivity.
Qed.

Lemma WaitForCompletion_task_failed_witness :
  exists (w' : World) (err : error),
    WaitForCompletion (rt := refRuntime)
      (scriptedEnv [processingPayload; failedPayload])
      testClient "t" 0 0 false []
    = ((failedStatus, Some err), w')
    /\ contains (error_Error err) "X"
    /\ sent w' = 2.
Proof.
  destruct (WaitForCompletion_task_failed (rt := refRuntime)
              (scriptedEnv [processingPayload; failedPayload])
              testClient "t" 0 0 false [] [processingStatus] failedStatus)
    as (w' & err & Hrun & Hmsg & _ & Hsent & _).
  - reflexivity.
  - repeat constructor; discriminate.
  - reflexivity.
  - intros [|[|i]] s Hs;
      [injection Hs as <-; reflexivity ..
      | destruct i; discriminate].
  - intros i _. reflexivity.
  - exists w', err. split; [exact Hrun|]. split; [|exact Hsent].
    apply (Hmsg "X"). reflexivity.
Defined.

(** C4 fails when the context is cancelled during the wait that follows
    the last fetch: with one attempt, a processing status and a
    cancellation in the first wait, the single fetch succeeds with a
    non-terminal status and the run ends with [context canceled]. *)
Lemma WaitForCompletion_timeout_counterexample :
  WaitForCompletion (rt := refRuntime) (cancelledAt 0 [processingPayload])
    testClient "t" 1000000 1 false []
  = ((processingStatus, Some (context_Err Canceled)),
     [EvSend (statusRequest testClient "t");
      EvSelect 1000000 (CtxDone Canceled)])
  /\ ~ times_out_as_stated (rt := refRuntime)
         (cancelledAt 0 [processingPayload]) testClient "t" 1000000 1 false
         [] [processingStatus].
Proof.
  split; [reflexivity|].
  intros H.
  destruct H as (s & w' & Hrun & _).
  - reflexivity.
  - repeat constructor; discriminate.
  - intros [|i] s Hs; [injection Hs as <-; reflexivity|].
    destruct i; discriminate.
  - intros i Hi. simpl in Hi. lia.
  - vm_compute in Hrun. discriminate Hrun.
Qed.

(** C4, amended.  When every one of the attempted fetches succeeds with a
    non-terminal status and the timer fires in every inter-poll wait, the
    one after the last fetch included, [WaitForCompletion] sends exactly
    that many status requests and returns the error [task timed out].  The
    number of attempts is [maxAttempts], 60 when [maxAttempts] is 0, and
    none when it is negative. *)
Theorem WaitForCompletion_times_out {rt : GoRuntime} (env : Env) (c : Client)
    (id : string) (pollInterval maxAttempts : Z) (cb : bool) (w : World)
    (sts : list TaskStatus) :
  length sts = Z.to_nat (effectiveAttempts maxAttempts) ->
  Forall nonTerminal sts ->
  fetchesYield env c id (sent w) sts ->
  timerWins env (effectiveInterval pollInterval) (waited w) (length sts) ->
  exists w' : World,
    WaitForCompletion env c id pollInterval maxAttempts cb w
    = ((zeroTaskStatus, Some (Errorf "task timed out")), w')
    /\ sent w' = sent w + length sts
    /\ waited w' = waited w + length sts
    /\ callbacks w' = callbacks w ++ (if cb then sts else []).
Proof.
  intros Hlen Hnt Hfetch Htimer.
  set (d := effectiveInterval pollInterval) in *.
  destruct (pollLoop_quiet_prefix env c id d cb sts 0 w Hnt Hfetch Htimer)
    as (w' & Hv & Hrun).
  destruct (quietIteration_counts c id d cb sts) as (Hc1 & Hc2 & Hc3).
  exists w'.
  split.
  { unfold WaitForCompletion. fold d. rewrite <- Hlen.
    rewrite Nat.add_0_r in Hrun. rewrite Hrun. reflexivity. }
  split.
  { rewrite <- sent_pollView, Hv, sent_app, sent_pollView, Hc1.
    reflexivity. }
  split.
  { rewrite <- waited_pollView, Hv, waited_app, waited_pollView, Hc2.
    reflexivity. }
  rewrite <- callbacks_pollView, Hv, callbacks_app, callbacks_pollView, Hc3.
  reflexivity.
Qed.

Lemma WaitForCompletion_times_out_witness :
  exists w' : World,
    WaitForCompletion (rt := refRuntime)
      (scriptedEnv [processingPayload; queuedPayload; processingPayload])
      testClient "t" 0 2 true []
    = ((zeroTaskStatus, Some (Errorf "task timed out")), w')
    /\ sent w' = 2.
Proof.
  destruct (WaitForCompletion_times_out (rt := refRuntime)
              (scriptedEnv [processingPayload; queuedPayload;
                            processingPayload])
              testClient "t" 0 2 true [] [processingStatus; queuedStatus])
    as (w' & Hrun & Hsent & _).
  - reflexivity.
  - repeat constructor; discriminate.
  - intros [|[|i]] s Hs;
      [injection Hs as <-; reflexivity ..
      | destruct i; discriminate].
  - intros i _. reflexivity.
  - exists w'. auto.
Defined.

(** C7.  When the context's [Done] channel is what the inter-poll wait
    receives, after a fetch that yielded a non-terminal status,
    [WaitForCompletion] returns that status together with the context's
    error, [context.Canceled] for a cancellation, and sends no further
    request. *)
Theorem WaitForCompletion_cancelled_in_wait {rt : GoRuntime} (env : Env)
    (c : Client) (id : string) (pollInterval maxAttempts : Z) (cb : bool)
    (w : World) (pre : list TaskStatus) (s : TaskStatus) (why : ctxCause) :
  (Z.of_nat (length pre) < effectiveAttempts maxAttempts)%Z ->
  Forall nonTerminal pre ->
  nonTerminal s ->
  fetchesYield env c id (sent w) (pre ++ [s]) ->
  timerWins env (effectiveInterval pollInterval) (waited w) (length pre) ->
  select_wait env (waited w + length pre) (effectiveInterval pollInterval)
  = CtxDone why ->
  exists w' : World,
    WaitForCompletion env c id pollInterval maxAttempts cb w
    = ((s, Some (context_Err why)), w')
    /\ sent w' = sent w + (length pre + 1)
    /\ waited w' = waited w + (length pre + 1)
    /\ (why = Canceled ->
        error_Error (context_Err why) = "context canceled").
Proof.
  intros Hlt Hnt Hs Hfetch Htimer Hsel.
  destruct (WaitForCompletion_after_prefix env c id cb pollInterval
              maxAttempts w pre s Hlt Hnt Hfetch Htimer)
    as (w1 & _ & Hsent & Hwait & _ & Hrun).
  destruct (nonTerminal_eqb s Hs) as [Hc Hf].
  rewrite Hc, Hf, Hsel in Hrun.
  eexists. split; [exact Hrun|].
  rewrite sent_app, waited_app, Hsent, Hwait.
  split; [unfold sent; simpl; lia|].
  split; [unfold waited; simpl; lia|].
  intros ->. reflexivity.
Qed.

Lemma WaitForCompletion_cancelled_in_wait_witness :
  exists w' : World,
    WaitForCompletion (rt := refRuntime)
      (cancelledAt 1 [processingPayload; queuedPayload; completedPayload])
      testClient "t" 0 5 false []
    = ((queuedStatus, Some (context_Err Canceled)), w')
    /\ sent w' = 2.
Proof.
  destruct (WaitForCompletion_cancelled_in_wait (rt := refRuntime)
              (cancelledAt 1 [processingPayload; queuedPayload;
                              completedPayload])
              testClient "t" 0 5 false [] [processingStatus] queuedStatus
              Canceled)
    as (w' & Hrun & Hsent & _).
  - reflexivity.
  - repeat constructor; discriminate.
  - split; discriminate.
  - intros [|[|i]] s Hs;
      [injection Hs as <-; reflexivity ..
      | destruct i; discriminate].
  - intros [|i] Hi; [reflexivity|simpl in Hi; lia].
  - reflexivity.
  - exists w'. auto.
Defined.

(** C9.  A fetched status that is neither completed nor failed, whatever
    its status string, is handed to the callback as it was decoded and is
    not a reason to return: the loop enters the inter-poll wait, and when
    the timer fires it goes on with the remaining attempts; the only other
    way out of the wait is the context, which returns that same status. *)
Theorem WaitForCompletion_other_status_continues {rt : GoRuntime} (env : Env)
    (c : Client) (id : string) (pollInterval maxAttempts : Z) (cb : bool)
    (w : World) (pre : list TaskStatus) (s : TaskStatus) :
  (Z.of_nat (length pre) < effectiveAttempts maxAttempts)%Z ->
  Forall nonTerminal pre ->
  nonTerminal s ->
  fetchesYield env c id (sent w) (pre ++ [s]) ->
  timerWins env (effectiveInterval pollInterval) (waited w) (length pre) ->
  exists w1 : World,
    pollView w1
    = pollView w
      ++ flat_map (quietIteration c id (effectiveInterval pollInterval) cb)
                  pre
      ++ [EvSend (statusRequest c id)] ++ callbackEvents cb s
    /\ WaitForCompletion env c id pollInterval maxAttempts cb w
       = match select_wait env (waited w + length pre)
                           (effectiveInterval pollInterval) with
         | TimerFired =>
           pollLoop env c id (effectiveInterval pollInterval) cb
             (Z.to_nat (effectiveAttempts maxAttempts) - length pre - 1)
             (w1 ++ [EvSelect (effectiveInterval pollInterval) TimerFired])
         | CtxDone why =>
           ((s, Some (context_Err why)),
            w1 ++ [EvSelect (effectiveInterval pollInterval) (CtxDone why)])
         end.
Proof.
  intros Hlt Hnt Hs Hfetch Htimer.
  destruct (WaitForCompletion_after_prefix env c id cb pollInterval
              maxAttempts w pre s Hlt Hnt Hfetch Htimer)
    as (w1 & Hview & _ & _ & _ & Hrun).
  destruct (nonTerminal_eqb s Hs) as [Hc Hf].
  rewrite Hc, Hf in Hrun.
  exists w1. split; assumption.
Qed.

Lemma WaitForCompletion_other_status_continues_witness :
  exists w1 : World,
    pollView w1
    = [EvSend (statusRequest testClient "t"); EvCallback queuedStatus]
    /\ WaitForCompletion (rt := refRuntime)
         (scriptedEnv [queuedPayload; completedPayload])
         testClient "t" 0 5 true []
       = pollLoop (rt := refRuntime)
           (scriptedEnv [queuedPayload; completedPayload])
           testClient "t" DefaultPollInterval true 4
           (w1 ++ [EvSelect DefaultPollInterval TimerFired]).
Proof.
  destruct (WaitForCompletion_other_status_continues (rt := refRuntime)
              (scriptedEnv [queuedPayload; completedPayload])
              testClient "t" 0 5 true [] [] queuedStatus)
    as (w1 & Hview & Hrun).
  - reflexivity.
  - constructor.
  - split; discriminate.
  - intros [|i] s Hs; [injection Hs as <-; reflexivity|].
    destruct i; discriminate.
  - intros i Hi. simpl in Hi. lia.
  - exists w1. split; [exact Hview|exact Hrun].
Defined.

Section PollerOutcome.

Context {rt : GoRuntime}.
Variable env : Env.
Variable c : Client.
Variable id : string.
Variable d : Z.
Variable cb : bool.

Lemma lastFetched_shift (k : nat) (x : TaskStatus) :
  forall n : nat,
    lastFetched env c id (S k) n = Some x ->
    lastFetched env c id k (S n) = Some x.
Proof.
  induction n as [|n IH]; [discriminate|].
  intros H. simpl in H.
  change (lastFetched env c id k (S (S n)))
    with (match fetchAt env c id (k + S n) with
          | (s, None) => Some s
          | (_, Some _) => lastFetched env c id k (S n)
          end).
  replace (k + S n) with (S (k + n)) by lia.
  destruct (fetchAt env c id (S (k + n))) as [s [e|]]; auto.
Qed.

Lemma lastFetched_one (k : nat) (s : TaskStatus) :
  fetchAt env c id k = (s, None) -> lastFetched env c id k 1 = Some s.
Proof.
  intros H. simpl. rewrite Nat.add_0_r, H. reflexivity.
Qed.

(** Every run of the loop ends in one of five ways. *)
Lemma pollLoop_ending (left : nat) :
  forall w : World,
  exists (s : TaskStatus) (err : option error) (w' : World),
    pollLoop env c id d cb left w = ((s, err), w')
    /\ sent w <= sent w' /\ waited w <= waited w'
    /\ runEnding env c id d left w w' s err.
Proof.
  induction left as [|left IH]; intros w.
  - exists zeroTaskStatus, (Some (Errorf "task timed out")), w.
    split; [reflexivity|]. split; [lia|]. split; [lia|].
    right. right. right. left. auto.
  - destruct (fetchAt env c id (sent w)) as [s [e|]] eqn:Hf.
    + destruct (pollLoop_fetch_error env c id d cb left w s e Hf)
        as (evs & Hrun & Hev).
      assert (Hw : waited (w ++ evs) = waited w).
      { rewrite <- waited_pollView, pollView_app, waited_app,
          waited_pollView.
        destruct Hev as [-> | ->]; unfold waited; simpl; lia. }
      exists zeroTaskStatus, (Some e), (w ++ evs).
      split; [exact Hrun|].
      split; [rewrite sent_app; lia|]. split; [lia|].
      right. right. right. right. exists e, s.
      rewrite Hw, Nat.sub_diag, Nat.add_0_r. auto.
    + destruct (pollLoop_fetch_ok env c id d cb left w s Hf)
        as (w1 & Hv & Hrun).
      assert (Hs1 : sent w1 = sent w + 1).
      { rewrite <- sent_pollView, Hv, !sent_app, sent_pollView.
        destruct cb; unfold sent; simpl; lia. }
      assert (Hw1 : waited w1 = waited w).
      { rewrite <- waited_pollView, Hv, !waited_app, waited_pollView.
        destruct cb; unfold waited; simpl; lia. }
      assert (Hlast : lastFetched env c id (sent w) (sent w1 - sent w)
                      = Some s).
      { replace (sent w1 - sent w) with 1 by lia.
        apply lastFetched_one. exact Hf. }
      destruct (String.eqb (Status s) "completed") eqn:Hc.
      { exists s, None, w1. split; [exact Hrun|].
        split; [lia|]. split; [lia|].
        left. apply String.eqb_eq in Hc. auto. }
      destruct (String.eqb (Status s) "failed") eqn:Hfl.
      { exists s, (Some (Errorf (failureMessage s))), w1.
        split; [exact Hrun|]. split; [lia|]. split; [lia|].
        right. left. apply String.eqb_eq in Hfl. auto. }
      assert (Hnt : nonTerminal s).
      { split; apply String.eqb_neq; assumption. }
      destruct (select_wait env (waited w) d) as [|why] eqn:Hsel.
      * destruct (IH (w1 ++ [EvSelect d TimerFired]))
          as (s' & err' & w' & Hrun' & Hle1 & Hle2 & Hend).
        assert (Hs2 : sent (w1 ++ [EvSelect d TimerFired]) = S (sent w))
          by (rewrite sent_app, Hs1; unfold sent; simpl; lia).
        assert (Hw2 : waited (w1 ++ [EvSelect d TimerFired]) = waited w + 1)
          by (rewrite waited_app, Hw1; unfold waited; simpl; lia).
        rewrite Hs2 in Hle1. rewrite Hw2 in Hle2.
        exists s', err', w'.
        split; [rewrite Hrun; exact Hrun'|].
        split; [lia|]. split; [lia|].
        unfold runEnding in *.
        rewrite Hs2, Hw2 in Hend.
        replace (sent w' - sent w) with (S (sent w' - S (sent w))) by lia.
        destruct Hend as [(He & Hst & Hl)
                         |[(He & Hst & Hl)
                          |[(why & He & Hst & Hl & Hlt & Hsl)
                           |[(He & Hst & Hwt)
                            |(e & s0 & He & Hst & Hfe)]]]].
        -- left. split; [exact He|]. split; [exact Hst|].
           apply lastFetched_shift. exact Hl.
        -- right. left. split; [exact He|]. split; [exact Hst|].
           apply lastFetched_shift. exact Hl.
        -- right. right. left. exists why.
           split; [exact He|]. split; [exact Hst|].
           split; [apply lastFetched_shift; exact Hl|].
           split; [lia|exact Hsl].
        -- right. right. right. left.
           split; [exact He|]. split; [exact Hst|]. lia.
        -- right. right. right. right. exists e, s0.
           split; [exact He|]. split; [exact Hst|].
           replace (sent w + (waited w' - waited w))
             with (S (sent w) + (waited w' - (waited w + 1))) by lia.
           exact Hfe.
      * exists s, (Some (context_Err why)), (w1 ++ [EvSelect d (CtxDone why)]).
        assert (Hs2 : sent (w1 ++ [EvSelect d (CtxDone why)]) = sent w + 1)
          by (rewrite sent_app, Hs1; unfold sent; simpl; lia).
        assert (Hw2 : waited (w1 ++ [EvSelect d (CtxDone why)])
                      = waited w + 1)
          by (rewrite waited_app, Hw1; unfold waited; simpl; lia).
        split; [exact Hrun|].
        split; [lia|]. split; [lia|].
        right. right. left. exists why.
        unfold runEnding. rewrite Hs2, Hw2.
        split; [reflexivity|]. split; [exact Hnt|].
        split.
        { replace (sent w + 1 - sent w) with 1 by lia.
          apply lastFetched_one. exact Hf. }
        split; [lia|].
        replace (waited w + 1 - 1) with (waited w) by lia. exact Hsel.
Qed.

End PollerOutcome.

(** C1 fails on the timeout path and on a later fetch error.  With one
    attempt and a processing status, the fetch succeeds and the run returns
    the zero status with [task timed out]; with two attempts and a server
    that answers once, the second fetch fails and the run returns the zero
    status with that error. *)
Lemma WaitForCompletion_last_status_counterexample :
  (WaitForCompletion (rt := refRuntime) (scriptedEnv [processingPayload])
     testClient "t" 0 1 false []
   = ((zeroTaskStatus, Some (Errorf "task timed out")),
      [EvSend (statusRequest testClient "t");
       EvSelect DefaultPollInterval TimerFired])
   /\ lastFetched (rt := refRuntime) (scriptedEnv [processingPayload])
        testClient "t" 0 1
      = Some processingStatus
   /\ ~ returns_last_fetched (rt := refRuntime)
          (scriptedEnv [processingPayload]) testClient "t" 0 1 false [])
  /\ (WaitForCompletion (rt := refRuntime) (scriptedEnv [processingPayload])
        testClient "t" 0 2 false []
      = ((zeroTaskStatus,
          Some (lib_error "net/http" "connection refused")),
         [EvSend (statusRequest testClient "t");
          EvSelect DefaultPollInterval TimerFired;
          EvSend (statusRequest testClient "t")])
      /\ lastFetched (rt := refRuntime) (scriptedEnv [processingPayload])
           testClient "t" 0 2
         = Some processingStatus
      /\ ~ returns_last_fetched (rt := refRuntime)
             (scriptedEnv [processingPayload]) testClient "t" 0 2 false []).
Proof.
  split; (split; [reflexivity|]; split; [reflexivity|]);
    intros H; specialize (H processingStatus eq_refl); discriminate H.
Qed.

(** C1, amended.  A run of [WaitForCompletion] ends in one of five ways.
    On success, on a failed task and when the context is done during a
    wait, the status returned is the one of the last successful fetch.  When
    the attempts run out and when a fetch fails, the status returned is the
    zero [TaskStatus], whatever was fetched before. *)
Theorem WaitForCompletion_returned_status {rt : GoRuntime} (env : Env)
    (c : Client) (id : string) (pollInterval maxAttempts : Z) (cb : bool)
    (w : World) :
  exists (s : TaskStatus) (err : option error) (w' : World),
    WaitForCompletion env c id pollInterval maxAttempts cb w = ((s, err), w')
    /\ runEnding env c id (effectiveInterval pollInterval)
         (Z.to_nat (effectiveAttempts maxAttempts)) w w' s err.
Proof.
  destruct (pollLoop_ending env c id (effectiveInterval pollInterval) cb
              (Z.to_nat (effectiveAttempts maxAttempts)) w)
    as (s & err & w' & Hrun & _ & _ & Hend).
  exists s, err, w'. split; [exact Hrun|exact Hend].
Qed.

(** ** Submission: claims *)

(** C8.  With the empty prompt, whatever the options, [SubmitTask] returns
    the error [prompt is required] and leaves the world as it found it: no
    request is sent. *)
Theorem SubmitTask_empty_prompt {rt : GoRuntime} (env : Env) (c : Client)
    (opts : option TaskSubmissionOptions) (w : World) :
  SubmitTask env c "" opts w = (("", Some (Errorf "prompt is required")), w)
  /\ sent (snd (SubmitTask env c "" opts w)) = sent w.
Proof. split; reflexivity. Qed.

(** The reference decoder gives the empty identifier for every JSON object
    without a key that names the field. *)
Lemma refRuntime_object_without_taskId (body : string)
    (ms : list (string * Json)) :
  RefRuntime.parseFirst body = Ok (JObject ms) ->
  (forall (k : string) (v : Json),
      In (k, v) ms -> RefRuntime.sameField k "taskId" = false) ->
  json_Decode_TaskID (GoRuntime := refRuntime) body = Ok ""%string.
Proof.
  intros Hparse Hkeys.
  change (RefRuntime.andThen (RefRuntime.parseFirst body) RefRuntime.toTaskID
          = Ok ""%string).
  rewrite Hparse.
  change (RefRuntime.fillTaskID ms "" = Ok ""%string).
  assert (Hfill : forall acc : string, RefRuntime.fillTaskID ms acc = Ok acc).
  { clear Hparse.
    induction ms as [|[k v] ms IH]; intros acc; simpl; [reflexivity|].
    rewrite (Hkeys k v) by (left; reflexivity).
    apply IH. intros k' v' Hin. apply (Hkeys k' v'). right. exact Hin. }
  apply Hfill.
Qed.

(** C10.  When the answer to the submission has status 200 or 202 and
    decoding its body leaves the identifier empty, as [encoding/json] does
    for an object without a [taskId] member, [SubmitTask] returns the empty
    string and no error. *)
Theorem SubmitTask_missing_taskId {rt : GoRuntime} (env : Env) (c : Client)
    (prompt : string) (opts : option TaskSubmissionOptions) (w w1 : World)
    (resp : Response) :
  prompt <> ""%string ->
  doRequest env c "POST" "/run"
    (Some {| bodyPrompt := prompt; bodyOptions := opts |}) w
  = (Ok resp, w1) ->
  (StatusCode resp = 200 \/ StatusCode resp = 202)%Z ->
  json_Decode_TaskID (Body resp) = Ok ""%string ->
  SubmitTask env c prompt opts w = ((""%string, None), w1).
Proof.
  intros Hprompt Hreq Hcode Hdec.
  unfold SubmitTask.
  apply String.eqb_neq in Hprompt. rewrite Hprompt.
  unfold bind. rewrite Hreq.
  assert (Hok : negb (StatusCode resp =? http_StatusOK)%Z
                && negb (StatusCode resp =? http_StatusAccepted)%Z = false).
  { destruct Hcode as [-> | ->]; reflexivity. }
  rewrite Hok, Hdec. reflexivity.
Qed.

Lemma SubmitTask_missing_taskId_witness :
  SubmitTask (rt := refRuntime) (scriptedEnv ["{}"%string]) testClient
    "hello" None []
  = ((""%string, None),
     [EvSend {| Method := "POST"; URL := "http://api.test/run";
                Header := requestHeader testClient;
                ReqBody := Some ("{" ++ quoted "prompt" ++ ":"
                                 ++ quoted "hello" ++ "}")%string |}]).
Proof.
  apply (SubmitTask_missing_taskId (rt := refRuntime)
           (scriptedEnv ["{}"%string]) testClient "hello" None []
           _ {| StatusCode := 200; RespHeader := []; Body := "{}" |}).
  - discriminate.
  - reflexivity.
  - left. reflexivity.
  - reflexivity.
Defined.

(** ** White space *)

Lemma space2_lead (a b : ascii) :
  space2 a b = true -> byte_of a = 194%N /\ (128 <= byte_of b)%N.
Proof.
  unfold space2.
  rewrite andb_true_iff, orb_true_iff, !N.eqb_eq. lia.
Qed.

Lemma space3_lead (a b c : ascii) :
  space3 a b c = true -> (225 <= byte_of a)%N /\ (128 <= byte_of b)%N.
Proof.
  unfold space3.
  rewrite !orb_true_iff, !andb_true_iff, !orb_true_iff, !andb_true_iff,
    !N.eqb_eq.
  lia.
Qed.

Lemma plainByte_spec (a : ascii) :
  plainByte a = true -> (byte_of a < 128)%N /\ asciiSpace a = false.
Proof.
  unfold plainByte.
  rewrite andb_true_iff, N.ltb_lt, negb_true_iff. tauto.
Qed.

Lemma space2_plain_lead (a b : ascii) : plainByte a = true -> space2 a b = false.
Proof.
  intros Ha. apply plainByte_spec in Ha.
  destruct (space2 a b) eqn:E; [|reflexivity].
  apply space2_lead in E. lia.
Qed.

Lemma space3_plain_lead (a b c : ascii) :
  plainByte a = true -> space3 a b c = false.
Proof.
  intros Ha. apply plainByte_spec in Ha.
  destruct (space3 a b c) eqn:E; [|reflexivity].
  apply space3_lead in E. lia.
Qed.

Lemma space3_plain_mid (a b c : ascii) :
  plainByte b = true -> space3 a b c = false.
Proof.
  intros Hb. apply plainByte_spec in Hb.
  destruct (space3 a b c) eqn:E; [|reflexivity].
  apply space3_lead in E. lia.
Qed.

(** Trimming on the left stops at a plain byte. *)
Lemma trimLeft_plain (a : ascii) (l : list ascii) :
  plainByte a = true -> trimLeft (a :: l) = a :: l.
Proof.
  intros Ha. simpl.
  destruct (plainByte_spec a Ha) as [_ ->].
  destruct l as [|b l]; [reflexivity|].
  rewrite (space2_plain_lead a b Ha).
  destruct l as [|c l]; [reflexivity|].
  rewrite (space3_plain_lead a b c Ha). reflexivity.
Qed.

(** Trimming on the right does not reach into plain bytes before the white
    space.  The lists are reversed: [q] is what precedes [l] in the string. *)
Lemma trimRightRev_plain (q : list ascii) :
  Forall (fun a => plainByte a = true) q ->
  forall l : list ascii, trimRightRev (l ++ q) = trimRightRev l ++ q.
Proof.
  intros Hq.
  assert (Hbase : trimRightRev q = q).
  { destruct Hq as [|c q1 Hc Hq1]; [reflexivity|]. simpl.
    destruct (plainByte_spec c Hc) as [_ ->].
    destruct Hq1 as [|b q2 Hb Hq2]; [reflexivity|].
    rewrite (space2_plain_lead b c Hb).
    destruct Hq2 as [|a q3 Ha Hq3]; [reflexivity|].
    rewrite (space3_plain_lead a b c Ha). reflexivity. }
  assert (Hall : forall (n : nat) (l : list ascii),
             length l <= n -> trimRightRev (l ++ q) = trimRightRev l ++ q).
  { induction n as [|n IH]; intros l Hl.
    - destruct l; [exact Hbase|simpl in Hl; lia].
    - destruct l as [|c l1]; [exact Hbase|].
      simpl in Hl.
      change (trimRightRev ((c :: l1) ++ q))
        with (if asciiSpace c then trimRightRev (l1 ++ q)
              else match l1 ++ q with
                   | b :: r2 =>
                     if space2 b c then trimRightRev r2
                     else match r2 with
                          | a :: r3 =>
                            if space3 a b c then trimRightRev r3
                            else c :: l1 ++ q
                          | [] => c :: l1 ++ q
                          end
                   | [] => c :: l1 ++ q
                   end).
      change (trimRightRev (c :: l1))
        with (if asciiSpace c then trimRightRev l1
              else match l1 with
                   | b :: r2 =>
                     if space2 b c then trimRightRev r2
                     else match r2 with
                          | a :: r3 =>
                            if space3 a b c then trimRightRev r3
                            else c :: l1
                          | [] => c :: l1
                          end
                   | [] => c :: l1
                   end).
      destruct (asciiSpace c); [apply IH; lia|].
      destruct l1 as [|b l2].
      + simpl app.
        destruct Hq as [|b q2 Hb Hq2]; [reflexivity|].
        rewrite (space2_plain_lead b c Hb).
        destruct Hq2 as [|a q3 Ha Hq3]; [reflexivity|].
        rewrite (space3_plain_lead a b c Ha). reflexivity.
      + change ((b :: l2) ++ q) with (b :: (l2 ++ q)). cbv beta iota.
        simpl in Hl.
        destruct (space2 b c); [apply IH; lia|].
        destruct l2 as [|a l3].
        * simpl app.
          destruct Hq as [|a q3 Ha Hq3]; [reflexivity|].
          rewrite (space3_plain_lead a b c Ha). reflexivity.
        * change ((a :: l3) ++ q) with (a :: (l3 ++ q)). cbv beta iota.
          simpl in Hl.
          destruct (space3 a b c); [apply IH; lia|reflexivity]. }
  intros l. apply (Hall (length l)). lia.
Qed.

Lemma list_ascii_of_string_app (s1 s2 : string) :
  list_ascii_of_string (s1 ++ s2)%string
  = list_ascii_of_string s1 ++ list_ascii_of_string s2.
Proof. induction s1 as [|a s1 IH]; simpl; [|rewrite IH]; reflexivity. Qed.

Lemma string_of_list_ascii_app (l1 l2 : list ascii) :
  string_of_list_ascii (l1 ++ l2)
  = (string_of_list_ascii l1 ++ string_of_list_ascii l2)%string.
Proof. induction l1 as [|a l1 IH]; simpl; [|rewrite IH]; reflexivity. Qed.

(** [TrimSpace] keeps a prefix made of plain bytes. *)
Lemma TrimSpace_plain_prefix (p x : string) :
  p <> ""%string ->
  Forall (fun a => plainByte a = true) (list_ascii_of_string p) ->
  exists y : string, strings_TrimSpace (p ++ x) = (p ++ y)%string.
Proof.
  intros Hne Hp.
  unfold strings_TrimSpace.
  rewrite list_ascii_of_string_app.
  destruct p as [|a p]; [contradiction|].
  simpl list_ascii_of_string in *.
  assert (Ha : plainByte a = true) by (inversion Hp; assumption).
  change ((a :: list_ascii_of_string p) ++ list_ascii_of_string x)
    with (a :: (list_ascii_of_string p ++ list_ascii_of_string x)).
  rewrite (trimLeft_plain a _ Ha).
  change (a :: (list_ascii_of_string p ++ list_ascii_of_string x))
    with ((a :: list_ascii_of_string p) ++ list_ascii_of_string x).
  rewrite rev_app_distr.
  rewrite trimRightRev_plain
    by (apply Forall_rev; exact Hp).
  rewrite rev_app_distr, rev_involutive.
  exists (string_of_list_ascii
            (rev (trimRightRev (rev (list_ascii_of_string x))))).
  rewrite string_of_list_ascii_app.
  change (a :: list_ascii_of_string p)
    with (list_ascii_of_string (String a p)).
  rewrite string_of_list_ascii_of_string. reflexivity.
Qed.

Lemma prefix_append (p y : string) : String.prefix p (p ++ y) = true.
Proof.
  induction p as [|a p IH]; simpl.
  - destruct y; reflexivity.
  - destruct (ascii_dec a a) as [_|N]; [exact IH|contradiction].
Qed.

Lemma prefix_split (p s : string) :
  String.prefix p s = true -> exists x : string, s = (p ++ x)%string.
Proof.
  revert s. induction p as [|a p IH]; intros s H.
  - exists s. reflexivity.
  - destruct s as [|b s]; [discriminate|]. simpl in H.
    destruct (ascii_dec a b) as [->|N]; [|discriminate].
    destruct (IH s H) as [x ->]. exists x. reflexivity.
Qed.

(** ** Reading lines *)

Lemma cutLine_line (body rest : string) :
  hasNewline body = false ->
  cutLine (body ++ lf ++ rest) = Some ((body ++ lf)%string, rest).
Proof.
  induction body as [|a body IH]; simpl; intros H.
  - reflexivity.
  - apply orb_false_iff in H. destruct H as [Ha Hb].
    specialize (IH Hb). simpl in IH.
    rewrite Ha, IH. reflexivity.
Qed.

(** ** The stream decoder: claims *)

Section StreamFacts.

Context {rt : GoRuntime}.

(** The loop of [Next], unfolded once. *)
Lemma Next_loop (s : sseStream) :
  Next s =
  match ctx s with
  | Some why => ((zeroTaskStatus, Some (context_Err why)), s)
  | None =>
    match bufio_ReadString (reader s) with
    | ((_, Some err), rd) => ((zeroTaskStatus, Some err), with_reader s rd)
    | ((line, None), rd) =>
      let line := strings_TrimSpace line in
      if String.eqb line "" || strings_HasPrefix line ":"
      then Next (with_reader s rd)
      else if strings_HasPrefix line "data:"
      then (frameResult
              (json_Unmarshal_TaskStatus
                 (strings_TrimSpace (slice_from 5 line))),
            with_reader s rd)
      else Next (with_reader s rd)
    end
  end.
Proof.
  funelim (Next s).
  - rewrite Heq. reflexivity.
  - rewrite Heq, e. reflexivity.
  - rewrite Heq, Hread. cbv zeta.
    destruct (String.eqb (strings_TrimSpace line) "" 
              || strings_HasPrefix (strings_TrimSpace line) ":");
      [reflexivity|].
    destruct (strings_HasPrefix (strings_TrimSpace line) "data:");
      [|reflexivity].
    destruct (json_Unmarshal_TaskStatus
                (strings_TrimSpace (slice_from 5 (strings_TrimSpace line))));
      reflexivity.
Qed.

(** [Next] on a live stream whose input starts with a whole line. *)
Lemma Next_line (s : sseStream) (body rest : string) :
  ctx s = None ->
  hasNewline body = false ->
  unread (reader s) = (body ++ lf ++ rest)%string ->
  Next s =
  let line := strings_TrimSpace (body ++ lf) in
  if String.eqb line "" || strings_HasPrefix line ":"
  then Next (after_line s rest)
  else if strings_HasPrefix line "data:"
  then (frameResult
          (json_Unmarshal_TaskStatus (strings_TrimSpace (slice_from 5 line))),
        after_line s rest)
  else Next (after_line s rest).
Proof.
  intros Hctx Hbody Hin.
  rewrite Next_loop, Hctx.
  unfold bufio_ReadString. rewrite Hin, (cutLine_line body rest Hbody).
  reflexivity.
Qed.

(** A line that is skipped, and a line that carries a frame. *)
Lemma Next_skips (s : sseStream) (body rest : string) :
  ctx s = None ->
  hasNewline body = false ->
  unread (reader s) = (body ++ lf ++ rest)%string ->
  String.eqb (strings_TrimSpace (body ++ lf)) ""
  || strings_HasPrefix (strings_TrimSpace (body ++ lf)) ":" = true
  \/ strings_HasPrefix (strings_TrimSpace (body ++ lf)) "data:" = false ->
  Next s = Next (after_line s rest).
Proof.
  intros Hctx Hbody Hin Hskip.
  rewrite (Next_line s body rest Hctx Hbody Hin). cbv zeta.
  destruct (String.eqb (strings_TrimSpace (body ++ lf)) ""
            || strings_HasPrefix (strings_TrimSpace (body ++ lf)) ":");
    [reflexivity|].
  destruct Hskip as [H|H]; [discriminate|].
  rewrite H. reflexivity.
Qed.

Lemma Next_frame (s : sseStream) (body rest : string) :
  ctx s = None ->
  hasNewline body = false ->
  unread (reader s) = (body ++ lf ++ rest)%string ->
  String.eqb (strings_TrimSpace (body ++ lf)) ""
  || strings_HasPrefix (strings_TrimSpace (body ++ lf)) ":" = false ->
  strings_HasPrefix (strings_TrimSpace (body ++ lf)) "data:" = true ->
  Next s
  = (frameResult
       (json_Unmarshal_TaskStatus
          (strings_TrimSpace
             (slice_from 5 (strings_TrimSpace (body ++ lf))))),
     after_line s rest).
Proof.
  intros Hctx Hbody Hin Hno Hdata.
  rewrite (Next_line s body rest Hctx Hbody Hin). cbv zeta.
  rewrite Hno, Hdata. reflexivity.
Qed.

(** The end of the input. *)
Lemma Next_exhausted (s : sseStream) :
  ctx s = None ->
  cutLine (unread (reader s)) = None ->
  Next s
  = ((zeroTaskStatus, Some (exhausted (reader s))),
     after_line s "").
Proof.
  intros Hctx Hcut.
  rewrite Next_loop, Hctx. unfold bufio_ReadString. rewrite Hcut.
  reflexivity.
Qed.

End StreamFacts.

(** C5.  On a live stream whose input starts with a line, [Next] skips the
    line when it is blank, when it begins with a colon, and when it is of
    neither shape; when the line begins with [data:] it returns the result
    of decoding what follows the prefix, trimmed, as a [TaskStatus], the
    status itself when the decoding succeeds.  On the bytes of the
    specification's example, with a decoder that reads the two payloads as
    the processing and the completed status, three calls return the
    processing status, the completed status and then [io.EOF]. *)
Theorem Next_decodes_frames {rt : GoRuntime} (s : sseStream)
    (body rest : string) :
  ctx s = None ->
  hasNewline body = false ->
  unread (reader s) = (body ++ lf ++ rest)%string ->
  json_Unmarshal_TaskStatus processingPayload = Ok processingStatus ->
  json_Unmarshal_TaskStatus completedPayload = Ok completedStatus ->
  (strings_TrimSpace (body ++ lf) = ""%string ->
   Next s = Next (after_line s rest))
  /\ (strings_HasPrefix body ":" = true -> Next s = Next (after_line s rest))
  /\ (strings_HasPrefix body "data:" = true ->
      Next s
      = (frameResult
           (json_Unmarshal_TaskStatus
              (strings_TrimSpace
                 (slice_from 5 (strings_TrimSpace (body ++ lf))))),
         after_line s rest))
  /\ (strings_HasPrefix (strings_TrimSpace (body ++ lf)) ":" = false ->
      strings_HasPrefix (strings_TrimSpace (body ++ lf)) "data:" = false ->
      Next s = Next (after_line s rest))
  /\ (Next (streamOver exampleBytes)
      = ((processingStatus, None),
         streamOver (lf ++ "data: " ++ completedPayload ++ lf ++ lf)%string)
      /\ Next (streamOver (lf ++ "data: " ++ completedPayload
                           ++ lf ++ lf)%string)
         = ((completedStatus, None), streamOver lf)
      /\ Next (streamOver lf) = ((zeroTaskStatus, Some io_EOF), streamOver "")).
Proof.
  intros Hctx Hbody Hin Hdec1 Hdec2.
  split; [|split; [|split; [|split]]].
  - intros Hblank. apply (Next_skips s body rest Hctx Hbody Hin).
    left. rewrite Hblank. reflexivity.
  - intros Hcolon.
    destruct (prefix_split ":" body Hcolon) as [x ->].
    apply (Next_skips s _ rest Hctx Hbody Hin). left.
    rewrite append_assoc.
    destruct (TrimSpace_plain_prefix ":" (x ++ lf)) as [y ->];
      [discriminate|repeat constructor|].
    apply orb_true_iff. right. apply prefix_append.
  - intros Hdata.
    destruct (prefix_split "data:" body Hdata) as [x ->].
    apply (Next_frame s _ rest Hctx Hbody Hin).
    + rewrite append_assoc.
      destruct (TrimSpace_plain_prefix "data:" (x ++ lf)) as [y ->];
        [discriminate|repeat constructor|].
      reflexivity.
    + rewrite append_assoc.
      destruct (TrimSpace_plain_prefix "data:" (x ++ lf)) as [y ->];
        [discriminate|repeat constructor|].
      apply prefix_append.
  - intros _ Hother. apply (Next_skips s body rest Hctx Hbody Hin).
    right. exact Hother.
  - split; [|split].
    + rewrite (Next_frame (streamOver exampleBytes)
                 ("data: " ++ processingPayload)
                 (lf ++ "data: " ++ completedPayload ++ lf ++ lf)
                 eq_refl eq_refl eq_refl eq_refl eq_refl).
      change (strings_TrimSpace
                (slice_from 5
                   (strings_TrimSpace
                      (("data: " ++ processingPayload) ++ lf))))
        with processingPayload.
      rewrite Hdec1. reflexivity.
    + rewrite (Next_skips (streamOver (lf ++ "data: " ++ completedPayload
                                       ++ lf ++ lf))
                 "" ("data: " ++ completedPayload ++ lf ++ lf)
                 eq_refl eq_refl eq_refl (or_introl eq_refl)).
      change (after_line
                (streamOver (lf ++ "data: " ++ completedPayload ++ lf ++ lf))
                ("data: " ++ completedPayload ++ lf ++ lf))
        with (streamOver ("data: " ++ completedPayload ++ lf ++ lf)).
      rewrite (Next_frame
                 (streamOver ("data: " ++ completedPayload ++ lf ++ lf))
                 ("data: " ++ completedPayload) lf
                 eq_refl eq_refl eq_refl eq_refl eq_refl).
      change (strings_TrimSpace
                (slice_from 5
                   (strings_TrimSpace
                      (("data: " ++ completedPayload) ++ lf))))
        with completedPayload.
      rewrite Hdec2. reflexivity.
    + rewrite (Next_skips (streamOver lf) "" ""
                 eq_refl eq_refl eq_refl (or_introl eq_refl)).
      rewrite Next_exhausted by reflexivity. reflexivity.
Qed.

Lemma Next_decodes_frames_witness :
  Next (rt := refRuntime) (streamOver exampleBytes)
  = ((processingStatus, None),
     streamOver (lf ++ "data: " ++ completedPayload ++ lf ++ lf)%string)
  /\ Next (rt := refRuntime)
       (streamOver (lf ++ "data: " ++ completedPayload ++ lf ++ lf)%string)
     = ((completedStatus, None), streamOver lf)
  /\ Next (rt := refRuntime) (streamOver lf)
     = ((zeroTaskStatus, Some io_EOF), streamOver "").
Proof.
  apply (Next_decodes_frames (rt := refRuntime) (streamOver exampleBytes)
           ("data: " ++ processingPayload)
           (lf ++ "data: " ++ completedPayload ++ lf ++ lf)).
  - reflexivity.
  - reflexivity.
  - reflexivity.
  - reflexivity.
  - reflexivity.
Defined.

(** C6.  On a stream whose context is already done, [Next] returns the
    context's error, [context.Canceled] after a cancellation, and leaves the
    stream as it was: nothing is read and no buffered byte is consumed. *)
Theorem Next_cancelled {rt : GoRuntime} (s : sseStream) (why : ctxCause) :
  ctx s = Some why ->
  Next s = ((zeroTaskStatus, Some (context_Err why)), s)
  /\ reader (snd (Next s)) = reader s.
Proof.
  intros Hctx. rewrite Next_loop, Hctx. split; reflexivity.
Qed.

Lemma Next_cancelled_witness :
  Next (rt := refRuntime)
    {| taskID := "t"; ctx := Some Canceled;
       reader := {| unread := exampleBytes; exhausted := io_EOF |} |}
  = ((zeroTaskStatus, Some (context_Err Canceled)),
     {| taskID := "t"; ctx := Some Canceled;
        reader := {| unread := exampleBytes; exhausted := io_EOF |} |}).
Proof.
  apply (Next_cancelled (rt := refRuntime)
           {| taskID := "t"; ctx := Some Canceled;
              reader := {| unread := exampleBytes; exhausted := io_EOF |} |}
           Canceled).
  reflexivity.
Defined.

(** * Further properties of the client *)

(** ** NewClient *)

Lemma dropWhile_split {A : Type} (p : A -> bool) (l : list A) :
  exists front : list A,
    l = front ++ dropWhile p l
    /\ Forall (fun a => p a = true) front
    /\ match dropWhile p l with
       | a :: _ => p a = false
       | [] => True
       end.
Proof.
  induction l as [|a l (front & Hl & Hfront & Hhead)]; simpl.
  - exists []. auto.
  - destruct (p a) eqn:Hp.
    + exists (a :: front). simpl. rewrite <- Hl. auto.
    + exists []. simpl. auto.
Qed.

Lemma slashes_bytes (front : list ascii) :
  Forall (fun a => Ascii.eqb "/"%char a = true) front ->
  string_of_list_ascii front = slashes (length front).
Proof.
  induction 1 as [|a front Ha _ IH]; simpl; [reflexivity|].
  apply Ascii.eqb_eq in Ha. subst a. rewrite IH. reflexivity.
Qed.

(** What [strings.TrimRight] removes is a run of the byte, and what is left
    does not end with it. *)
Lemma strings_TrimRight_spec (s : string) :
  exists k : nat,
    s = (strings_TrimRight s "/"%char ++ slashes k)%string
    /\ forall x : string,
         strings_TrimRight s "/"%char <> (x ++ "/")%string.
Proof.
  unfold strings_TrimRight.
  destruct (dropWhile_split (Ascii.eqb "/"%char) (rev (list_ascii_of_string s)))
    as (front & Hsplit & Hfront & Hhead).
  set (kept := dropWhile (Ascii.eqb "/"%char) (rev (list_ascii_of_string s)))
    in *.
  exists (length front). split.
  - rewrite <- (string_of_list_ascii_of_string s) at 1.
    rewrite <- (rev_involutive (list_ascii_of_string s)), Hsplit.
    rewrite rev_app_distr, string_of_list_ascii_app.
    f_equal.
    rewrite <- length_rev. apply slashes_bytes.
    apply Forall_rev. exact Hfront.
  - intros x Hx.
    apply (f_equal list_ascii_of_string) in Hx.
    rewrite list_ascii_of_string_of_list_ascii, list_ascii_of_string_app in Hx.
    apply (f_equal (@rev ascii)) in Hx.
    rewrite rev_involutive, rev_app_distr in Hx. simpl in Hx.
    rewrite Hx in Hhead. simpl in Hhead. discriminate.
Qed.

(** X1.  The base URL a client is built with is the configured one, or the
    default when none is configured, without its trailing slashes: it never
    ends with a slash, so a path that starts with one joins it with a single
    slash. *)
Theorem NewClient_baseURL_trimmed (opts : TaskForceAIOptions) :
  exists k : nat,
    (if String.eqb (BaseURL opts) "" then DefaultBaseURL else BaseURL opts)
    = (baseURL (NewClient opts) ++ slashes k)%string
    /\ forall x : string, baseURL (NewClient opts) <> (x ++ "/")%string.
Proof.
  unfold NewClient. simpl baseURL.
  apply strings_TrimRight_spec.
Qed.

Lemma slashes_list (k : nat) :
  list_ascii_of_string (slashes k) = repeat "/"%char k.
Proof. induction k as [|k IH]; simpl; [|rewrite IH]; reflexivity. Qed.

Lemma rev_repeat_same {A : Type} (a : A) (k : nat) :
  rev (repeat a k) = repeat a k.
Proof.
  induction k as [|k IH]; simpl; [reflexivity|].
  rewrite IH. clear IH.
  induction k as [|k IH]; simpl; [reflexivity|]. rewrite IH. reflexivity.
Qed.

(** X2.  A configured base URL made of slashes only is trimmed to the empty
    string, and the default is not put in its place: the client then sends
    its requests to the bare path. *)
Theorem NewClient_only_slashes (opts : TaskForceAIOptions) (k : nat)
    (id : string) :
  BaseURL opts = slashes (S k) ->
  baseURL (NewClient opts) = ""%string
  /\ URL (statusRequest (NewClient opts) id) = ("/status/" ++ id)%string.
Proof.
  intros Hbase.
  assert (Hempty : baseURL (NewClient opts) = ""%string).
  { unfold NewClient. simpl baseURL. rewrite Hbase.
    change (String.eqb (slashes (S k)) "") with false. cbv iota.
    unfold strings_TrimRight.
    rewrite slashes_list, rev_repeat_same.
    assert (Hdrop : forall n : nat,
               dropWhile (Ascii.eqb "/"%char) (repeat "/"%char n) = []).
    { induction n as [|n IH]; simpl; [reflexivity|exact IH]. }
    rewrite Hdrop. reflexivity. }
  split; [exact Hempty|].
  change (URL (statusRequest (NewClient opts) id))
    with (baseURL (NewClient opts) ++ "/status/" ++ id)%string.
  rewrite Hempty. reflexivity.
Qed.

Lemma NewClient_only_slashes_witness :
  baseURL (NewClient {| APIKey := "k"; BaseURL := "///"; Timeout := 0;
                        ResponseHook := false; MockMode := false |})
  = ""%string.
Proof.
  apply (NewClient_only_slashes
           {| APIKey := "k"; BaseURL := "///"; Timeout := 0;
              ResponseHook := false; MockMode := false |} 2 "t").
  reflexivity.
Defined.

(** ** The request primitive *)

Lemma hookCalls_app (w1 w2 : World) :
  hookCalls (w1 ++ w2) = hookCalls w1 ++ hookCalls w2.
Proof.
  induction w1 as [|e w1 IH]; simpl; [reflexivity|].
  destruct e; simpl; rewrite IH; reflexivity.
Qed.


Lemma sent_requests (w : World) : sent w = length (requests w).
Proof.
  unfold sent. induction w as [|e w IH]; simpl; [reflexivity|].
  destruct e; simpl; rewrite ?IH; reflexivity.
Qed.

Section RequestFacts.

Context {rt : GoRuntime}.
Variable env : Env.
Variable c : Client.

(** What a call of [doRequest] adds to the world, by its result. *)
Lemma doRequest_run (method path : string) (body : option SubmitBody)
    (w : World) :
  exists evs : list Event,
    snd (doRequest env c method path body w) = w ++ evs
    /\ match fst (doRequest env c method path body w) with
       | Ok resp =>
         exists jb : option string,
           marshalsTo body jb
           /\ http_Do env (sent w) (builtRequest c method path jb) = Ok resp
           /\ evs = EvSend (builtRequest c method path jb)
                    :: (if responseHook c
                        then [EvHook (StatusCode resp) (RespHeader resp)]
                        else [])
       | Err e =>
         evs = []
         \/ exists jb : option string,
              marshalsTo body jb
              /\ http_Do env (sent w) (builtRequest c method path jb) = Err e
              /\ evs = [EvSend (builtRequest c method path jb)]
       end.
Proof.
  unfold doRequest, bind, ret, httpClient_Do, emit. cbv beta.
  assert (Hbuilt : forall jb : option string,
             {| Method := method; URL := (baseURL c ++ path)%string;
                Header := requestHeader c; ReqBody := jb |}
             = builtRequest c method path jb) by reflexivity.
  destruct body as [b|].
  - destruct (json_Marshal b) as [j|e] eqn:Hm.
    + destruct (http_NewRequest method (baseURL c ++ path)%string) as [e|].
      * exists []. rewrite app_nil_r. simpl. auto.
      * rewrite Hbuilt.
        destruct (http_Do env (sent w) (builtRequest c method path (Some j)))
          as [resp|e] eqn:Hdo.
        -- destruct (responseHook c); simpl.
           ++ exists [EvSend (builtRequest c method path (Some j));
                      EvHook (StatusCode resp) (RespHeader resp)].
              rewrite <- app_assoc. split; [reflexivity|].
              exists (Some j). auto.
           ++ exists [EvSend (builtRequest c method path (Some j))].
              split; [reflexivity|]. exists (Some j). auto.
        -- exists [EvSend (builtRequest c method path (Some j))]. simpl.
           split; [reflexivity|]. right. exists (Some j). auto.
    + exists []. rewrite app_nil_r. simpl. auto.
  - destruct (http_NewRequest method (baseURL c ++ path)%string) as [e|].
    + exists []. rewrite app_nil_r. simpl. auto.
    + rewrite Hbuilt.
      destruct (http_Do env (sent w) (builtRequest c method path None))
        as [resp|e] eqn:Hdo.
      * destruct (responseHook c); simpl.
        -- exists [EvSend (builtRequest c method path None);
                   EvHook (StatusCode resp) (RespHeader resp)].
           rewrite <- app_assoc. split; [reflexivity|].
           exists None. simpl. auto.
        -- exists [EvSend (builtRequest c method path None)].
           split; [reflexivity|]. exists None. simpl. auto.
      * exists [EvSend (builtRequest c method path None)]. simpl.
        split; [reflexivity|]. right. exists None. simpl. auto.
Qed.

End RequestFacts.

(** X3.  With a response hook set, [doRequest] calls it once for every
    response it receives, whatever the status code, with that response's
    status and header, and does not call it when it returns an error; it
    sends one request at most. *)
Theorem doRequest_hook_per_response {rt : GoRuntime} (env : Env) (c : Client)
    (method path : string) (body : option SubmitBody) (w : World) :
  responseHook c = true ->
  hookCalls (snd (doRequest env c method path body w))
  = hookCalls w
    ++ match fst (doRequest env c method path body w) with
       | Ok resp => [(StatusCode resp, RespHeader resp)]
       | Err _ => []
       end
  /\ sent (snd (doRequest env c method path body w)) <= sent w + 1.
Proof.
  intros Hhook.
  destruct (doRequest_run env c method path body w) as (evs & Hw & Hres).
  rewrite Hw, hookCalls_app, sent_app.
  destruct (fst (doRequest env c method path body w)) as [resp|e].
  - destruct Hres as (jb & _ & _ & ->). rewrite Hhook.
    split; [reflexivity|]. unfold sent. simpl. lia.
  - destruct Hres as [-> | (jb & _ & _ & ->)];
      (split; [reflexivity|]); unfold sent; simpl; lia.
Qed.

Lemma doRequest_hook_per_response_witness :
  hookCalls (snd (doRequest (rt := refRuntime) (constantEnv 201 "")
                    hookedClient "GET" "/" None []))
  = [(201%Z, [])].
Proof.
  apply (doRequest_hook_per_response (rt := refRuntime) (constantEnv 201 "")
           hookedClient "GET" "/" None []).
  reflexivity.
Defined.

(** X4.  When the request cannot be built, because the method or the URL is
    refused, [doRequest] returns that error and nothing reaches the network:
    no request is sent and the hook is not called. *)
Theorem doRequest_unbuildable {rt : GoRuntime} (env : Env) (c : Client)
    (method path : string) (body : option SubmitBody) (w : World)
    (e : error) :
  (forall b : SubmitBody,
      body = Some b -> exists j : string, json_Marshal b = Ok j) ->
  http_NewRequest method (baseURL c ++ path)%string = Some e ->
  doRequest env c method path body w = (Err e, w).
Proof.
  intros Hbody Hnew. unfold doRequest.
  destruct body as [b|].
  - destruct (Hbody b eq_refl) as [j ->]. rewrite Hnew. reflexivity.
  - rewrite Hnew. reflexivity.
Qed.

Lemma doRequest_unbuildable_witness :
  doRequest (rt := refRuntime) (constantEnv 200 "{}") testClient
    "INVALID METHOD" "/" None []
  = (Err (lib_error "net/http" "invalid method INVALID METHOD"), []).
Proof.
  apply (doRequest_unbuildable (rt := refRuntime) (constantEnv 200 "{}")
           testClient "INVALID METHOD" "/" None []).
  - intros b Hb. discriminate Hb.
  - reflexivity.
Defined.

(** X5.  Every request [doRequest] sends goes to the client's base URL
    followed by the path, says [application/json] and names the SDK
    language; it carries an [Authorization] header exactly when the client
    has an API key, and then it is [Bearer] followed by the key. *)
Theorem doRequest_headers {rt : GoRuntime} (env : Env) (c : Client)
    (method path : string) (body : option SubmitBody) (w : World) :
  exists evs : list Event,
    snd (doRequest env c method path body w) = w ++ evs
    /\ forall req : Request,
         In req (requests evs) ->
         Method req = method
         /\ URL req = (baseURL c ++ path)%string
         /\ In ("Content-Type", "application/json") (Header req)
         /\ In ("X-SDK-Language", "go") (Header req)
         /\ forall v : string,
              In ("Authorization", v) (Header req)
              <-> apiKey c <> ""%string
                  /\ v = ("Bearer " ++ apiKey c)%string.
Proof.
  destruct (doRequest_run env c method path body w) as (evs & Hw & Hres).
  exists evs. split; [exact Hw|].
  intros req Hin.
  assert (Hreq : exists jb, req = builtRequest c method path jb).
  { destruct (fst (doRequest env c method path body w)) as [resp|e].
    - destruct Hres as (jb & _ & _ & ->). exists jb.
      destruct (responseHook c); simpl in Hin;
        destruct Hin as [<- | []]; reflexivity.
    - destruct Hres as [-> | (jb & _ & _ & ->)]; [destruct Hin|].
      exists jb. simpl in Hin. destruct Hin as [<- | []]. reflexivity. }
  destruct Hreq as [jb ->]. simpl.
  split; [reflexivity|]. split; [reflexivity|].
  unfold requestHeader.
  destruct (String.eqb (apiKey c) "") eqn:Hkey; simpl.
  - apply String.eqb_eq in Hkey.
    split; [auto|]. split; [auto|].
    intros v. split.
    + intros [H | [H | []]]; discriminate H.
    + intros [Hne _]. contradiction.
  - apply String.eqb_neq in Hkey.
    split; [auto|]. split; [auto|].
    intros v. split.
    + intros [H | [H | [H | []]]]; try discriminate H.
      injection H as <-. auto.
    + intros [_ ->]. auto.
Qed.

(** ** GetTaskStatus and SubmitTask *)

Section CallFacts.

Context {rt : GoRuntime}.
Variable env : Env.
Variable c : Client.

(** [GetTaskStatus] is [doRequest] followed by a reading of the response. *)
Lemma GetTaskStatus_result (id : string) (w : World) :
  snd (GetTaskStatus env c id w)
  = snd (doRequest env c "GET" ("/status/" ++ id) None w)
  /\ fst (GetTaskStatus env c id w)
     = match fst (doRequest env c "GET" ("/status/" ++ id) None w) with
       | Err e => (zeroTaskStatus, Some e)
       | Ok resp =>
         if negb (StatusCode resp =? http_StatusOK)%Z
         then (zeroTaskStatus,
               Some (Errorf ("failed to get task status: status "
                             ++ itoa (StatusCode resp))))
         else match json_Decode_TaskStatus (Body resp) with
              | Err e => (zeroTaskStatus, Some e)
              | Ok status => (status, None)
              end
       end.
Proof.
  unfold GetTaskStatus, bind.
  destruct (doRequest env c "GET" ("/status/" ++ id) None w) as [[resp|e] w1];
    simpl; [|auto].
  destruct (negb (StatusCode resp =? http_StatusOK)%Z); [auto|].
  destruct (json_Decode_TaskStatus (Body resp)); auto.
Qed.

Lemma SubmitTask_result (prompt : string)
    (opts : option TaskSubmissionOptions) (w : World) :
  prompt <> ""%string ->
  let body := {| bodyPrompt := prompt; bodyOptions := opts |} in
  snd (SubmitTask env c prompt opts w)
  = snd (doRequest env c "POST" "/run" (Some body) w)
  /\ fst (SubmitTask env c prompt opts w)
     = match fst (doRequest env c "POST" "/run" (Some body) w) with
       | Err e => (""%string, Some e)
       | Ok resp =>
         if negb (StatusCode resp =? http_StatusOK)%Z
            && negb (StatusCode resp =? http_StatusAccepted)%Z
         then (""%string,
               Some (Errorf ("failed to submit task: status "
                             ++ itoa (StatusCode resp))))
         else match json_Decode_TaskID (Body resp) with
              | Err e => (""%string, Some e)
              | Ok taskID => (taskID, None)
              end
       end.
Proof.
  intros Hprompt body. unfold SubmitTask, bind.
  apply String.eqb_neq in Hprompt. rewrite Hprompt. fold body.
  destruct (doRequest env c "POST" "/run" (Some body) w) as [[resp|e] w1];
    simpl; [|auto].
  destruct (negb (StatusCode resp =? http_StatusOK)%Z
            && negb (StatusCode resp =? http_StatusAccepted)%Z); [auto|].
  destruct (json_Decode_TaskID (Body resp)); auto.
Qed.

(** What a call of [SubmitTask] adds to the world. *)
Lemma SubmitTask_run (prompt : string) (opts : option TaskSubmissionOptions)
    (w : World) :
  exists evs : list Event,
    snd (SubmitTask env c prompt opts w) = w ++ evs
    /\ callbacks evs = [] /\ waited evs = 0
    /\ length (hookCalls evs) <= length (requests evs)
    /\ (requests evs = []
        \/ exists j : string,
             json_Marshal {| bodyPrompt := prompt; bodyOptions := opts |}
             = Ok j
             /\ requests evs = [builtRequest c "POST" "/run" (Some j)])
    /\ (snd (fst (SubmitTask env c prompt opts w)) = None ->
        requests evs <> [])
    /\ (snd (fst (SubmitTask env c prompt opts w)) <> None ->
        fst (fst (SubmitTask env c prompt opts w)) = ""%string).
Proof.
  destruct (String.eqb prompt "") eqn:Hp.
  - exists []. unfold SubmitTask. rewrite Hp. simpl. rewrite app_nil_r.
    repeat split; auto; discriminate.
  - apply String.eqb_neq in Hp.
    destruct (SubmitTask_result prompt opts w Hp) as [Hw Hr].
    set (body := {| bodyPrompt := prompt; bodyOptions := opts |}) in *.
    destruct (doRequest_run env c "POST" "/run" (Some body) w)
      as (evs & Hw' & Hres).
    exists evs. rewrite Hw, Hr. split; [exact Hw'|].
    destruct (fst (doRequest env c "POST" "/run" (Some body) w)) as [resp|e].
    + destruct Hres as ([j|] & Hm & _ & ->); [|destruct Hm].
      simpl in Hm.
      assert (Hreq : requests
                       (EvSend (builtRequest c "POST" "/run" (Some j))
                        :: (if responseHook c
                            then [EvHook (StatusCode resp) (RespHeader resp)]
                            else []))
                     = [builtRequest c "POST" "/run" (Some j)])
        by (destruct (responseHook c); reflexivity).
      rewrite Hreq.
      split; [destruct (responseHook c); reflexivity|].
      split; [destruct (responseHook c); reflexivity|].
      split; [destruct (responseHook c); simpl; lia|].
      split; [right; exists j; auto|].
      split; [discriminate|].
      destruct (negb (StatusCode resp =? http_StatusOK)%Z
                && negb (StatusCode resp =? http_StatusAccepted)%Z);
        [reflexivity|].
      destruct (json_Decode_TaskID (Body resp)); simpl;
        [intros H; contradiction H|]; reflexivity.
    + destruct Hres as [-> | ([j|] & Hm & _ & ->)];
        [|simpl in Hm|destruct Hm]; simpl.
      * repeat split; auto; discriminate.
      * repeat split; auto; try discriminate.
        right. exists j. auto.
Qed.

End CallFacts.

(** X6.  Whenever [GetTaskStatus] returns an error, the status it returns
    with it is the zero [TaskStatus]; and a call sends one request at
    most. *)
Theorem GetTaskStatus_error_zero {rt : GoRuntime} (env : Env) (c : Client)
    (id : string) (w : World) (e : error) :
  snd (fst (GetTaskStatus env c id w)) = Some e ->
  fst (fst (GetTaskStatus env c id w)) = zeroTaskStatus
  /\ sent (snd (GetTaskStatus env c id w)) <= sent w + 1.
Proof.
  destruct (GetTaskStatus_result env c id w) as [Hw Hr].
  destruct (doRequest_run env c "GET" ("/status/" ++ id)%string None w)
    as (evs & Hw' & Hres).
  rewrite Hw, Hr, Hw', sent_app.
  destruct (fst (doRequest env c "GET" ("/status/" ++ id)%string None w))
    as [resp|e'].
  - destruct Hres as (jb & _ & _ & ->).
    assert (Hs : sent (EvSend (builtRequest c "GET" ("/status/" ++ id) jb)
                       :: (if responseHook c
                           then [EvHook (StatusCode resp) (RespHeader resp)]
                           else [])) = 1)
      by (destruct (responseHook c); reflexivity).
    rewrite Hs.
    destruct (negb (StatusCode resp =? http_StatusOK)%Z);
      [intros _; split; [reflexivity|lia]|].
    destruct (json_Decode_TaskStatus (Body resp));
      [discriminate|intros _; split; [reflexivity|lia]].
  - intros _. split; [reflexivity|].
    destruct Hres as [-> | (jb & _ & _ & ->)]; unfold sent; simpl; lia.
Qed.

Lemma GetTaskStatus_error_zero_witness :
  fst (fst (GetTaskStatus (rt := refRuntime)
              (constantEnv 500 completedPayload) testClient "t" []))
  = zeroTaskStatus.
Proof.
  apply (GetTaskStatus_error_zero (rt := refRuntime)
           (constantEnv 500 completedPayload) testClient "t" []
           (Errorf "failed to get task status: status 500")).
  reflexivity.
Defined.

(** X7.  [GetTaskStatus] accepts the status 200 only: for any other status,
    202 included, it returns [failed to get task status: status N] and does
    not look at the body. *)
Theorem GetTaskStatus_rejects_other_status {rt : GoRuntime} (env : Env)
    (c : Client) (id : string) (w : World) (resp : Response) :
  fst (doRequest env c "GET" ("/status/" ++ id) None w) = Ok resp ->
  StatusCode resp <> 200%Z ->
  fst (GetTaskStatus env c id w)
  = (zeroTaskStatus,
     Some (Errorf ("failed to get task status: status "
                   ++ itoa (StatusCode resp)))).
Proof.
  intros Hreq Hcode.
  destruct (GetTaskStatus_result env c id w) as [_ Hr].
  rewrite Hr, Hreq.
  apply Z.eqb_neq in Hcode. unfold http_StatusOK. rewrite Hcode.
  reflexivity.
Qed.

Lemma GetTaskStatus_rejects_other_status_witness :
  fst (GetTaskStatus (rt := refRuntime) (constantEnv 202 completedPayload)
         testClient "t" [])
  = (zeroTaskStatus,
     Some (Errorf "failed to get task status: status 202")).
Proof.
  apply (GetTaskStatus_rejects_other_status (rt := refRuntime)
           (constantEnv 202 completedPayload) testClient "t" []
           {| StatusCode := 202; RespHeader := [];
              Body := completedPayload |}).
  - reflexivity.
  - discriminate.
Defined.

(** X8.  [SubmitTask] sends one request at most, the POST of the marshalled
    prompt and options to the run path; when it succeeds it has sent that
    request, and when it fails the identifier it returns is empty.  It
    calls no callback and enters no wait. *)
Theorem SubmitTask_one_request {rt : GoRuntime} (env : Env) (c : Client)
    (prompt : string) (opts : option TaskSubmissionOptions) (w : World) :
  exists evs : list Event,
    snd (SubmitTask env c prompt opts w) = w ++ evs
    /\ callbacks evs = [] /\ waited evs = 0
    /\ (requests evs = []
        \/ exists j : string,
             json_Marshal {| bodyPrompt := prompt; bodyOptions := opts |}
             = Ok j
             /\ requests evs
                = [{| Method := "POST"; URL := (baseURL c ++ "/run")%string;
                      Header := requestHeader c; ReqBody := Some j |}])
    /\ (snd (fst (SubmitTask env c prompt opts w)) = None ->
        length (requests evs) = 1)
    /\ (snd (fst (SubmitTask env c prompt opts w)) <> None ->
        fst (fst (SubmitTask env c prompt opts w)) = ""%string).
Proof.
  destruct (SubmitTask_run env c prompt opts w)
    as (evs & Hw & Hcb & Hwait & _ & Hreq & Hok & Herr).
  exists evs.
  split; [exact Hw|]. split; [exact Hcb|]. split; [exact Hwait|].
  split; [exact Hreq|]. split; [|exact Herr].
  intros Hnone. specialize (Hok Hnone).
  destruct Hreq as [Hreq | (j & _ & Hreq)]; [contradiction|].
  rewrite Hreq. reflexivity.
Qed.

(** X9.  [SubmitTask] accepts the statuses 200 and 202 only: for any other
    status, other 2xx statuses included, it returns
    [failed to submit task: status N] and an empty identifier, whatever the
    body says. *)
Theorem SubmitTask_rejects_other_status {rt : GoRuntime} (env : Env)
    (c : Client) (prompt : string) (opts : option TaskSubmissionOptions)
    (w : World) (resp : Response) :
  prompt <> ""%string ->
  fst (doRequest env c "POST" "/run"
         (Some {| bodyPrompt := prompt; bodyOptions := opts |}) w)
  = Ok resp ->
  StatusCode resp <> 200%Z ->
  StatusCode resp <> 202%Z ->
  fst (SubmitTask env c prompt opts w)
  = (""%string,
     Some (Errorf ("failed to submit task: status "
                   ++ itoa (StatusCode resp)))).
Proof.
  intros Hprompt Hreq H200 H202.
  destruct (SubmitTask_result env c prompt opts w Hprompt) as [_ Hr].
  rewrite Hr, Hreq.
  apply Z.eqb_neq in H200. apply Z.eqb_neq in H202.
  unfold http_StatusOK, http_StatusAccepted. rewrite H200, H202.
  reflexivity.
Qed.

Lemma SubmitTask_rejects_other_status_witness :
  fst (SubmitTask (rt := refRuntime)
         (constantEnv 201 ("{" ++ quoted "taskId" ++ ":" ++ quoted "t" ++ "}"))
         testClient "hello" None [])
  = (""%string, Some (Errorf "failed to submit task: status 201")).
Proof.
  apply (SubmitTask_rejects_other_status (rt := refRuntime)
           (constantEnv 201
              ("{" ++ quoted "taskId" ++ ":" ++ quoted "t" ++ "}"))
           testClient "hello" None []
           {| StatusCode := 201; RespHeader := [];
              Body := ("{" ++ quoted "taskId" ++ ":" ++ quoted "t" ++ "}") |}).
  - discriminate.
  - reflexivity.
  - discriminate.
  - discriminate.
Defined.

(** ** RunTask *)

(** X10.  When the submission fails, [RunTask] returns the zero status with
    the submission's error and does not poll: no status request is sent, no
    callback is called, no wait is entered. *)
Theorem RunTask_submission_fails {rt : GoRuntime} (env : Env) (c : Client)
    (prompt : string) (opts : option TaskSubmissionOptions)
    (pollInterval maxAttempts : Z) (cb : bool) (w : World) (e : error) :
  snd (fst (SubmitTask env c prompt opts w)) = Some e ->
  RunTask env c prompt opts pollInterval maxAttempts cb w
  = ((zeroTaskStatus, Some e), snd (SubmitTask env c prompt opts w))
  /\ sent (snd (RunTask env c prompt opts pollInterval maxAttempts cb w))
     <= sent w + 1
  /\ callbacks (snd (RunTask env c prompt opts pollInterval maxAttempts cb w))
     = callbacks w
  /\ waited (snd (RunTask env c prompt opts pollInterval maxAttempts cb w))
     = waited w.
Proof.
  intros Herr.
  assert (Hrun : RunTask env c prompt opts pollInterval maxAttempts cb w
                 = ((zeroTaskStatus, Some e),
                    snd (SubmitTask env c prompt opts w))).
  { unfold RunTask, bind.
    destruct (SubmitTask env c prompt opts w) as [[taskID err] w1].
    simpl in Herr. subst err. reflexivity. }
  rewrite Hrun. simpl snd.
  destruct (SubmitTask_run env c prompt opts w)
    as (evs & Hw & Hcb & Hwait & _ & Hreq & _ & _).
  rewrite Hw, sent_app, callbacks_app, waited_app, Hcb, Hwait, app_nil_r.
  split; [reflexivity|]. split; [|split; [reflexivity|lia]].
  rewrite (sent_requests evs).
  destruct Hreq as [-> | (j & _ & ->)]; simpl; lia.
Qed.

Lemma RunTask_submission_fails_witness :
  RunTask (rt := refRuntime) (constantEnv 400 "") testClient "run me" None
    0 0 true []
  = ((zeroTaskStatus, Some (Errorf "failed to submit task: status 400")),
     snd (SubmitTask (rt := refRuntime) (constantEnv 400 "") testClient
            "run me" None [])).
Proof.
  apply (RunTask_submission_fails (rt := refRuntime) (constantEnv 400 "")
           testClient "run me" None 0 0 true []
           (Errorf "failed to submit task: status 400")).
  reflexivity.
Defined.

(** ** WaitForCompletion: what a run may do *)

Lemma Forall_pollView (P : Event -> Prop) (evs : list Event) :
  (forall (code : Z) (h : list (string * list string)), P (EvHook code h)) ->
  Forall P (pollView evs) -> Forall P evs.
Proof.
  intros Hhook. unfold pollView.
  induction evs as [|e evs IH]; simpl; intros H; [constructor|].
  destruct e; simpl in H.
  - inversion H; subst. constructor; auto.
  - constructor; auto.
  - inversion H; subst. constructor; auto.
  - inversion H; subst. constructor; auto.
Qed.

Section PollerBounds.

Context {rt : GoRuntime}.
Variable env : Env.
Variable c : Client.
Variable id : string.
Variable d : Z.
Variable cb : bool.

(** The events of a run of the loop, and their numbers. *)
Lemma pollLoop_events (left : nat) :
  forall w : World,
  exists evs : list Event,
    snd (pollLoop env c id d cb left w) = w ++ evs
    /\ Forall (pollEvent c id d cb) evs
    /\ sent evs <= left
    /\ waited evs <= sent evs
    /\ length (callbacks evs) <= sent evs.
Proof.
  induction left as [|left IH]; intros w.
  - exists []. simpl. rewrite app_nil_r.
    split; [reflexivity|]. split; [constructor|].
    unfold sent, waited. simpl. lia.
  - destruct (GetTaskStatus_run env c id w) as (evs & Hrun & Hev & Hok).
    assert (Hfetch : Forall (pollEvent c id d cb) evs
                     /\ sent evs <= 1 /\ waited evs = 0
                     /\ callbacks evs = []).
    { split.
      - apply Forall_pollView; [intros; exact I|].
        destruct Hev as [-> | ->]; repeat constructor.
      - rewrite <- sent_pollView, <- waited_pollView, <- callbacks_pollView.
        destruct Hev as [-> | ->]; unfold sent, waited; simpl; auto. }
    destruct Hfetch as (Hall & Hsent & Hwait & Hcalls).
    simpl pollLoop. unfold bind. rewrite Hrun.
    destruct (fetchAt env c id (sent w)) as [s [e|]] eqn:Hf.
    + exists evs. simpl.
      split; [reflexivity|]. split; [exact Hall|].
      rewrite Hwait, Hcalls. simpl. lia.
    + specialize (Hok eq_refl).
      assert (Hsent1 : sent evs = 1)
        by (rewrite <- sent_pollView, Hok; reflexivity).
      set (w1 := w ++ evs ++ callbackEvents cb s).
      assert (Hw1 : (let (_, w') :=
                       (if cb then emit (EvCallback s) else ret tt) (w ++ evs)
                     in w') = w1).
      { unfold w1, emit, ret. destruct cb; simpl;
          rewrite ?app_nil_r, <- ?app_assoc; reflexivity. }
      assert (Hstep : forall k : World -> (TaskStatus * option error) * World,
                 (let (_, w') :=
                    (if cb then emit (EvCallback s) else ret tt) (w ++ evs)
                  in k w') = k w1).
      { intros k. rewrite <- Hw1.
        destruct cb; unfold emit, ret; reflexivity. }
      rewrite Hstep.
      assert (Hall1 : Forall (pollEvent c id d cb)
                        (evs ++ callbackEvents cb s)).
      { apply Forall_app. split; [exact Hall|].
        destruct cb; simpl; repeat constructor. }
      assert (Hcount1 : sent (evs ++ callbackEvents cb s) = 1
                        /\ waited (evs ++ callbackEvents cb s) = 0
                        /\ length (callbacks (evs ++ callbackEvents cb s))
                           <= 1).
      { rewrite sent_app, waited_app, callbacks_app, Hsent1, Hwait, Hcalls.
        destruct cb; unfold sent, waited; simpl; lia. }
      destruct Hcount1 as (Hs1 & Hwt1 & Hc1).
      assert (Hw1' : w1 = w ++ (evs ++ callbackEvents cb s))
        by (unfold w1; reflexivity).
      remember (evs ++ callbackEvents cb s) as step eqn:Hstepdef.
      clear Hstepdef.
      destruct (String.eqb (Status s) "completed").
      { exists step. unfold ret. simpl snd.
        split; [exact Hw1'|]. split; [exact Hall1|]. lia. }
      destruct (String.eqb (Status s) "failed").
      { exists step. unfold ret. simpl snd.
        split; [exact Hw1'|]. split; [exact Hall1|]. lia. }
      unfold select_ctx_or_timer.
      destruct (select_wait env (waited w1) d) as [|why].
      * destruct (IH (w1 ++ [EvSelect d TimerFired]))
          as (evs' & Hw' & Hall' & Hsent' & Hwait' & Hcalls').
        exists (step ++ [EvSelect d TimerFired] ++ evs').
        rewrite Hw', Hw1'.
        split; [rewrite <- !app_assoc; reflexivity|].
        split.
        { apply Forall_app. split; [exact Hall1|].
          constructor; [reflexivity|exact Hall']. }
        rewrite !sent_app, !waited_app, !callbacks_app, !length_app,
          Hs1, Hwt1.
        change (sent [EvSelect d TimerFired]) with 0.
        change (waited [EvSelect d TimerFired]) with 1.
        change (callbacks [EvSelect d TimerFired]) with (@nil TaskStatus).
        simpl length. lia.
      * exists (step ++ [EvSelect d (CtxDone why)]).
        unfold ret. simpl snd. rewrite Hw1'.
        split; [rewrite <- !app_assoc; reflexivity|].
        split.
        { apply Forall_app. split; [exact Hall1|].
          repeat constructor. }
        rewrite !sent_app, !waited_app, !callbacks_app, !length_app,
          Hs1, Hwt1.
        change (sent [EvSelect d (CtxDone why)]) with 0.
        change (waited [EvSelect d (CtxDone why)]) with 1.
        change (callbacks [EvSelect d (CtxDone why)]) with (@nil TaskStatus).
        simpl length. lia.
Qed.

End PollerBounds.

(** X12.  A run of [WaitForCompletion] sends no more status requests than
    the attempt bound, 60 when 0 is passed; it enters no more waits than it
    has sent requests, and calls the callback no more often. *)
Theorem WaitForCompletion_bounded {rt : GoRuntime} (env : Env) (c : Client)
    (id : string) (pollInterval maxAttempts : Z) (cb : bool) (w : World) :
  exists evs : list Event,
    snd (WaitForCompletion env c id pollInterval maxAttempts cb w) = w ++ evs
    /\ sent evs <= Z.to_nat (effectiveAttempts maxAttempts)
    /\ waited evs <= sent evs
    /\ length (callbacks evs) <= sent evs.
Proof.
  destruct (pollLoop_events env c id (effectiveInterval pollInterval) cb
              (Z.to_nat (effectiveAttempts maxAttempts)) w)
    as (evs & Hw & _ & Hsent & Hwait & Hcalls).
  exists evs. auto.
Qed.

(** X13.  With a negative attempt bound the loop body never runs:
    [WaitForCompletion] returns [task timed out] at once, and sends no
    request. *)
Theorem WaitForCompletion_negative_attempts {rt : GoRuntime} (env : Env)
    (c : Client) (id : string) (pollInterval maxAttempts : Z) (cb : bool)
    (w : World) :
  (maxAttempts < 0)%Z ->
  WaitForCompletion env c id pollInterval maxAttempts cb w
  = ((zeroTaskStatus, Some (Errorf "task timed out")), w).
Proof.
  intros Hneg. unfold WaitForCompletion, effectiveAttempts.
  destruct (Z.eqb_spec maxAttempts 0) as [H0|_]; [lia|].
  destruct maxAttempts as [|p|p]; try lia. reflexivity.
Qed.

Lemma WaitForCompletion_negative_attempts_witness :
  WaitForCompletion (rt := refRuntime) (scriptedEnv [completedPayload])
    testClient "t" 0 (-1) true []
  = ((zeroTaskStatus, Some (Errorf "task timed out")), []).
Proof.
  apply (WaitForCompletion_negative_attempts (rt := refRuntime)
           (scriptedEnv [completedPayload]) testClient "t" 0 (-1) true []).
  reflexivity.
Defined.

(** X14.  Everything a run of [WaitForCompletion] does is of four kinds: a
    GET of the status path of the task it was given, with the client's
    headers; a call of the response hook; a call of the callback, and only
    when one was given; a wait of the interval it was given, one second when
    0 was passed. *)
Theorem WaitForCompletion_events {rt : GoRuntime} (env : Env) (c : Client)
    (id : string) (pollInterval maxAttempts : Z) (cb : bool) (w : World) :
  exists evs : list Event,
    snd (WaitForCompletion env c id pollInterval maxAttempts cb w) = w ++ evs
    /\ Forall (pollEvent c id (effectiveInterval pollInterval) cb) evs
    /\ (pollInterval = 0%Z -> effectiveInterval pollInterval = 1000000000%Z)
    /\ (cb = false -> callbacks evs = []).
Proof.
  destruct (pollLoop_events env c id (effectiveInterval pollInterval) cb
              (Z.to_nat (effectiveAttempts maxAttempts)) w)
    as (evs & Hw & Hall & _).
  exists evs. split; [exact Hw|]. split; [exact Hall|].
  split; [intros ->; reflexivity|].
  intros ->. clear Hw.
  induction Hall as [|e evs He _ IH]; [reflexivity|].
  destruct e; simpl in *; auto. discriminate He.
Qed.

(** X15.  A fetch that fails ends the run at once, with the zero status and
    the error of the fetch: there is no retry, and after it no callback call
    and no wait. *)
Theorem WaitForCompletion_fetch_error {rt : GoRuntime} (env : Env)
    (c : Client) (id : string) (pollInterval maxAttempts : Z) (cb : bool)
    (w : World) (pre : list TaskStatus) (s0 : TaskStatus) (e : error) :
  (Z.of_nat (length pre) < effectiveAttempts maxAttempts)%Z ->
  Forall nonTerminal pre ->
  fetchesYield env c id (sent w) pre ->
  timerWins env (effectiveInterval pollInterval) (waited w) (length pre) ->
  fetchAt env c id (sent w + length pre) = (s0, Some e) ->
  exists w' : World,
    WaitForCompletion env c id pollInterval maxAttempts cb w
    = ((zeroTaskStatus, Some e), w')
    /\ sent w' <= sent w + length pre + 1
    /\ waited w' = waited w + length pre
    /\ callbacks w' = callbacks w ++ (if cb then pre else []).
Proof.
  intros Hlt Hnt Hfetch Htimer Herr.
  set (d := effectiveInterval pollInterval) in *.
  set (left := Z.to_nat (effectiveAttempts maxAttempts) - length pre - 1).
  assert (Hsplit : Z.to_nat (effectiveAttempts maxAttempts)
                   = length pre + S left) by (unfold left; lia).
  destruct (pollLoop_quiet_prefix env c id d cb pre (S left) w Hnt Hfetch
              Htimer) as (w0 & Hv0 & Hrun0).
  destruct (quietIteration_counts c id d cb pre) as (Hc1 & Hc2 & Hc3).
  assert (Hsent0 : sent w0 = sent w + length pre).
  { rewrite <- sent_pollView, Hv0, sent_app, sent_pollView, Hc1.
    reflexivity. }
  assert (Hwait0 : waited w0 = waited w + length pre).
  { rewrite <- waited_pollView, Hv0, waited_app, waited_pollView, Hc2.
    reflexivity. }
  assert (Hcall0 : callbacks w0 = callbacks w ++ (if cb then pre else [])).
  { rewrite <- callbacks_pollView, Hv0, callbacks_app, callbacks_pollView,
      Hc3. reflexivity. }
  rewrite <- Hsent0 in Herr.
  destruct (pollLoop_fetch_error env c id d cb left w0 s0 e Herr)
    as (evs & Hrun1 & Hev).
  exists (w0 ++ evs).
  split.
  { unfold WaitForCompletion. fold d. rewrite Hsplit, Hrun0. exact Hrun1. }
  rewrite sent_app, waited_app, callbacks_app, Hsent0, Hwait0, Hcall0.
  rewrite <- (sent_pollView evs), <- (waited_pollView evs),
    <- (callbacks_pollView evs).
  destruct Hev as [-> | ->]; unfold sent, waited; simpl;
    rewrite ?app_nil_r; (split; [lia|split; [lia|reflexivity]]).
Qed.

Lemma WaitForCompletion_fetch_error_witness :
  exists w' : World,
    WaitForCompletion (rt := refRuntime) (scriptedEnv [processingPayload])
      testClient "t" 0 0 true []
    = ((zeroTaskStatus, Some (lib_error "net/http" "connection refused")),
       w')
    /\ sent w' <= 2
    /\ callbacks w' = [processingStatus].
Proof.
  destruct (WaitForCompletion_fetch_error (rt := refRuntime)
              (scriptedEnv [processingPayload]) testClient "t" 0 0 true []
              [processingStatus] zeroTaskStatus
              (lib_error "net/http" "connection refused"))
    as (w' & Hrun & Hsent & _ & Hcalls).
  - reflexivity.
  - repeat constructor; discriminate.
  - intros [|i] s Hs; [injection Hs as <-; reflexivity|].
    destruct i; discriminate.
  - intros i _. reflexivity.
  - reflexivity.
  - exists w'. auto.
Defined.

(** X11.  When the submission succeeds, [RunTask] goes on as
    [WaitForCompletion] for the identifier the submission returned: every
    status request it sends is for that identifier, the empty one included
    when the answer named no task, and there are no more of them than the
    attempt bound. *)
Theorem RunTask_polls_returned_id {rt : GoRuntime} (env : Env) (c : Client)
    (prompt : string) (opts : option TaskSubmissionOptions)
    (pollInterval maxAttempts : Z) (cb : bool) (w : World) (id : string) :
  fst (SubmitTask env c prompt opts w) = (id, None) ->
  exists evs : list Event,
    snd (RunTask env c prompt opts pollInterval maxAttempts cb w)
    = snd (SubmitTask env c prompt opts w) ++ evs
    /\ Forall (pollEvent c id (effectiveInterval pollInterval) cb) evs
    /\ sent evs <= Z.to_nat (effectiveAttempts maxAttempts)
    /\ fst (RunTask env c prompt opts pollInterval maxAttempts cb w)
       = fst (WaitForCompletion env c id pollInterval maxAttempts cb
                (snd (SubmitTask env c prompt opts w))).
Proof.
  intros Hsub.
  assert (Hrun : RunTask env c prompt opts pollInterval maxAttempts cb w
                 = WaitForCompletion env c id pollInterval maxAttempts cb
                     (snd (SubmitTask env c prompt opts w))).
  { unfold RunTask, bind.
    destruct (SubmitTask env c prompt opts w) as [[taskID err] w1].
    simpl in Hsub. injection Hsub as -> ->. reflexivity. }
  destruct (pollLoop_events env c id (effectiveInterval pollInterval) cb
              (Z.to_nat (effectiveAttempts maxAttempts))
              (snd (SubmitTask env c prompt opts w)))
    as (evs & Hw & Hall & Hsent & _).
  exists evs. rewrite Hrun. auto.
Qed.

Lemma RunTask_polls_returned_id_witness :
  exists evs : list Event,
    snd (RunTask (rt := refRuntime) (constantEnv 200 "{}") testClient
           "run me" None 0 2 false [])
    = snd (SubmitTask (rt := refRuntime) (constantEnv 200 "{}") testClient
             "run me" None []) ++ evs
    /\ Forall (pollEvent testClient "" DefaultPollInterval false) evs.
Proof.
  destruct (RunTask_polls_returned_id (rt := refRuntime)
              (constantEnv 200 "{}") testClient "run me" None 0 2 false []
              "")
    as (evs & Hw & Hall & _).
  - reflexivity.
  - exists evs. split; [exact Hw|exact Hall].
Defined.

(** ** Opening and closing a stream *)

Section StreamOpeningFacts.

Context {rt : GoRuntime}.
Variable env : Env.
Variable c : Client.

(** What a call of [StreamTaskStatus] adds to the world, and the stream it
    returns. *)
Lemma StreamTaskStatus_run (parent : option ctxCause) (id : string)
    (w : World) :
  exists evs : list Event,
    snd (StreamTaskStatus env c parent id w) = w ++ evs
    /\ (evs = [] \/ evs = [EvSend (streamRequest c id)])
    /\ forall s : sseStream,
         fst (StreamTaskStatus env c parent id w) = Ok s ->
         evs = [EvSend (streamRequest c id)]
         /\ exists resp : Response,
              http_Do env (sent w) (streamRequest c id) = Ok resp
              /\ StatusCode resp = 200%Z
              /\ s = {| taskID := id; ctx := parent;
                        reader := {| unread := Body resp;
                                     exhausted := io_EOF |} |}.
Proof.
  unfold StreamTaskStatus, bind, ret, httpClient_Do. cbv beta zeta.
  fold (streamRequest c id).
  destruct (http_NewRequest "GET" (baseURL c ++ "/stream/" ++ id)%string)
    as [e|].
  - exists []. rewrite app_nil_r. simpl.
    split; [reflexivity|]. split; [auto|]. discriminate.
  - exists [EvSend (streamRequest c id)].
    destruct (http_Do env (sent w) (streamRequest c id)) as [resp|e] eqn:Hdo.
    + destruct (Z.eqb_spec (StatusCode resp) http_StatusOK) as [Hc|Hc];
        simpl.
      * split; [reflexivity|]. split; [auto|].
        intros s Hs. injection Hs as <-.
        split; [reflexivity|]. exists resp. auto.
      * split; [reflexivity|]. split; [auto|]. discriminate.
    + simpl. split; [reflexivity|]. split; [auto|]. discriminate.
Qed.

End StreamOpeningFacts.

(** X16.  [StreamTaskStatus] sends one request at most, a GET of the stream
    path of the task that accepts [text/event-stream] and carries the
    [Authorization] header exactly when the client has an API key.  Unlike
    [doRequest] it names no SDK language and no content type, and it never
    calls the response hook. *)
Theorem StreamTaskStatus_request {rt : GoRuntime} (env : Env) (c : Client)
    (parent : option ctxCause) (id : string) (w : World) :
  exists evs : list Event,
    snd (StreamTaskStatus env c parent id w) = w ++ evs
    /\ hookCalls evs = []
    /\ length (requests evs) <= 1
    /\ forall req : Request,
         In req (requests evs) ->
         Method req = "GET"%string
         /\ URL req = (baseURL c ++ "/stream/" ++ id)%string
         /\ In ("Accept", "text/event-stream") (Header req)
         /\ ~ In "X-SDK-Language"%string (headerNames req)
         /\ ~ In "Content-Type"%string (headerNames req)
         /\ forall v : string,
              In ("Authorization", v) (Header req)
              <-> apiKey c <> ""%string
                  /\ v = ("Bearer " ++ apiKey c)%string.
Proof.
  destruct (StreamTaskStatus_run env c parent id w) as (evs & Hw & Hev & _).
  exists evs. split; [exact Hw|].
  destruct Hev as [-> | ->]; simpl.
  - split; [reflexivity|]. split; [lia|]. intros req [].
  - split; [reflexivity|]. split; [lia|].
    intros req [<- | []]. simpl.
    split; [reflexivity|]. split; [reflexivity|].
    unfold headerNames, streamRequest, streamHeader. simpl.
    destruct (String.eqb (apiKey c) "") eqn:Hkey; simpl.
    + apply String.eqb_eq in Hkey.
      split; [auto|].
      split; [intros [H | []]; discriminate H|].
      split; [intros [H | []]; discriminate H|].
      intros v. split.
      * intros [H | []]. discriminate H.
      * intros [Hne _]. contradiction.
    + apply String.eqb_neq in Hkey.
      split; [auto|].
      split; [intros [H | [H | []]]; discriminate H|].
      split; [intros [H | [H | []]]; discriminate H|].
      intros v. split.
      * intros [H | [H | []]]; [discriminate H|].
        injection H as <-. auto.
      * intros [_ ->]. auto.
Qed.

(** X17.  [StreamTaskStatus] returns a stream only when the server answered
    200; the stream then reports the task it was opened for, starts in the
    state of the caller's context, and reads the body of that response. *)
Theorem StreamTaskStatus_opens {rt : GoRuntime} (env : Env) (c : Client)
    (parent : option ctxCause) (id : string) (w : World) (s : sseStream) :
  fst (StreamTaskStatus env c parent id w) = Ok s ->
  exists resp : Response,
    http_Do env (sent w) (streamRequest c id) = Ok resp
    /\ StatusCode resp = 200%Z
    /\ stream_TaskID s = id
    /\ ctx s = parent
    /\ unread (reader s) = Body resp.
Proof.
  intros Hs.
  destruct (StreamTaskStatus_run env c parent id w) as (evs & _ & _ & Hok).
  destruct (Hok s Hs) as (_ & resp & Hdo & Hcode & ->).
  exists resp. auto.
Qed.

Lemma StreamTaskStatus_opens_witness :
  exists resp : Response,
    http_Do (constantEnv 200 exampleBytes) 0 (streamRequest testClient "t")
    = Ok resp
    /\ StatusCode resp = 200%Z
    /\ stream_TaskID (streamOver exampleBytes) = "t"%string
    /\ ctx (streamOver exampleBytes) = None
    /\ unread (reader (streamOver exampleBytes)) = Body resp.
Proof.
  apply (StreamTaskStatus_opens (rt := refRuntime)
           (constantEnv 200 exampleBytes) testClient None "t" []
           (streamOver exampleBytes)).
  reflexivity.
Defined.

Section StreamMoreFacts.

Context {rt : GoRuntime}.

(** X18.  After [Close], [Next] returns the error of the stream's context,
    [context.Canceled] when the stream was live, and reads nothing; closing
    a second time changes nothing more. *)
Theorem Close_then_Next (s : sseStream) (body again : option (option error)) :
  Next (snd (Close s body))
  = ((zeroTaskStatus,
      Some (context_Err match ctx s with
                        | None => Canceled
                        | Some why => why
                        end)),
     snd (Close s body))
  /\ snd (Close (snd (Close s body)) again) = snd (Close s body).
Proof.
  assert (Hstate : forall b : option (option error),
             snd (Close s b)
             = {| taskID := taskID s; ctx := cancel (ctx s);
                  reader := reader s |}).
  { intros [r|]; reflexivity. }
  split.
  - rewrite Hstate, Next_loop. simpl ctx.
    destruct (ctx s); reflexivity.
  - rewrite (Hstate body).
    destruct again as [r|]; simpl; destruct (ctx s); reflexivity.
Qed.

End StreamMoreFacts.

(** ** Next: what it consumes and what it returns *)

Lemma cutLine_parts (x line rest : string) :
  cutLine x = Some (line, rest) ->
  x = (line ++ rest)%string /\ String.length rest < String.length x.
Proof.
  revert line rest.
  induction x as [|a x IH]; intros line rest; simpl; [discriminate|].
  destruct (Ascii.eqb a newline).
  - intros H. injection H as <- <-. simpl. split; [reflexivity|lia].
  - destruct (cutLine x) as [[l r]|] eqn:E; [|discriminate].
    intros H. injection H as <- <-.
    destruct (IH l r eq_refl) as [-> Hlen]. simpl. split; [reflexivity|lia].
Qed.

Lemma cutLine_none (x : string) :
  hasNewline x = false -> cutLine x = None.
Proof.
  induction x as [|a x IH]; simpl; [reflexivity|].
  intros H. apply orb_false_iff in H. destruct H as [-> Hx].
  rewrite (IH Hx). reflexivity.
Qed.

Section NextFacts.

Context {rt : GoRuntime}.

(** Induction on the input left to read. *)
Lemma stream_induction (P : sseStream -> Prop) :
  (forall s : sseStream,
      (forall rd : Reader,
          String.length (unread rd) < String.length (unread (reader s)) ->
          P (with_reader s rd)) ->
      P s) ->
  forall s : sseStream, P s.
Proof.
  intros Hstep.
  assert (Hall : forall (n : nat) (s : sseStream),
             String.length (unread (reader s)) < n -> P s).
  { induction n as [|n IH]; intros s Hs; [lia|].
    apply Hstep. intros rd Hrd. apply IH. simpl. lia. }
  intros s. apply (Hall (S (String.length (unread (reader s))))). lia.
Qed.

(** X19.  [Next] only consumes: the input left after a call is a suffix of
    the input before it, and the task, the context and the error at the end
    of the input are those of the stream before the call. *)
Theorem Next_consumes_only (s : sseStream) :
  exists consumed : string,
    unread (reader s)
    = (consumed ++ unread (reader (snd (Next s))))%string
    /\ taskID (snd (Next s)) = taskID s
    /\ ctx (snd (Next s)) = ctx s
    /\ exhausted (reader (snd (Next s))) = exhausted (reader s).
Proof.
  induction s as [s IH] using stream_induction.
  rewrite Next_loop.
  destruct (ctx s) as [why|] eqn:Hctx.
  - exists ""%string. simpl. auto.
  - unfold bufio_ReadString.
    destruct (cutLine (unread (reader s))) as [[line rest]|] eqn:Hcut.
    + destruct (cutLine_parts _ _ _ Hcut) as [Hparts Hlen].
      set (rd := {| unread := rest; exhausted := exhausted (reader s) |}).
      assert (Hrec : exists consumed : string,
                 unread (reader s)
                 = (consumed ++ unread (reader (snd (Next (with_reader s rd)))))%string
                 /\ taskID (snd (Next (with_reader s rd))) = taskID s
                 /\ ctx (snd (Next (with_reader s rd))) = ctx s
                 /\ exhausted (reader (snd (Next (with_reader s rd))))
                    = exhausted (reader s)).
      { destruct (IH rd Hlen) as (consumed & Hc & Ht & Hx & He).
        exists (line ++ consumed)%string.
        rewrite append_assoc, <- Hc. simpl in *. auto. }
      rewrite <- Hctx.
      cbv zeta.
      destruct (String.eqb (strings_TrimSpace line) ""
                || strings_HasPrefix (strings_TrimSpace line) ":");
        [exact Hrec|].
      destruct (strings_HasPrefix (strings_TrimSpace line) "data:");
        [|exact Hrec].
      exists line. simpl. auto.
    + exists (unread (reader s)). simpl. rewrite append_nil_r. auto.
Qed.

(** X20.  Every status [Next] returns without error is one the decoder
    produced from a payload; every error it returns comes with the zero
    status and is the error of the context, the error at the end of the
    input, or an error of the decoder. *)
Theorem Next_result_origin (s : sseStream) :
  match fst (Next s) with
  | (status, None) =>
    exists payload : string,
      json_Unmarshal_TaskStatus payload = Ok status
  | (status, Some e) =>
    status = zeroTaskStatus
    /\ ((exists why : ctxCause, ctx s = Some why /\ e = context_Err why)
        \/ e = exhausted (reader s)
        \/ exists payload : string,
             json_Unmarshal_TaskStatus payload = Err e)
  end.
Proof.
  induction s as [s IH] using stream_induction.
  rewrite Next_loop.
  destruct (ctx s) as [why|] eqn:Hctx.
  - simpl. split; [reflexivity|]. left. exists why. auto.
  - unfold bufio_ReadString.
    destruct (cutLine (unread (reader s))) as [[line rest]|] eqn:Hcut.
    + destruct (cutLine_parts _ _ _ Hcut) as [_ Hlen].
      set (rd := {| unread := rest; exhausted := exhausted (reader s) |}).
      assert (Hrec : match fst (Next (with_reader s rd)) with
                     | (status, None) =>
                       exists payload : string,
                         json_Unmarshal_TaskStatus payload = Ok status
                     | (status, Some e) =>
                       status = zeroTaskStatus
                       /\ ((exists why : ctxCause,
                               None = Some why /\ e = context_Err why)
                           \/ e = exhausted (reader s)
                           \/ exists payload : string,
                                json_Unmarshal_TaskStatus payload = Err e)
                     end).
      { specialize (IH rd Hlen). simpl ctx in IH. rewrite Hctx in IH.
        exact IH. }
      cbv zeta.
      destruct (String.eqb (strings_TrimSpace line) ""
                || strings_HasPrefix (strings_TrimSpace line) ":");
        [exact Hrec|].
      destruct (strings_HasPrefix (strings_TrimSpace line) "data:");
        [|exact Hrec].
      simpl fst.
      destruct (json_Unmarshal_TaskStatus
                  (strings_TrimSpace
                     (slice_from 5 (strings_TrimSpace line))))
        as [status|e] eqn:Hdec; simpl.
      * eexists. exact Hdec.
      * split; [reflexivity|]. right. right. eexists. exact Hdec.
    + simpl. split; [reflexivity|]. right. left. reflexivity.
Qed.

(** X21.  Bytes that are not closed by a line feed are never decoded: on a
    live stream whose remaining input holds no line feed, [Next] returns the
    error at the end of the input, [io.EOF] after a clean close, and drops
    those bytes; every later call returns that error again. *)
Theorem Next_unterminated_tail (s : sseStream) :
  ctx s = None ->
  hasNewline (unread (reader s)) = false ->
  Next s = ((zeroTaskStatus, Some (exhausted (reader s))), after_line s "")
  /\ Next (after_line s "")
     = ((zeroTaskStatus, Some (exhausted (reader s))), after_line s "").
Proof.
  intros Hctx Htail. split.
  - apply Next_exhausted; [exact Hctx|]. apply cutLine_none. exact Htail.
  - rewrite (Next_exhausted (after_line s "")); [reflexivity|exact Hctx|].
    reflexivity.
Qed.

End NextFacts.

Lemma Next_unterminated_tail_witness :
  Next (rt := refRuntime) (streamOver ("data: " ++ completedPayload))
  = ((zeroTaskStatus, Some io_EOF), streamOver "").
Proof.
  apply (Next_unterminated_tail (rt := refRuntime)
           (streamOver ("data: " ++ completedPayload))).
  - reflexivity.
  - reflexivity.
Defined.

(** ** Line endings *)

Lemma space3_last (a b c : ascii) :
  space3 a b c = true -> (128 <= byte_of c)%N.
Proof.
  unfold space3.
  rewrite !orb_true_iff, !andb_true_iff, !orb_true_iff, !andb_true_iff,
    !N.eqb_eq, !N.leb_le.
  lia.
Qed.

(** Trimming on the left, before bytes below 128: it stops inside [x], or
    removes all of [x] and goes on. *)
Lemma trimLeft_app_ascii (t : list ascii) :
  Forall (fun a => (byte_of a < 128)%N) t ->
  forall x : list ascii,
    trimLeft (x ++ t)
    = match trimLeft x with
      | [] => trimLeft t
      | y => y ++ t
      end.
Proof.
  intros Ht.
  assert (Hlow2 : forall a b, (byte_of b < 128)%N -> space2 a b = false).
  { intros a b Hb. destruct (space2 a b) eqn:E; [|reflexivity].
    apply space2_lead in E. lia. }
  assert (Hlow3m : forall a b c, (byte_of b < 128)%N -> space3 a b c = false).
  { intros a b c Hb. destruct (space3 a b c) eqn:E; [|reflexivity].
    apply space3_lead in E. lia. }
  assert (Hlow3l : forall a b c, (byte_of c < 128)%N -> space3 a b c = false).
  { intros a b c Hc. destruct (space3 a b c) eqn:E; [|reflexivity].
    apply space3_last in E. lia. }
  assert (Hall : forall (n : nat) (x : list ascii),
             length x <= n ->
             trimLeft (x ++ t)
             = match trimLeft x with
               | [] => trimLeft t
               | y => y ++ t
               end).
  { induction n as [|n IH]; intros x Hx.
    - destruct x; [reflexivity|simpl in Hx; lia].
    - destruct x as [|a x1]; [reflexivity|].
      simpl in Hx.
      change (trimLeft ((a :: x1) ++ t))
        with (if asciiSpace a then trimLeft (x1 ++ t)
              else match x1 ++ t with
                   | b :: r2 =>
                     if space2 a b then trimLeft r2
                     else match r2 with
                          | c :: r3 =>
                            if space3 a b c then trimLeft r3
                            else a :: x1 ++ t
                          | [] => a :: x1 ++ t
                          end
                   | [] => a :: x1 ++ t
                   end).
      change (trimLeft (a :: x1))
        with (if asciiSpace a then trimLeft x1
              else match x1 with
                   | b :: r2 =>
                     if space2 a b then trimLeft r2
                     else match r2 with
                          | c :: r3 =>
                            if space3 a b c then trimLeft r3 else a :: x1
                          | [] => a :: x1
                          end
                   | [] => a :: x1
                   end).
      destruct (asciiSpace a); [apply IH; lia|].
      destruct x1 as [|b x2].
      + simpl app.
        destruct Ht as [|b t2 Hb Ht2]; [reflexivity|].
        rewrite (Hlow2 a b Hb).
        destruct t2 as [|c0 t3]; [reflexivity|].
        rewrite (Hlow3m a b c0 Hb). reflexivity.
      + change ((b :: x2) ++ t) with (b :: (x2 ++ t)). cbv beta iota.
        simpl in Hx.
        destruct (space2 a b); [apply IH; lia|].
        destruct x2 as [|c0 x3].
        * simpl app.
          destruct Ht as [|c0 t3 Hc Ht3]; [reflexivity|].
          rewrite (Hlow3l a b c0 Hc). reflexivity.
        * change ((c0 :: x3) ++ t) with (c0 :: (x3 ++ t)). cbv beta iota.
          simpl in Hx.
          destruct (space3 a b c0); [apply IH; lia|reflexivity]. }
  intros x. apply (Hall (length x)). lia.
Qed.

(** A carriage return before the line feed is trimmed with it. *)
Lemma TrimSpace_crlf (body : string) :
  strings_TrimSpace (body ++ crlf) = strings_TrimSpace (body ++ lf).
Proof.
  unfold strings_TrimSpace. f_equal. f_equal.
  rewrite !list_ascii_of_string_app.
  rewrite (trimLeft_app_ascii (list_ascii_of_string crlf))
    by (repeat constructor).
  rewrite (trimLeft_app_ascii (list_ascii_of_string lf))
    by (repeat constructor).
  destruct (trimLeft (list_ascii_of_string body)) as [|a y]; [reflexivity|].
  rewrite !rev_app_distr. reflexivity.
Qed.

Lemma hasNewline_app (x y : string) :
  hasNewline (x ++ y) = hasNewline x || hasNewline y.
Proof.
  induction x as [|a x IH]; simpl; [reflexivity|].
  rewrite IH, orb_assoc. reflexivity.
Qed.

(** X22.  A line ended by a carriage return and a line feed is read as the
    same line ended by a line feed alone: [Next] returns the same result
    and leaves the same stream. *)
Theorem Next_crlf {rt : GoRuntime} (s : sseStream) (body rest : string) :
  ctx s = None ->
  hasNewline body = false ->
  Next (with_reader s {| unread := body ++ crlf ++ rest;
                         exhausted := exhausted (reader s) |})
  = Next (with_reader s {| unread := body ++ lf ++ rest;
                           exhausted := exhausted (reader s) |}).
Proof.
  intros Hctx Hbody.
  set (cr := String "013"%char EmptyString).
  assert (Hcr : hasNewline (body ++ cr) = false).
  { rewrite hasNewline_app, Hbody. reflexivity. }
  rewrite (Next_line
             (with_reader s {| unread := body ++ crlf ++ rest;
                               exhausted := exhausted (reader s) |})
             (body ++ cr) rest Hctx Hcr).
  2:{ simpl unread. rewrite append_assoc. reflexivity. }
  rewrite (Next_line
             (with_reader s {| unread := body ++ lf ++ rest;
                               exhausted := exhausted (reader s) |})
             body rest Hctx Hbody eq_refl).
  cbv zeta.
  replace (strings_TrimSpace ((body ++ cr) ++ lf))
    with (strings_TrimSpace (body ++ lf)).
  - reflexivity.
  - rewrite append_assoc. symmetry. apply TrimSpace_crlf.
Qed.

Lemma Next_crlf_witness :
  Next (rt := refRuntime)
    (streamOver ("data: " ++ completedPayload ++ crlf ++ crlf))
  = Next (rt := refRuntime)
      (streamOver ("data: " ++ completedPayload ++ lf ++ crlf)).
Proof.
  apply (Next_crlf (rt := refRuntime) (streamOver "")
           ("data: " ++ completedPayload) crlf).
  - reflexivity.
  - reflexivity.
Defined.

(** ** From the request to the first event *)

(** X23.  When the server answers the stream request with 200 and a body
    that starts with a [data:] line, the stream [StreamTaskStatus] returns
    gives, at the first [Next], the result of decoding what follows the
    prefix on that line, and is then placed after the line. *)
Theorem StreamTaskStatus_first_event {rt : GoRuntime} (env : Env)
    (c : Client) (id : string) (w : World) (resp : Response)
    (x rest : string) :
  http_NewRequest "GET" (baseURL c ++ "/stream/" ++ id)%string = None ->
  http_Do env (sent w) (streamRequest c id) = Ok resp ->
  StatusCode resp = 200%Z ->
  Body resp = ("data:" ++ x ++ lf ++ rest)%string ->
  hasNewline x = false ->
  exists s : sseStream,
    StreamTaskStatus env c None id w
    = (Ok s, w ++ [EvSend (streamRequest c id)])
    /\ stream_TaskID s = id
    /\ Next s
       = (frameResult
            (json_Unmarshal_TaskStatus
               (strings_TrimSpace
                  (slice_from 5 (strings_TrimSpace ("data:" ++ x ++ lf))))),
          after_line s rest).
Proof.
  intros Hnew Hdo Hcode Hbody Hx.
  set (s0 := {| taskID := id; ctx := None;
                reader := {| unread := Body resp; exhausted := io_EOF |} |}).
  exists s0.
  split.
  { unfold StreamTaskStatus, bind, ret, httpClient_Do. cbv beta zeta.
    rewrite Hnew. fold (streamRequest c id). rewrite Hdo, Hcode.
    reflexivity. }
  split; [reflexivity|].
  assert (Hline : hasNewline ("data:" ++ x) = false).
  { rewrite hasNewline_app, Hx. reflexivity. }
  destruct (TrimSpace_plain_prefix "data:" (x ++ lf)) as [y Hy];
    [discriminate|repeat constructor|].
  rewrite (Next_frame s0 ("data:" ++ x) rest eq_refl Hline).
  - rewrite append_assoc. reflexivity.
  - simpl unread. rewrite Hbody, append_assoc. reflexivity.
  - rewrite append_assoc, Hy. reflexivity.
  - rewrite append_assoc, Hy. apply prefix_append.
Qed.

Lemma StreamTaskStatus_first_event_witness :
  exists s : sseStream,
    StreamTaskStatus (rt := refRuntime) (constantEnv 200 exampleBytes)
      testClient None "t" []
    = (Ok s, [EvSend (streamRequest testClient "t")])
    /\ fst (Next (rt := refRuntime) s) = (processingStatus, None).
Proof.
  destruct (StreamTaskStatus_first_event (rt := refRuntime)
              (constantEnv 200 exampleBytes) testClient "t" []
              {| StatusCode := 200; RespHeader := [];
                 Body := exampleBytes |}
              (" " ++ processingPayload)
              (lf ++ "data: " ++ completedPayload ++ lf ++ lf))
    as (s & Hopen & _ & Hnext).
  - reflexivity.
  - reflexivity.
  - reflexivity.
  - reflexivity.
  - reflexivity.
  - exists s. split; [exact Hopen|]. rewrite Hnext. reflexivity.
Defined.


(** X25.  A frame whose payload does not decode costs one call: [Next]
    returns the decoder's error and is placed after the frame, so the call
    that follows reads the frame that follows. *)
Theorem Next_after_malformed_frame {rt : GoRuntime} (s : sseStream)
    (bad good rest : string) (e : error) :
  ctx s = None ->
  hasNewline bad = false ->
  hasNewline good = false ->
  unread (reader s)
  = (("data:" ++ bad) ++ lf ++ ("data:" ++ good) ++ lf ++ rest)%string ->
  json_Unmarshal_TaskStatus
    (strings_TrimSpace
       (slice_from 5 (strings_TrimSpace (("data:" ++ bad) ++ lf))))
  = Err e ->
  fst (Next s) = (zeroTaskStatus, Some e)
  /\ Next (snd (Next s))
     = (frameResult
          (json_Unmarshal_TaskStatus
             (strings_TrimSpace
                (slice_from 5 (strings_TrimSpace (("data:" ++ good) ++ lf))))),
        after_line s rest).
Proof.
  intros Hctx Hbad Hgood Hin Hdec.
  assert (Hdata : forall x : string,
             String.eqb (strings_TrimSpace (("data:" ++ x) ++ lf)) ""
             || strings_HasPrefix (strings_TrimSpace (("data:" ++ x) ++ lf))
                  ":" = false
             /\ strings_HasPrefix (strings_TrimSpace (("data:" ++ x) ++ lf))
                  "data:" = true).
  { intros x. rewrite append_assoc.
    destruct (TrimSpace_plain_prefix "data:" (x ++ lf)) as [y ->];
      [discriminate|repeat constructor|].
    split; [reflexivity|apply prefix_append]. }
  assert (Hl1 : hasNewline ("data:" ++ bad) = false)
    by (rewrite hasNewline_app, Hbad; reflexivity).
  assert (Hl2 : hasNewline ("data:" ++ good) = false)
    by (rewrite hasNewline_app, Hgood; reflexivity).
  destruct (Hdata bad) as [Hb1 Hb2].
  destruct (Hdata good) as [Hg1 Hg2].
  rewrite (Next_frame s ("data:" ++ bad) (("data:" ++ good) ++ lf ++ rest)
             Hctx Hl1 Hin Hb1 Hb2).
  rewrite Hdec. simpl fst. simpl snd.
  split; [reflexivity|].
  rewrite (Next_frame (after_line s (("data:" ++ good) ++ lf ++ rest))
             ("data:" ++ good) rest Hctx Hl2 eq_refl Hg1 Hg2).
  reflexivity.
Qed.

Lemma Next_after_malformed_frame_witness :
  fst (Next (rt := refRuntime)
         (streamOver (("data:" ++ " {malformed}") ++ lf
                      ++ ("data:" ++ completedPayload) ++ lf ++ "")))
  = (zeroTaskStatus, Some RefRuntime.syntaxError).
Proof.
  apply (Next_after_malformed_frame (rt := refRuntime)
           (streamOver (("data:" ++ " {malformed}") ++ lf
                        ++ ("data:" ++ completedPayload) ++ lf ++ ""))
           " {malformed}" completedPayload "" RefRuntime.syntaxError).
  - reflexivity.
  - reflexivity.
  - reflexivity.
  - reflexivity.
  - reflexivity.
Defined.

(** ** files.go and the thread accessors *)



(** X27.  [ListFiles], [GetFile] and [DownloadFile] return a value only
    when the server answered 200, other 2xx statuses excluded; the value is
    then the decoding of the body, and for a download the body itself. *)
Theorem files_value_means_200 {rt : GoRuntime} (env : Env)
    (File FileListResponse : Type)
    (decode_File : string -> result File)
    (decode_FileListResponse : string -> result FileListResponse)
    (c : Client) (fileID : string) (limit offset : Z) (w : World) :
  (forall v : FileListResponse,
      fst (ListFiles env FileListResponse decode_FileListResponse c
             limit offset w) = Ok v ->
      exists resp : Response,
        fst (doRequest env c "GET"
               ("/files?limit=" ++ itoa limit ++ "&offset=" ++ itoa offset)
               None w) = Ok resp
        /\ StatusCode resp = 200%Z
        /\ decode_FileListResponse (Body resp) = Ok v)
  /\ (forall v : File,
         fst (GetFile env File decode_File c fileID w) = Ok v ->
         exists resp : Response,
           fst (doRequest env c "GET" ("/files/" ++ fileID) None w)
           = Ok resp
           /\ StatusCode resp = 200%Z
           /\ decode_File (Body resp) = Ok v)
  /\ (forall bytes : string,
         fst (DownloadFile env c fileID w) = Ok bytes ->
         exists resp : Response,
           fst (doRequest env c "GET" ("/files/" ++ fileID ++ "/content")
                  None w) = Ok resp
           /\ StatusCode resp = 200%Z
           /\ Body resp = bytes).
Proof.
  unfold ListFiles, GetFile, DownloadFile, bind, ret.
  split; [|split].
  - intros v.
    destruct (doRequest env c "GET"
                ("/files?limit=" ++ itoa limit ++ "&offset=" ++ itoa offset)
                None w) as [[resp|e] w1]; simpl; [|discriminate].
    destruct (Z.eqb_spec (StatusCode resp) 200) as [Hc|Hc]; simpl;
      [|discriminate].
    destruct (decode_FileListResponse (Body resp)) as [v'|e] eqn:Hd; simpl;
      [|discriminate].
    intros H. injection H as <-. exists resp. auto.
  - intros v.
    destruct (doRequest env c "GET" ("/files/" ++ fileID) None w)
      as [[resp|e] w1]; simpl; [|discriminate].
    destruct (Z.eqb_spec (StatusCode resp) 200) as [Hc|Hc]; simpl;
      [|discriminate].
    destruct (decode_File (Body resp)) as [v'|e] eqn:Hd; simpl;
      [|discriminate].
    intros H. injection H as <-. exists resp. auto.
  - intros bytes.
    destruct (doRequest env c "GET" ("/files/" ++ fileID ++ "/content")
                None w) as [[resp|e] w1]; simpl; [|discriminate].
    destruct (Z.eqb_spec (StatusCode resp) 200) as [Hc|Hc]; simpl;
      [|discriminate].
    intros H. injection H as <-. exists resp. auto.
Qed.

(** X28.  [ListThreads], [GetThread] and [GetThreadMessages] return a value
    only when the server answered 200, and the value is then the decoding
    of the body. *)
Theorem threads_value_means_200 {rt : GoRuntime} (env : Env)
    (Thread ThreadListResponse ThreadMessagesResponse : Type)
    (decode_Thread : string -> result Thread)
    (decode_ThreadListResponse : string -> result ThreadListResponse)
    (decode_ThreadMessagesResponse :
       string -> result ThreadMessagesResponse)
    (c : Client) (threadID limit offset : Z) (w : World) :
  (forall v : ThreadListResponse,
      fst (ListThreads env ThreadListResponse decode_ThreadListResponse c
             limit offset w) = Ok v ->
      exists resp : Response,
        fst (doRequest env c "GET"
               ("/threads?limit=" ++ itoa limit ++ "&offset=" ++ itoa offset)
               None w) = Ok resp
        /\ StatusCode resp = 200%Z
        /\ decode_ThreadListResponse (Body resp) = Ok v)
  /\ (forall v : Thread,
         fst (GetThread env Thread decode_Thread c threadID w) = Ok v ->
         exists resp : Response,
           fst (doRequest env c "GET" ("/threads/" ++ itoa threadID) None w)
           = Ok resp
           /\ StatusCode resp = 200%Z
           /\ decode_Thread (Body resp) = Ok v)
  /\ (forall v : ThreadMessagesResponse,
         fst (GetThreadMessages env ThreadMessagesResponse
                decode_ThreadMessagesResponse c threadID limit offset w)
         = Ok v ->
         exists resp : Response,
           fst (doRequest env c "GET"
                  ("/threads/" ++ itoa threadID ++ "/messages?limit="
                   ++ itoa limit ++ "&offset=" ++ itoa offset) None w)
           = Ok resp
           /\ StatusCode resp = 200%Z
           /\ decode_ThreadMessagesResponse (Body resp) = Ok v).
Proof.
  unfold ListThreads, GetThread, GetThreadMessages, bind, ret.
  split; [|split].
  - intros v.
    destruct (doRequest env c "GET"
                ("/threads?limit=" ++ itoa limit ++ "&offset=" ++ itoa offset)
                None w) as [[resp|e] w1]; simpl; [|discriminate].
    destruct (Z.eqb_spec (StatusCode resp) 200) as [Hc|Hc]; simpl;
      [|discriminate].
    destruct (decode_ThreadListResponse (Body resp)) as [v'|e] eqn:Hd; simpl;
      [|discriminate].
    intros H. injection H as <-. exists resp. auto.
  - intros v.
    destruct (doRequest env c "GET" ("/threads/" ++ itoa threadID) None w)
      as [[resp|e] w1]; simpl; [|discriminate].
    destruct (Z.eqb_spec (StatusCode resp) 200) as [Hc|Hc]; simpl;
      [|discriminate].
    destruct (decode_Thread (Body resp)) as [v'|e] eqn:Hd; simpl;
      [|discriminate].
    intros H. injection H as <-. exists resp. auto.
  - intros v.
    destruct (doRequest env c "GET"
                ("/threads/" ++ itoa threadID ++ "/messages?limit="
                 ++ itoa limit ++ "&offset=" ++ itoa offset) None w)
      as [[resp|e] w1]; simpl; [|discriminate].
    destruct (Z.eqb_spec (StatusCode resp) 200) as [Hc|Hc]; simpl;
      [|discriminate].
    destruct (decode_ThreadMessagesResponse (Body resp)) as [v'|e] eqn:Hd;
      simpl; [|discriminate].
    intros H. injection H as <-. exists resp. auto.
Qed.

(** The decimal rendering of [%d] can be read back. *)
Lemma itoa_inj (a b : Z) : itoa a = itoa b -> a = b.
Proof.
  unfold itoa. intros H.
  assert (Hback : forall z : Z,
             NilZero.int_of_string (NilZero.string_of_int (Z.to_int z))
             = Some (Z.to_int z)).
  { intros z. apply NilZero.isi; destruct z; simpl; try discriminate;
      intros Hz; injection Hz as Hz;
      exact (DecimalPos.Unsigned.to_uint_nonnil _ Hz). }
  apply (f_equal NilZero.int_of_string) in H.
  rewrite !Hback in H. injection H as H.
  apply DecimalZ.to_int_inj. exact H.
Qed.

Lemma append_cancel_l (p x y : string) :
  (p ++ x)%string = (p ++ y)%string -> x = y.
Proof.
  induction p as [|a p IH]; simpl; intros H; [exact H|].
  injection H as H. apply IH. exact H.
Qed.

(** X29.  The thread identifier is written in decimal into the path, and
    can be read back from it: requests of [GetThread] for two different
    threads go to two different URLs. *)
Theorem GetThread_distinct_urls {rt : GoRuntime} (env : Env) (Thread : Type)
    (decode_Thread : string -> result Thread) (c : Client)
    (t1 t2 : Z) (w1 w2 : World) :
  t1 <> t2 ->
  exists evs1 evs2 : list Event,
    snd (GetThread env Thread decode_Thread c t1 w1) = w1 ++ evs1
    /\ snd (GetThread env Thread decode_Thread c t2 w2) = w2 ++ evs2
    /\ forall req1 req2 : Request,
         In req1 (requests evs1) -> In req2 (requests evs2) ->
         URL req1 <> URL req2.
Proof.
  intros Hne.
  assert (Hrun : forall (t : Z) (w : World),
             exists evs : list Event,
               snd (GetThread env Thread decode_Thread c t w) = w ++ evs
               /\ forall req : Request,
                    In req (requests evs) ->
                    URL req = (baseURL c ++ "/threads/" ++ itoa t)%string).
  { intros t w.
    destruct (doRequest_run env c "GET" ("/threads/" ++ itoa t)%string None w)
      as (evs & Hw & Hres).
    exists evs. split.
    - unfold GetThread, bind, ret.
      destruct (doRequest env c "GET" ("/threads/" ++ itoa t)%string None w)
        as [[resp|e] w']; simpl in *; [|exact Hw].
      destruct (negb (StatusCode resp =? 200)%Z); [exact Hw|].
      destruct (decode_Thread (Body resp)); exact Hw.
    - intros req Hin.
      destruct (fst (doRequest env c "GET" ("/threads/" ++ itoa t)%string
                       None w)) as [resp|e].
      + destruct Hres as (jb & _ & _ & ->).
        destruct (responseHook c); simpl in Hin;
          destruct Hin as [<- | []]; reflexivity.
      + destruct Hres as [-> | (jb & _ & _ & ->)]; [destruct Hin|].
        simpl in Hin. destruct Hin as [<- | []]. reflexivity. }
  destruct (Hrun t1 w1) as (evs1 & Hw1 & Hu1).
  destruct (Hrun t2 w2) as (evs2 & Hw2 & Hu2).
  exists evs1, evs2. split; [exact Hw1|]. split; [exact Hw2|].
  intros req1 req2 H1 H2 Heq.
  rewrite (Hu1 req1 H1), (Hu2 req2 H2) in Heq.
  apply append_cancel_l in Heq.
  apply (append_cancel_l "/threads/") in Heq.
  apply itoa_inj in Heq. contradiction.
Qed.

Lemma GetThread_distinct_urls_witness :
  exists evs1 evs2 : list Event,
    snd (GetThread (rt := refRuntime) (constantEnv 200 "{}") unit
           (fun _ => Ok tt) testClient 7 []) = [] ++ evs1
    /\ snd (GetThread (rt := refRuntime) (constantEnv 200 "{}") unit
              (fun _ => Ok tt) testClient (-7) []) = [] ++ evs2
    /\ forall req1 req2 : Request,
         In req1 (requests evs1) -> In req2 (requests evs2) ->
         URL req1 <> URL req2.
Proof.
  apply (GetThread_distinct_urls (rt := refRuntime) (constantEnv 200 "{}")
           unit (fun _ => Ok tt) testClient 7 (-7) [] []).
  discriminate.
Defined.

(** [doRequest], as the claims use it, is [doRequestOf] at the marshalling
    of a task submission. *)
Lemma doRequest_doRequestOf {rt : GoRuntime} (env : Env) (c : Client)
    (method path : string) (body : option SubmitBody) :
  doRequest env c method path body
  = doRequestOf json_Marshal env c method path body.
Proof. reflexivity. Qed.

(** X30.  [RunInThread] refuses the empty prompt before anything is sent,
    whatever the thread and the other options.  It returns a value only for
    a non-empty prompt and a response whose status is from 200 to 299, 201
    included, and the value is then the decoding of the body. *)
Theorem RunInThread_guard_and_status {rt : GoRuntime} (env : Env)
    (ThreadRunResponse : Type)
    (decode_ThreadRunResponse : string -> result ThreadRunResponse)
    (marshal_RunBody : Threads.RunBody -> result string)
    (c : Client) (threadID : Z) (opts : Threads.ThreadRunOptions)
    (w : World) :
  (Threads.Prompt opts = ""%string ->
   RunInThread env ThreadRunResponse decode_ThreadRunResponse
     marshal_RunBody c threadID opts w
   = (Err (Errorf "prompt is required"), w))
  /\ (forall v : ThreadRunResponse,
         fst (RunInThread env ThreadRunResponse decode_ThreadRunResponse
                marshal_RunBody c threadID opts w) = Ok v ->
         Threads.Prompt opts <> ""%string
         /\ exists (body : Threads.RunBody) (resp : Response),
              Threads.prompt body = Threads.Prompt opts
              /\ fst (doRequestOf marshal_RunBody env c "POST"
                        ("/threads/" ++ itoa threadID ++ "/runs")
                        (Some body) w) = Ok resp
              /\ (200 <= StatusCode resp < 300)%Z
              /\ decode_ThreadRunResponse (Body resp) = Ok v).
Proof.
  unfold RunInThread. split.
  - intros ->. reflexivity.
  - intros v.
    destruct (String.eqb_spec (Threads.Prompt opts) "") as [Hp|Hp];
      [discriminate|].
    unfold bind, ret, notSuccess.
    match goal with
    | |- context [doRequestOf _ _ _ _ _ (Some ?b) w] => set (body := b)
    end.
    destruct (doRequestOf marshal_RunBody env c "POST"
                ("/threads/" ++ itoa threadID ++ "/runs") (Some body) w)
      as [[resp|e] w1] eqn:Hreq; simpl; [|discriminate].
    destruct (Z.ltb_spec (StatusCode resp) 200); simpl; [discriminate|].
    destruct (Z.leb_spec 300 (StatusCode resp)); simpl; [discriminate|].
    destruct (decode_ThreadRunResponse (Body resp)) as [v'|e] eqn:Hd; simpl;
      [|discriminate].
    intros H'. injection H' as <-.
    split; [exact Hp|].
    exists body, resp.
    split; [reflexivity|].
    split; [exact (f_equal fst Hreq)|].
    split; [lia|exact Hd].
Qed.
